(** * StablePay settlement core

    A shallow embedding of the settlement logic of the StablePay backend
    (on-ramp webhook settlement, off-ramp cashout requests, payroll batch
    reconciliation, the bounded transfer retry and the cashout message
    format), with the properties of its specification stated and proved
    over the embedding.

    Conventions.  A JavaScript string is the [string] of the bytes of its
    UTF-8 encoding; case conversion acts on the ASCII letters, and regular
    expressions are run on ASCII text: on anything else the answer of the
    JavaScript engine is a collaborator.  JavaScript numbers are the
    kernel's binary64 floats; the database tables are lists of rows held in
    an explicit state; every external collaborator (chain node, payment
    processor, rate service, signature recovery) is a field of a [World]
    record read by the handler, and every call that moves value is appended
    to a log held in the state. *)

From Stdlib Require Import ZArith List String Ascii Bool Lia Floats DecimalString.
Import ListNotations.

Local Open Scope list_scope.
Local Open Scope string_scope.

(* ================================================================== *)
(** * JavaScript primitives *)
(* ================================================================== *)

Module JS.

Definition LF : ascii := ascii_of_N 10.
Definition CR : ascii := ascii_of_N 13.
Definition TAB : ascii := ascii_of_N 9.

Definition is_upper (c : ascii) : bool :=
  let n := N_of_ascii c in (65 <=? n)%N && (n <=? 90)%N.

Definition is_lower (c : ascii) : bool :=
  let n := N_of_ascii c in (97 <=? n)%N && (n <=? 122)%N.

Definition is_digit (c : ascii) : bool :=
  let n := N_of_ascii c in (48 <=? n)%N && (n <=? 57)%N.

Definition is_alnum (c : ascii) : bool :=
  is_upper c || is_lower c || is_digit c.

(** A byte that is a character of its own: a code point below 128. *)
Definition is_ascii (c : ascii) : bool := (N_of_ascii c <? 128)%N.

Definition lower_char (c : ascii) : ascii :=
  if is_upper c then ascii_of_N (N_of_ascii c + 32) else c.

Definition upper_char (c : ascii) : ascii :=
  if is_lower c then ascii_of_N (N_of_ascii c - 32) else c.

(** [String.prototype.toLowerCase], on the ASCII letters: the handlers
    lower addresses, currency codes and signed messages. *)
Fixpoint toLowerCase (s : string) : string :=
  match s with
  | EmptyString => EmptyString
  | String c s' => String (lower_char c) (toLowerCase s')
  end.

(** [String.prototype.toUpperCase], on the ASCII letters. *)
Fixpoint toUpperCase (s : string) : string :=
  match s with
  | EmptyString => EmptyString
  | String c s' => String (upper_char c) (toUpperCase s')
  end.

(** Truthiness of a string value: every string but the empty one. *)
Definition truthy (s : string) : bool :=
  match s with EmptyString => false | String _ _ => true end.

(** Truthiness of a nullable string ([null] and [undefined] are falsy). *)
Definition truthy_opt (o : option string) : bool :=
  match o with Some s => truthy s | None => false end.

(** [a || b] on strings. *)
Definition or_else (a b : string) : string := if truthy a then a else b.

(** [String.prototype.includes]. *)
Fixpoint includes (s sub : string) : bool :=
  String.prefix sub s ||
  match s with
  | EmptyString => false
  | String _ s' => includes s' sub
  end.

Fixpoint all_chars (p : ascii -> bool) (s : string) : bool :=
  match s with
  | EmptyString => true
  | String c s' => p c && all_chars p s'
  end.

(** A string of ASCII characters only. *)
Definition ascii_only (s : string) : bool := all_chars is_ascii s.

(** ** Numbers (binary64) *)

(** The binary64 value nearest to [m * 2^e], ties to even. *)
Definition Z2float (m e : Z) : float :=
  SF2Prim (binary_normalize prec emax m e false).

(** The binary64 value nearest to [d * 10^k], for [0 <= d]: an integer when
    [0 <= k]; otherwise the quotient [d / 10^(-k)] is computed with more
    than 64 significant bits and a sticky bit, so that the single rounding
    of [binary_normalize] is the correct one. *)
Definition decimal_to_float (d k : Z) : float :=
  if (0 <=? k)%Z then Z2float (d * 10 ^ k) 0
  else
    let den := (10 ^ (- k))%Z in
    let s := (64 + 4 * (- k))%Z in
    let n := (d * 2 ^ s)%Z in
    let q := (n / den)%Z in
    let sticky := if (n mod den =? 0)%Z then 0%Z else 1%Z in
    Z2float (2 * q + sticky) (- s - 1).

(** The white space and line terminators of one byte: TAB, LF, VT, FF, CR
    and the space. *)
Definition is_space (c : ascii) : bool :=
  let n := N_of_ascii c in
  ((9 <=? n)%N && (n <=? 13)%N) || (n =? 32)%N.

(** The white space of two bytes: U+00A0, the no-break space. *)
Definition is_space2 (c1 c2 : ascii) : bool :=
  (N_of_ascii c1 =? 194)%N && (N_of_ascii c2 =? 160)%N.

(** The white space and line terminators of three bytes: U+1680; U+2000 to
    U+200A, U+2028, U+2029 and U+202F; U+205F; U+3000; U+FEFF. *)
Definition is_space3 (c1 c2 c3 : ascii) : bool :=
  let n1 := N_of_ascii c1 in
  let n2 := N_of_ascii c2 in
  let n3 := N_of_ascii c3 in
  ((n1 =? 225) && (n2 =? 154) && (n3 =? 128))%N
  || ((n1 =? 226) && (n2 =? 128)
      && (((128 <=? n3) && (n3 <=? 138)) || (n3 =? 168) || (n3 =? 169)
          || (n3 =? 175)))%N
  || ((n1 =? 226) && (n2 =? 129) && (n3 =? 159))%N
  || ((n1 =? 227) && (n2 =? 128) && (n3 =? 128))%N
  || ((n1 =? 239) && (n2 =? 187) && (n3 =? 191))%N.

(** The text after its leading white space ([StrWhiteSpaceChar]). *)
Fixpoint skip_spaces (s : list ascii) : list ascii :=
  match s with
  | c1 :: s1 =>
    if is_space c1 then skip_spaces s1
    else
      match s1 with
      | c2 :: s2 =>
        if is_space2 c1 c2 then skip_spaces s2
        else
          match s2 with
          | c3 :: s3 => if is_space3 c1 c2 c3 then skip_spaces s3 else s
          | [] => s
          end
      | [] => s
      end
  | [] => []
  end.

(** The longest prefix of digits, and what follows it. *)
Fixpoint take_digits (s : list ascii) : list ascii * list ascii :=
  match s with
  | c :: s' =>
    if is_digit c
    then let '(ds, rest) := take_digits s' in (c :: ds, rest)
    else ([], s)
  | [] => ([], [])
  end.

Definition digits_value (ds : list ascii) : Z :=
  fold_left (fun acc c => (10 * acc + Z.of_N (N_of_ascii c - 48))%Z) ds 0%Z.

(** An optional sign: is it [-], and what follows it. *)
Definition read_sign (s : list ascii) : bool * list ascii :=
  match s with
  | c :: s' =>
    if Ascii.eqb c "-" then (true, s')
    else if Ascii.eqb c "+" then (false, s')
    else (false, s)
  | [] => (false, [])
  end.

(** The exponent part [e] or [E], optional sign, digits; 0 when absent or
    when no digit follows. *)
Definition read_exponent (s : list ascii) : Z :=
  match s with
  | c :: s' =>
    if Ascii.eqb c "e" || Ascii.eqb c "E" then
      let '(neg, s'') := read_sign s' in
      match fst (take_digits s'') with
      | [] => 0%Z
      | ds => if neg then (- digits_value ds)%Z else digits_value ds
      end
    else 0%Z
  | [] => 0%Z
  end.

Fixpoint starts_with (p s : list ascii) : bool :=
  match p, s with
  | [], _ => true
  | a :: p', b :: s' => Ascii.eqb a b && starts_with p' s'
  | _ :: _, [] => false
  end.

(** [parseFloat]: leading white space is skipped, the longest prefix that
    is a decimal literal is converted, [NaN] when there is none. *)
Definition parseFloat (str : string) : float :=
  let s0 := skip_spaces (list_ascii_of_string str) in
  let '(neg, s1) := read_sign s0 in
  let magnitude :=
    if starts_with (list_ascii_of_string "Infinity") s1 then infinity
    else
      let '(ip, s2) := take_digits s1 in
      let '(fp, s3) :=
        match s2 with
        | c :: t => if Ascii.eqb c "." then take_digits t else ([], s2)
        | [] => ([], s2)
        end in
      match (ip ++ fp)%list with
      | [] => nan
      | ds =>
        decimal_to_float (digits_value ds)
                         (read_exponent s3 - Z.of_nat (List.length fp))
      end in
  if neg then PrimFloat.opp magnitude else magnitude.

(** [a > b], [a < b], [a <= b] on numbers (false when either is [NaN]). *)
Definition gt (a b : float) : bool := PrimFloat.ltb b a.
Definition lt (a b : float) : bool := PrimFloat.ltb a b.
Definition le (a b : float) : bool := PrimFloat.leb a b.

(** The literal [0.01]. *)
Definition tolerance : float := 0x1.47ae147ae147bp-7%float.

(** [Math.abs(a - b) > 0.01]. *)
Definition exceeds_tolerance (a b : float) : bool :=
  gt (PrimFloat.abs (PrimFloat.sub a b)) tolerance.

(** ** Text produced from numbers *)

(** A string value, kept symbolic when it is the rendering of a number:
    [x.toString()] (also [String(x)]) and [x.toFixed(d)]. *)
Inductive text : Type :=
| Str (s : string)
| NumToString (x : float)
| NumToFixed (d : nat) (x : float).

(** The rendering of a number is never the empty string. *)
Definition text_truthy (t : text) : bool :=
  match t with
  | Str s => truthy s
  | _ => true
  end.

(** ** Thrown values *)

(** An [Error]-like object: its message (absent when [undefined]) and the
    [code] and [type] tags that RPC and processor errors carry. *)
Record error : Type := mkError {
  message : option string;
  code : option string;
  etype : option string
}.

(** [new Error(msg)]. *)
Definition Error (msg : string) : error := mkError (Some msg) None None.

(** Interpolation of [error.message] in a template literal. *)
Definition show_message (e : error) : string :=
  match message e with Some m => m | None => "undefined" end.

(** Interpolation of the error object itself: [Error.prototype.toString]. *)
Definition show_error (e : error) : string :=
  match message e with
  | Some EmptyString | None => "Error"
  | Some m => ("Error: " ++ m)%string
  end.

(** [error.message || fallback]. *)
Definition message_or (e : error) (fallback : string) : string :=
  match message e with
  | Some m => or_else m fallback
  | None => fallback
  end.

(** The decimal rendering of a natural number. *)
Definition show_nat (n : nat) : string :=
  NilEmpty.string_of_uint (Nat.to_uint n).

End JS.

(* ================================================================== *)
(** * Regular expressions: the fragment used by the message validator *)
(* ================================================================== *)

(** [new RegExp(source, 'i')] and [RegExp.prototype.test] for pattern sources
    made of literal characters, [.], the escapes [\n], [\r], [\t] and
    escaped punctuation, each optionally followed by one of the quantifiers
    [*], [+], [?].  A source that uses anything else (groups, classes,
    alternation, anchors, braces, class escapes) or that is malformed
    compiles to [None]: it is outside the fragment, or a [SyntaxError].
    The fragment is run on ASCII sources and ASCII text only, where a
    character is one byte, the line terminators are the line feed and the
    carriage return, and case folding is the one of the ASCII letters. *)

Module Regex.

Inductive atom : Type :=
| Lit (c : ascii)
| Dot.

Inductive quant : Type := Once | Plus | Star | Opt.

Definition item : Type := (atom * quant)%type.

Inductive cls : Type :=
| CBackslash
| CQuant (q : quant)
| CDot
| CUnsupported
| CLit.

Definition classify (c : ascii) : cls :=
  match N_of_ascii c with
  | 92 => CBackslash                       (* backslash *)
  | 42 => CQuant Star                      (* star *)
  | 43 => CQuant Plus                      (* plus *)
  | 63 => CQuant Opt                       (* question mark *)
  | 46 => CDot                             (* dot *)
  | 40 | 41 | 91 | 93 | 123 | 125 | 124 | 94 | 36 => CUnsupported
                                           (* ( ) [ ] { } | ^ $ *)
  | _ => CLit
  end%N.

Definition escape (e : ascii) : option atom :=
  match N_of_ascii e with
  | 110 => Some (Lit JS.LF)                (* n: line feed *)
  | 114 => Some (Lit JS.CR)                (* r: carriage return *)
  | 116 => Some (Lit JS.TAB)               (* t: tab *)
  | _ => match classify e with
         | CLit => if JS.is_alnum e then None else Some (Lit e)
         | _ => Some (Lit e)               (* escaped syntax character *)
         end
  end%N.

Fixpoint parse_acc (acc : list item) (p : list ascii) : option (list item) :=
  match p with
  | [] => Some (rev acc)
  | c :: p' =>
    match classify c with
    | CBackslash =>
      match p' with
      | e :: p'' =>
        match escape e with
        | Some a => parse_acc ((a, Once) :: acc) p''
        | None => None
        end
      | [] => None
      end
    | CQuant q =>
      match acc with
      | (a, Once) :: acc' => parse_acc ((a, q) :: acc') p'
      | _ => None
      end
    | CDot => parse_acc ((Dot, Once) :: acc) p'
    | CUnsupported => None
    | CLit => parse_acc ((Lit c, Once) :: acc) p'
    end
  end.

(** A compiled expression: its items and whether the [i] flag is set. *)
Record regexp : Type := mkRegExp { items : list item; ignoreCase : bool }.

(** [new RegExp(source, flags)] with [flags] either empty or ['i']. *)
Definition compile (source : string) (ignore_case : bool) : option regexp :=
  match parse_acc [] (list_ascii_of_string source) with
  | Some its => Some (mkRegExp its ignore_case)
  | None => None
  end.

(** The line terminators among the ASCII characters. *)
Definition is_line_terminator (c : ascii) : bool :=
  Ascii.eqb c JS.LF || Ascii.eqb c JS.CR.

(** Canonicalize of the specification of case-insensitive matching. *)
Definition canonicalize (ci : bool) (c : ascii) : ascii :=
  if ci then JS.upper_char c else c.

Definition atom_matches (ci : bool) (a : atom) (c : ascii) : bool :=
  match a with
  | Lit x => Ascii.eqb (canonicalize ci x) (canonicalize ci c)
  | Dot => negb (is_line_terminator c)
  end.

(** Zero or more characters accepted by [a], then the continuation. *)
Fixpoint match_star (ci : bool) (a : atom) (k : list ascii -> bool)
         (s : list ascii) : bool :=
  k s ||
  match s with
  | c :: s' => atom_matches ci a c && match_star ci a k s'
  | [] => false
  end.

Definition match_one (ci : bool) (a : atom) (k : list ascii -> bool)
           (s : list ascii) : bool :=
  match s with
  | c :: s' => atom_matches ci a c && k s'
  | [] => false
  end.

(** Does the expression match a prefix of [s]? *)
Fixpoint match_here (ci : bool) (r : list item) : list ascii -> bool :=
  match r with
  | [] => fun _ => true
  | (a, q) :: r' =>
    let k := match_here ci r' in
    match q with
    | Once => match_one ci a k
    | Plus => match_one ci a (match_star ci a k)
    | Star => match_star ci a k
    | Opt => fun s => k s || match_one ci a k s
    end
  end.

(** Does the expression match somewhere in [s]? *)
Fixpoint search (ci : bool) (r : list item) (s : list ascii) : bool :=
  match_here ci r s ||
  match s with
  | _ :: s' => search ci r s'
  | [] => false
  end.

(** [RegExp.prototype.test] (no [g] or [y] flag: the search starts at 0). *)
Definition test (re : regexp) (s : string) : bool :=
  search (ignoreCase re) (items re) (list_ascii_of_string s).

End Regex.

(* ================================================================== *)
(** * utils/signature.ts *)
(* ================================================================== *)

Module Signature.

Definition nl : string := String JS.LF EmptyString.

(** [ethers.verifyMessage(message, signature)]: the recovered address, or
    [None] when recovery throws. *)
Definition Recover : Type := string -> string -> option string.

Definition verifySignature (verifyMessage : Recover)
           (message signature expectedAddress : string) : bool :=
  match verifyMessage message signature with
  | Some recoveredAddress =>
    String.eqb (JS.toLowerCase recoveredAddress) (JS.toLowerCase expectedAddress)
  | None => false
  end.

Definition createCashoutMessage (address amount timestamp : string) : string :=
  ("I request cashout " ++ amount ++ " USDT at " ++ timestamp
     ++ nl ++ nl ++ "Address: " ++ address)%string.

(** The three pattern sources; in them [\n] is the two-character escape. *)
Definition pattern1 (amount normalizedAddress : string) : string :=
  ("I request cashout " ++ amount ++ " USDT at .+\n\nAddress: "
     ++ normalizedAddress)%string.

Definition pattern2 (amount normalizedAddress : string) : string :=
  ("I request cashout " ++ amount ++ " USDT at .+\nAddress: "
     ++ normalizedAddress)%string.

Definition pattern3 (amount normalizedAddress : string) : string :=
  ("I request cashout " ++ amount ++ " USDT at .+ Address: "
     ++ normalizedAddress)%string.

(** What the JavaScript engine makes of [validateCashoutMessage(message,
    address, amount)]: its result, or the [SyntaxError] thrown when one of
    the three expressions cannot be built.  It is consulted for the
    arguments that [Regex] does not run. *)
Definition Engine : Type := string -> string -> string -> JS.error + bool.

(** The arguments [Regex] runs: ASCII text, and sources of the fragment. *)
Definition ascii_arguments (message address amount : string) : bool :=
  JS.ascii_only message && JS.ascii_only address && JS.ascii_only amount.

(** [validateCashoutMessage]: the three expressions are built, then tested
    in turn on the message in lower case. *)
Definition validateCashoutMessage (engine : Engine)
           (message address amount : string) : JS.error + bool :=
  let normalizedAddress := JS.toLowerCase address in
  if ascii_arguments message address amount then
    match Regex.compile (pattern1 amount normalizedAddress) true,
          Regex.compile (pattern2 amount normalizedAddress) true,
          Regex.compile (pattern3 amount normalizedAddress) true with
    | Some p1, Some p2, Some p3 =>
      let m := JS.toLowerCase message in
      inr (Regex.test p1 m || Regex.test p2 m || Regex.test p3 m)
    | _, _, _ => engine message address amount
    end
  else engine message address amount.

End Signature.


(* ================================================================== *)
(** * The ledger: models and database services *)
(* ================================================================== *)

(** The tables are lists of rows.  The store is taken to be available: a
    database operation returns, and throws only where a [UNIQUE] constraint
    is violated.  A row holds what the statement wrote: how a column type
    renders a value (an amount is [REAL] in SQLite and [DECIMAL(18,6)] in
    PostgreSQL) is not modelled, and no property is stated of it; the
    handlers read an amount column through [parseFloat], test it for truth,
    or hand it to the chain library. *)

(** ** models/Payment.ts *)

Module Payment.

Inductive Status : Type := pending | processing | completed | failed | canceled.

Definition Status_eqb (a b : Status) : bool :=
  match a, b with
  | pending, pending | processing, processing | completed, completed
  | failed, failed | canceled, canceled => true
  | _, _ => false
  end.

Record Payment : Type := mkPayment {
  id : nat;
  payment_intent_id : string;
  wallet_address : string;
  amount_fiat : string;
  fiat_currency : string;
  amount_usdt : JS.text;
  exchange_rate : JS.text;
  tx_hash : option string;
  block_number : option Z;
  status : Status;
  error_message : option string;
  created_at : Z;
  updated_at : Z;
  completed_at : option Z
}.

Definition override {A : Type} (new : option A) (old : option A) : option A :=
  match new with Some _ => new | None => old end.

End Payment.

(** ** models/Cashout.ts and services/cashoutService.ts *)

Module Cashout.

Inductive Status : Type :=
  pending_transfer | pending_payout | in_transit | paid | failed | canceled.

Definition is_paid (s : option Status) : bool :=
  match s with Some paid => true | _ => false end.

Record Cashout : Type := mkCashout {
  id : nat;
  employee_address : string;
  amount_usdt : string;
  fiat_currency : string;
  fiat_amount : option JS.text;
  exchange_rate : option JS.text;
  tx_hash_onchain : string;
  payout_id_stripe : option string;
  stripe_bank_account_id : option string;
  status : Status;
  error_message : option string;
  created_at : Z;
  updated_at : Z;
  completed_at : option Z
}.

(** [value || null] for an optional text column. *)
Definition text_or_null (t : option JS.text) : option JS.text :=
  match t with
  | Some v => if JS.text_truthy v then Some v else None
  | None => None
  end.

Definition string_or_null (s : option string) : option string :=
  match s with
  | Some v => if JS.truthy v then Some v else None
  | None => None
  end.

(** [createCashout]: the row inserted for the given data (the address is
    stored in lower case, empty optional columns as [null]). *)
Definition createCashout (now : Z) (fresh : nat)
           (employee_address amount_usdt fiat_currency : string)
           (fiat_amount exchange_rate : option JS.text)
           (tx_hash_onchain : string)
           (payout_id_stripe stripe_bank_account_id : option string)
           (status : Status) (error_message : option string) : Cashout :=
  mkCashout fresh (JS.toLowerCase employee_address) amount_usdt fiat_currency
            (text_or_null fiat_amount) (text_or_null exchange_rate)
            tx_hash_onchain
            (string_or_null payout_id_stripe)
            (string_or_null stripe_bank_account_id)
            status (string_or_null error_message) now now None.

(** The argument of [updateCashout]; [None] is [undefined]. *)
Record Updates : Type := mkUpdates {
  set_amount_usdt : option string;
  set_fiat_currency : option string;
  set_fiat_amount : option JS.text;
  set_exchange_rate : option JS.text;
  set_payout_id_stripe : option string;
  set_stripe_bank_account_id : option string;
  set_status : option Status;
  set_error_message : option string;
  set_completed_at : option Z
}.

Definition is_some {A : Type} (o : option A) : bool :=
  match o with Some _ => true | None => false end.

(** [fields.length === 0]: nothing to update. *)
Definition no_fields (u : Updates) : bool :=
  negb (is_some (set_amount_usdt u) || is_some (set_fiat_currency u)
        || is_some (set_fiat_amount u) || is_some (set_exchange_rate u)
        || is_some (set_payout_id_stripe u)
        || is_some (set_stripe_bank_account_id u)
        || is_some (set_status u) || is_some (set_error_message u)
        || is_some (set_completed_at u) || is_paid (set_status u)).

Definition override {A : Type} (new : option A) (old : option A) : option A :=
  match new with Some _ => new | None => old end.

Definition apply_updates (now : Z) (u : Updates) (c : Cashout) : Cashout :=
  mkCashout (id c) (employee_address c)
            (match set_amount_usdt u with Some v => v | None => amount_usdt c end)
            (match set_fiat_currency u with Some v => v | None => fiat_currency c end)
            (override (set_fiat_amount u) (fiat_amount c))
            (override (set_exchange_rate u) (exchange_rate c))
            (tx_hash_onchain c)
            (override (set_payout_id_stripe u) (payout_id_stripe c))
            (override (set_stripe_bank_account_id u) (stripe_bank_account_id c))
            (match set_status u with Some v => v | None => status c end)
            (override (set_error_message u) (error_message c))
            (created_at c) now
            (if is_some (set_completed_at u) || is_paid (set_status u)
             then match set_completed_at u with
                  | Some t => Some t
                  | None => if is_paid (set_status u) then Some now else None
                  end
             else completed_at c).

(** [updateCashout]: [UPDATE cashouts SET ... WHERE id = cashoutId]. *)
Definition updateCashout (now : Z) (cashoutId : nat) (u : Updates)
           (rows : list Cashout) : list Cashout :=
  if no_fields u then rows
  else map (fun c => if Nat.eqb (id c) cashoutId then apply_updates now u c else c)
           rows.

Definition getCashoutById (cashoutId : nat) (rows : list Cashout)
  : option Cashout :=
  find (fun c => Nat.eqb (id c) cashoutId) rows.

Definition getCashoutByPayoutId (payoutId : string) (rows : list Cashout)
  : option Cashout :=
  find (fun c => match payout_id_stripe c with
                 | Some p => String.eqb p payoutId
                 | None => false
                 end) rows.

(** [SELECT * FROM cashouts WHERE tx_hash_onchain = ? LIMIT 1]. *)
Definition getCashoutByTxHash (txHash : string) (rows : list Cashout)
  : option Cashout :=
  find (fun c => String.eqb (tx_hash_onchain c) txHash) rows.

(** The updates the controllers issue. *)
Definition only_status (s : Status) : Updates :=
  mkUpdates None None None None None None (Some s) None None.

Definition status_and_error (s : Status) (e : string) : Updates :=
  mkUpdates None None None None None None (Some s) (Some e) None.

End Cashout.

(** ** The payroll rows and services/payrollService.ts *)

Module Payroll.

Inductive Status : Type := pending | completed | failed.

Record Payroll : Type := mkPayroll {
  id : nat;
  payroll_id : string;
  employer_address : string;
  employee_address : string;
  amount_usdt : string;
  tx_hash : option string;
  block_number : option Z;
  status : Status
}.

Record Updates : Type := mkUpdates {
  set_tx_hash : option string;
  set_block_number : option Z;
  set_status : option Status
}.

Definition no_fields (u : Updates) : bool :=
  match set_tx_hash u, set_block_number u, set_status u with
  | None, None, None => true
  | _, _, _ => false
  end.

Definition override {A : Type} (new : option A) (old : option A) : option A :=
  match new with Some _ => new | None => old end.

Definition apply_updates (u : Updates) (p : Payroll) : Payroll :=
  mkPayroll (id p) (payroll_id p) (employer_address p) (employee_address p)
            (amount_usdt p)
            (override (set_tx_hash u) (tx_hash p))
            (override (set_block_number u) (block_number p))
            (match set_status u with Some s => s | None => status p end).

(** [updatePayroll]: [UPDATE payrolls SET ... WHERE payroll_id = payrollId];
    the key is the batch identifier, so every row of the batch is updated. *)
Definition updatePayroll (payrollId : string) (u : Updates)
           (rows : list Payroll) : list Payroll :=
  if no_fields u then rows
  else map (fun p => if String.eqb (payroll_id p) payrollId
                     then apply_updates u p else p) rows.

(** [getPayrollsByPayrollId]: the rows of the batch.  The query orders them
    by timestamp; the table is taken to be held in that order. *)
Definition getPayrollsByPayrollId (payrollId : string) (rows : list Payroll)
  : list Payroll :=
  filter (fun p => String.eqb (payroll_id p) payrollId) rows.

End Payroll.

(** ** services/paymentService.ts *)

(** The payment service over the table of payment rows.  [isSQLite] is the
    constant of the same name: the two database back ends differ in what
    [createPayment] returns. *)

Module PaymentService.

(** The argument of [updatePayment]; [None] is [undefined]. *)
Record Updates : Type := mkUpdates {
  set_amount_fiat : option string;
  set_fiat_currency : option string;
  set_amount_usdt : option JS.text;
  set_exchange_rate : option JS.text;
  set_tx_hash : option string;
  set_block_number : option Z;
  set_status : option Payment.Status;
  set_error_message : option string;
  set_completed_at : option Z
}.

Definition is_completed (s : option Payment.Status) : bool :=
  match s with Some Payment.completed => true | _ => false end.

(** [updates.completed_at !== undefined || updates.status === 'completed']. *)
Definition stamps_completion (u : Updates) : bool :=
  Cashout.is_some (set_completed_at u) || is_completed (set_status u).

(** [fields.length === 0]. *)
Definition no_fields (u : Updates) : bool :=
  negb (Cashout.is_some (set_amount_fiat u)
        || Cashout.is_some (set_fiat_currency u)
        || Cashout.is_some (set_amount_usdt u)
        || Cashout.is_some (set_exchange_rate u)
        || Cashout.is_some (set_tx_hash u)
        || Cashout.is_some (set_block_number u)
        || Cashout.is_some (set_status u)
        || Cashout.is_some (set_error_message u)
        || stamps_completion u).

Definition or_old {A : Type} (new : option A) (old : A) : A :=
  match new with Some v => v | None => old end.

(** The row after [UPDATE payments SET ... WHERE id = paymentId]. *)
Definition apply_updates (now : Z) (u : Updates) (p : Payment.Payment)
  : Payment.Payment :=
  Payment.mkPayment
    (Payment.id p) (Payment.payment_intent_id p) (Payment.wallet_address p)
    (or_old (set_amount_fiat u) (Payment.amount_fiat p))
    (or_old (set_fiat_currency u) (Payment.fiat_currency p))
    (or_old (set_amount_usdt u) (Payment.amount_usdt p))
    (or_old (set_exchange_rate u) (Payment.exchange_rate p))
    (Payment.override (set_tx_hash u) (Payment.tx_hash p))
    (Payment.override (set_block_number u) (Payment.block_number p))
    (or_old (set_status u) (Payment.status p))
    (Payment.override (set_error_message u) (Payment.error_message p))
    (Payment.created_at p) now
    (if stamps_completion u then
       match set_completed_at u with
       | Some t => Some t
       | None => if is_completed (set_status u) then Some now else None
       end
     else Payment.completed_at p).

Definition getPaymentById (paymentId : nat) (rows : list Payment.Payment)
  : option Payment.Payment :=
  find (fun p => Nat.eqb (Payment.id p) paymentId) rows.

Definition getPaymentByPaymentIntentId (paymentIntentId : string)
           (rows : list Payment.Payment) : option Payment.Payment :=
  find (fun p => String.eqb (Payment.payment_intent_id p) paymentIntentId) rows.

Definition getPaymentByTxHash (txHash : string) (rows : list Payment.Payment)
  : option Payment.Payment :=
  find (fun p => match Payment.tx_hash p with
                 | Some h => String.eqb h txHash
                 | None => false
                 end) rows.

(** [updatePayment]: the row it returns and the table. *)
Definition updatePayment (now : Z) (paymentId : nat) (u : Updates)
           (rows : list Payment.Payment)
  : option Payment.Payment * list Payment.Payment :=
  if no_fields u then (getPaymentById paymentId rows, rows)
  else
    let rows' :=
      map (fun p => if Nat.eqb (Payment.id p) paymentId
                    then apply_updates now u p else p) rows in
    (getPaymentById paymentId rows', rows').

(** The argument of [createPayment]. *)
Record PaymentData : Type := mkPaymentData {
  payment_intent_id : string;
  wallet_address : string;
  amount_fiat : string;
  fiat_currency : string;
  amount_usdt : JS.text;
  exchange_rate : JS.text;
  status : Payment.Status;
  error_message : option string
}.

(** The row inserted: the address and the currency in lower case. *)
Definition inserted (now : Z) (fresh : nat) (d : PaymentData) : Payment.Payment :=
  Payment.mkPayment fresh (payment_intent_id d)
                    (JS.toLowerCase (wallet_address d)) (amount_fiat d)
                    (JS.toLowerCase (fiat_currency d))
                    (amount_usdt d) (exchange_rate d) None None (status d)
                    (Cashout.string_or_null (error_message d)) now now None.

(** The object the SQLite branch returns: the data as given, with the id
    and the two dates. *)
Definition echoed (now : Z) (fresh : nat) (d : PaymentData) : Payment.Payment :=
  Payment.mkPayment fresh (payment_intent_id d) (wallet_address d)
                    (amount_fiat d) (fiat_currency d)
                    (amount_usdt d) (exchange_rate d) None None (status d)
                    (error_message d) now now None.

(** [createPayment]: the payment reference is [UNIQUE]; a second row for it
    violates the constraint and the error is rewritten. *)
Definition createPayment (isSQLite : bool) (now : Z) (fresh : nat)
           (d : PaymentData) (rows : list Payment.Payment)
  : (JS.error + Payment.Payment) * list Payment.Payment :=
  match getPaymentByPaymentIntentId (payment_intent_id d) rows with
  | Some _ =>
    (inl (JS.Error "Payment with this payment intent ID already exists"), rows)
  | None =>
    (inr (if isSQLite then echoed now fresh d else inserted now fresh d),
     (rows ++ [inserted now fresh d])%list)
  end.

End PaymentService.

(* ================================================================== *)
(** * The system state and the external collaborators *)
(* ================================================================== *)

Module Sys.

(** A transaction response of the chain library. *)
Record Tx : Type := mkTx { hash : string }.

(** What the interface of the token contract makes of a log entry: the name
    of the event and, for a transfer, its three arguments. *)
Record ParsedLog : Type := mkParsedLog {
  name : string;
  arg_from : string;
  arg_to : string;
  arg_value : N
}.

(** A log entry of a receipt, given by what [contract.interface.parseLog]
    does with it: the parsed event, [null] when no event of the interface
    matches, or the error thrown. *)
Record Log : Type := mkLog { parseLog : JS.error + option ParsedLog }.

(** A transaction receipt: [status] is 1 on success, 0 on revert. *)
Record Receipt : Type := mkReceipt {
  receipt_hash : string;
  blockNumber : Z;
  receipt_status : option nat;
  logs : list Log
}.

(** A transaction, as [provider.getTransaction] returns it: its sender. *)
Record Transaction : Type := mkTransaction { tx_from : string }.

(** A decoded token transfer, its amount formatted in token units. *)
Record Transfer : Type := mkTransfer {
  from : string;
  to : string;
  amount : string
}.

Record PaymentIntent : Type := mkPaymentIntent {
  intent_id : string;
  client_secret : string;
  metadata_wallet_address : option string;
  last_payment_error_message : option string
}.

Record Payout : Type := mkPayout {
  payout_id : string;
  failure_code : option string;
  failure_message : option string
}.

(** An authenticated event of the payment processor, by its [type]. *)
Inductive Event : Type :=
| payout_paid (p : Payout)
| payout_failed (p : Payout)
| payout_canceled (p : Payout)
| payment_intent_succeeded (pi : PaymentIntent)
| payment_intent_payment_failed (pi : PaymentIntent)
| payment_intent_canceled (pi : PaymentIntent)
| other_event (type : string).

(** The external calls a handler makes, in the order it makes them. *)
Inductive effect : Type :=
| ChainLookup (txHash : string)
| BalanceLookup
| TransferAttempt (attempt : nat) (to : string) (amount : JS.text)
| TransferBroadcast (to : string) (amount : JS.text) (txHash : string)
| WaitForTransaction (txHash : string)
| Sleep (milliseconds : nat)
| CreatePaymentIntent (amount : float) (currency walletAddress : string)
| TransferToConnectedAccount (amount : float) (currency destination : string)
| CreatePayout (amount : float) (currency destination : string)
               (connectedAccountId : option string).

Record State : Type := mkState {
  payments : list Payment.Payment;
  cashouts : list Cashout.Cashout;
  payrolls : list Payroll.Payroll;
  next_id : nat;
  log : list effect
}.

Definition emit (e : effect) (st : State) : State :=
  mkState (payments st) (cashouts st) (payrolls st) (next_id st) (log st ++ [e])%list.

Definition with_payments (ps : list Payment.Payment) (st : State) : State :=
  mkState ps (cashouts st) (payrolls st) (next_id st) (log st).

Definition with_cashouts (cs : list Cashout.Cashout) (st : State) : State :=
  mkState (payments st) cs (payrolls st) (next_id st) (log st).

Definition with_payrolls (ps : list Payroll.Payroll) (st : State) : State :=
  mkState (payments st) (cashouts st) ps (next_id st) (log st).

(** Insertion of a row built from a fresh id. *)
Definition insert_cashout (mk : nat -> Cashout.Cashout) (st : State)
  : Cashout.Cashout * State :=
  let row := mk (next_id st) in
  (row, mkState (payments st) (cashouts st ++ [row])%list (payrolls st)
                (S (next_id st)) (log st)).

(** The collaborators, as the handlers see them during one request.  A
    result [inl e] is a call that throws [e]. *)
Record World : Type := mkWorld {
  (** the clock read by [new Date()] *)
  now : Z;
  (** the constant [isSQLite] of the database services *)
  isSQLite : bool;
  (** [ethers.isAddress] *)
  isAddress : string -> bool;
  (** [ethers.verifyMessage(message, signature)] *)
  verifyMessage : string -> string -> option string;
  (** the regular expressions of [validateCashoutMessage], for the
      arguments that [Regex] does not run *)
  regExpEngine : Signature.Engine;
  (** the address of the custody (off-ramp) wallet, when configured *)
  offrampWallet : option string;
  (** [ethers.parseUnits(amount, decimals)] *)
  parseUnits : JS.text -> nat -> JS.error + N;
  (** [contractWithSigner.transfer(to, amountWei)] in the given pass of the
      transfer loop: the transaction sent, or what was thrown (an RPC
      failure, a rejected address) *)
  contract_transfer : nat -> string -> N -> JS.error + Tx;
  (** [provider.waitForTransaction(txHash)] *)
  provider_waitForTransaction : string -> JS.error + option Receipt;
  (** [provider.getTransactionReceipt(txHash)] *)
  getTransactionReceipt : string -> JS.error + option Receipt;
  (** [provider.getTransaction(txHash)] *)
  getTransaction : string -> JS.error + option Transaction;
  (** [contract.decimals()] of the token contract *)
  decimals : JS.error + nat;
  (** [contract.balanceOf(address)], in the token's smallest unit *)
  balanceOf : string -> JS.error + N;
  (** [ethers.formatUnits(value, decimals)] *)
  formatUnits : N -> nat -> string;
  (** the rate service, [getExchangeRate(from, to)] *)
  getExchangeRate : string -> string -> JS.error + float;
  (** [stripe.webhooks.constructEvent(payload, signature, secret)] *)
  constructEvent : string -> string -> string -> JS.error + Event;
  stripeWebhookSecret : string;
  (** [createPaymentIntent({amount, currency, walletAddress, ...})] *)
  createPaymentIntent : float -> string -> string -> JS.error + PaymentIntent;
  (** [createPayout({amount, currency, destination, connectedAccountId})]:
      the id of the payout *)
  createPayout : float -> string -> string -> option string -> JS.error + string;
  (** [transferToConnectedAccount({amount, currency, destination})] *)
  transferToConnectedAccount : float -> string -> string -> JS.error + unit
}.

End Sys.

(* ================================================================== *)
(** * utils/blockchain.ts *)
(* ================================================================== *)

Module Blockchain.

Import Sys.

Definition isValidAddress (w : World) (address : string) : bool :=
  isAddress w address.

Definition getOfframpAddress (w : World) : JS.error + string :=
  match offrampWallet w with
  | Some a => inr a
  | None => inl (JS.Error "Offramp wallet not configured")
  end.

Definition waitForTransaction (w : World) (txHash : string) (st : State)
  : (JS.error + option Receipt) * State :=
  let st := emit (WaitForTransaction txHash) st in
  match provider_waitForTransaction w txHash with
  | inr receipt => (inr receipt, st)
  | inl e =>
    (inl (JS.Error ("Failed to wait for transaction: " ++ JS.show_error e)), st)
  end.

(** [getUSDTBalance(address)]: the balance in token units. *)
Definition getUSDTBalance (w : World) (address : string) : JS.error + string :=
  match balanceOf w address with
  | inl e => inl (JS.Error ("Failed to get USDT balance: " ++ JS.show_error e))
  | inr balance =>
    match decimals w with
    | inl e => inl (JS.Error ("Failed to get USDT balance: " ++ JS.show_error e))
    | inr d => inr (formatUnits w balance d)
    end
  end.

Definition getOfframpBalance (w : World) (st : State)
  : (JS.error + string) * State :=
  match offrampWallet w with
  | None => (inl (JS.Error "Offramp wallet not configured"), st)
  | Some address =>
    let st := emit BalanceLookup st in
    match getUSDTBalance w address with
    | inr balance => (inr balance, st)
    | inl e =>
      (inl (JS.Error ("Failed to get offramp wallet balance: "
                        ++ JS.show_error e)), st)
    end
  end.

(** [receipt.status !== 1]. *)
Definition reverted (receipt : Receipt) : bool :=
  match receipt_status receipt with
  | Some 1 => false
  | _ => true
  end.

(** The [try] block of [verifyTransferTransaction]: the transfer decoded
    from the first log of the receipt. *)
Definition decode_transfer (w : World) (txHash : string) : JS.error + Transfer :=
  match getTransactionReceipt w txHash with
  | inl e => inl e
  | inr None => inl (JS.Error "Transaction not found")
  | inr (Some receipt) =>
    if reverted receipt then inl (JS.Error "Transaction failed")
    else
      match getTransaction w txHash with
      | inl e => inl e
      | inr None => inl (JS.Error "Transaction details not found")
      | inr (Some _) =>
        match logs receipt with
        | [] =>
          inl (JS.Error "Cannot read properties of undefined (reading 'topics')")
        | log :: _ =>
          match parseLog log with
          | inl e => inl e
          | inr (Some transferEvent) =>
            if String.eqb (name transferEvent) "Transfer" then
              match decimals w with
              | inl e => inl e
              | inr d =>
                inr (mkTransfer (arg_from transferEvent) (arg_to transferEvent)
                                (formatUnits w (arg_value transferEvent) d))
              end
            else inl (JS.Error "Transfer event not found")
          | inr None => inl (JS.Error "Transfer event not found")
          end
        end
      end
  end.

(** [verifyTransferTransaction(txHash)]: the [try] block and the [catch]
    that rewrites the error. *)
Definition verifyTransferTransaction (w : World) (txHash : string)
  : JS.error + Transfer :=
  match decode_transfer w txHash with
  | inr transfer => inr transfer
  | inl error =>
    let errorMessage := JS.message_or error (JS.show_error error) in
    if JS.includes errorMessage "403" || JS.includes errorMessage "Forbidden" then
      inl (JS.Error "RPC endpoint returned 403 Forbidden. Please check RPC configuration.")
    else if JS.includes errorMessage "could not decode" then
      inl (JS.Error "Could not decode transaction data. Transaction may not exist or contract address is incorrect.")
    else inl (JS.Error ("Failed to verify transaction: " ++ errorMessage))
  end.

(** The loop of [verifyPayrollTransaction] over the logs: the transfers from
    the employer; a log that does not parse, or for which the decimals
    cannot be read, is skipped. *)
Fixpoint payroll_transfers (w : World) (expectedEmployer : string)
         (entries : list Log) : list Transfer :=
  match entries with
  | [] => []
  | log :: rest =>
    let more := payroll_transfers w expectedEmployer rest in
    match parseLog log with
    | inr (Some parsedLog) =>
      if String.eqb (name parsedLog) "Transfer"
         && String.eqb (JS.toLowerCase (arg_from parsedLog))
                       (JS.toLowerCase expectedEmployer)
      then
        match decimals w with
        | inr d =>
          mkTransfer (arg_from parsedLog) (arg_to parsedLog)
                     (formatUnits w (arg_value parsedLog) d) :: more
        | inl _ => more
        end
      else more
    | _ => more
    end
  end.

(** The [try] block of [verifyPayrollTransaction]. *)
Definition decode_payroll (w : World) (txHash expectedEmployer : string)
  : JS.error + (list Transfer * Z) :=
  match getTransactionReceipt w txHash with
  | inl e => inl e
  | inr None => inl (JS.Error "Transaction not found")
  | inr (Some receipt) =>
    if reverted receipt then inl (JS.Error "Transaction failed")
    else
      match getTransaction w txHash with
      | inl e => inl e
      | inr None => inl (JS.Error "Transaction details not found")
      | inr (Some tx) =>
        if negb (String.eqb (JS.toLowerCase (tx_from tx))
                            (JS.toLowerCase expectedEmployer)) then
          inl (JS.Error "Transaction sender does not match employer address")
        else
          match payroll_transfers w expectedEmployer (logs receipt) with
          | [] => inl (JS.Error "No payroll transfers found in transaction")
          | transfers => inr (transfers, blockNumber receipt)
          end
      end
  end.

(** [verifyPayrollTransaction(txHash, expectedEmployer)]: the transfers and
    the block number of the receipt. *)
Definition verifyPayrollTransaction (w : World) (txHash expectedEmployer : string)
  : JS.error + (list Transfer * Z) :=
  match decode_payroll w txHash expectedEmployer with
  | inr verification => inr verification
  | inl error =>
    inl (JS.Error ("Failed to verify payroll transaction: "
                     ++ JS.show_message error))
  end.

Definition message_includes (e : JS.error) (sub : string) : bool :=
  match JS.message e with
  | Some m => JS.includes m sub
  | None => false
  end.

Definition code_is (e : JS.error) (c : string) : bool :=
  match JS.code e with
  | Some c' => String.eqb c' c
  | None => false
  end.

(** The classification of a failed attempt: network and RPC errors. *)
Definition isRetryableError (e : JS.error) : bool :=
  message_includes e "502" ||
  message_includes e "503" ||
  message_includes e "Bad Gateway" ||
  message_includes e "Service Unavailable" ||
  message_includes e "timeout" ||
  message_includes e "ECONNRESET" ||
  message_includes e "ETIMEDOUT" ||
  code_is e "SERVER_ERROR" ||
  code_is e "TIMEOUT".

(** The error thrown once the loop is left without a transaction. *)
Definition exhausted (maxRetries : nat) (lastError : option JS.error) : JS.error :=
  JS.Error ("Failed to transfer USDT from offramp wallet after "
              ++ JS.show_nat maxRetries ++ " attempts: "
              ++ match lastError with
                 | Some e => JS.message_or e "Unknown error"
                 | None => "Unknown error"
                 end).

(** The error thrown from the [catch] of an attempt that is not retried. *)
Definition not_retried (e : JS.error) : JS.error :=
  JS.Error ("Failed to transfer USDT from offramp wallet: " ++ JS.show_message e).

(** The error thrown when the custody balance is short of the amount. *)
Definition insufficient_balance_text (w : World) (amountWei balance : N)
           (decimals : nat) : string :=
  "Insufficient balance in offramp wallet. Required: "
    ++ formatUnits w amountWei decimals ++ " USDT, Available: "
    ++ formatUnits w balance decimals ++ " USDT".

Definition insufficient_balance (w : World) (amountWei balance : N)
           (decimals : nat) : JS.error :=
  JS.Error (insufficient_balance_text w amountWei balance decimals).

(** The [try] block of one pass of the loop: the decimals are read, the
    amount is parsed, the balance of the custody wallet is read and
    compared, and the transfer is sent. *)
Definition transfer_attempt (w : World) (custody : string) (attempt : nat)
           (to : string) (amount : JS.text) : JS.error + Tx :=
  match decimals w with
  | inl e => inl e
  | inr d =>
    match parseUnits w amount d with
    | inl e => inl e
    | inr amountWei =>
      match balanceOf w custody with
      | inl e => inl e
      | inr balance =>
        if (balance <? amountWei)%N
        then inl (insufficient_balance w amountWei balance d)
        else contract_transfer w attempt to amountWei
      end
    end
  end.

(** The loop [for (attempt = 1; attempt <= maxRetries; attempt++)], entered
    at [attempt] with [remaining = maxRetries + 1 - attempt] iterations left. *)
Fixpoint transfer_loop (w : World) (custody to : string) (amount : JS.text)
         (maxRetries : nat) (remaining : nat) (attempt : nat)
         (lastError : option JS.error) (st : State)
  : (JS.error + Tx) * State :=
  match remaining with
  | O => (inl (exhausted maxRetries lastError), st)
  | S remaining' =>
    let st := emit (TransferAttempt attempt to amount) st in
    match transfer_attempt w custody attempt to amount with
    | inr tx => (inr tx, emit (TransferBroadcast to amount (hash tx)) st)
    | inl error =>
      if isRetryableError error && (attempt <? maxRetries)%nat then
        let waitTime := attempt * 2 in
        let st := emit (Sleep (waitTime * 1000)) st in
        transfer_loop w custody to amount maxRetries remaining' (S attempt)
                      (Some error) st
      else (inl (not_retried error), st)
    end
  end.

Definition transferUSDTFromOfframp (w : World) (to : string) (amount : JS.text)
           (maxRetries : nat) (st : State) : (JS.error + Tx) * State :=
  match offrampWallet w with
  | None => (inl (JS.Error "Offramp wallet not configured"), st)
  | Some custody =>
    transfer_loop w custody to amount maxRetries maxRetries 1 None st
  end.

(** The default value of [maxRetries]. *)
Definition default_maxRetries : nat := 3.

End Blockchain.

(* ================================================================== *)
(** * utils/stripe.ts: webhook authentication *)
(* ================================================================== *)

Module Stripe.

Import Sys.

(** [verifyWebhookSignature]: the event, or the error thrown when the
    processor's library rejects the signature. *)
Definition verifyWebhookSignature (w : World) (payload signature secret : string)
  : JS.error + Event :=
  match constructEvent w payload signature secret with
  | inr event => inr event
  | inl e =>
    match JS.etype e with
    | Some t =>
      if JS.truthy t && String.prefix "Stripe" t
      then inl (JS.Error ("Stripe webhook error: " ++ JS.show_message e))
      else inl (JS.Error ("Failed to verify webhook signature: " ++ JS.show_error e))
    | None =>
      inl (JS.Error ("Failed to verify webhook signature: " ++ JS.show_error e))
    end
  end.

End Stripe.

(* ================================================================== *)
(** * controllers/webhookController.ts *)
(* ================================================================== *)

Module WebhookController.

Import Sys.

(** The outcome of a handler: [inr tt] when it returns, [inl e] when it
    throws [e]. *)
Definition Outcome : Type := (JS.error + unit)%type.

Definition handlePayoutPaid (w : World) (payout : Payout) (st : State)
  : Outcome * State :=
  match Cashout.getCashoutByPayoutId (payout_id payout) (cashouts st) with
  | None => (inr tt, st)
  | Some cashout =>
    (inr tt,
     with_cashouts
       (Cashout.updateCashout (now w) (Cashout.id cashout)
          (Cashout.mkUpdates None None None None None None
                             (Some Cashout.paid) None (Some (now w)))
          (cashouts st)) st)
  end.

Definition option_or (o : option string) (fallback : string) : string :=
  match o with Some s => JS.or_else s fallback | None => fallback end.

Definition handlePayoutFailed (w : World) (payout : Payout) (st : State)
  : Outcome * State :=
  match Cashout.getCashoutByPayoutId (payout_id payout) (cashouts st) with
  | None => (inr tt, st)
  | Some cashout =>
    let failureCode := option_or (failure_code payout) "unknown" in
    let failureMessage := option_or (failure_message payout) "Payout failed" in
    (inr tt,
     with_cashouts
       (Cashout.updateCashout (now w) (Cashout.id cashout)
          (Cashout.status_and_error Cashout.failed
             ("Stripe payout failed: " ++ failureCode ++ " - " ++ failureMessage))
          (cashouts st)) st)
  end.

Definition handlePayoutCanceled (w : World) (payout : Payout) (st : State)
  : Outcome * State :=
  match Cashout.getCashoutByPayoutId (payout_id payout) (cashouts st) with
  | None => (inr tt, st)
  | Some cashout =>
    (inr tt,
     with_cashouts
       (Cashout.updateCashout (now w) (Cashout.id cashout)
          (Cashout.status_and_error Cashout.canceled "Stripe payout was canceled")
          (cashouts st)) st)
  end.

(** A call of [updatePayment] whose result is not used. *)
Definition update_payment (w : World) (paymentId : nat)
           (u : PaymentService.Updates) (st : State) : State :=
  with_payments
    (snd (PaymentService.updatePayment (now w) paymentId u (payments st))) st.

(** The updates the handlers issue: [{status}], [{status, error_message}]
    and [{tx_hash, block_number, status: 'completed', completed_at}]. *)
Definition only_status (s : Payment.Status) : PaymentService.Updates :=
  PaymentService.mkUpdates None None None None None None (Some s) None None.

Definition status_and_error (s : Payment.Status) (e : string)
  : PaymentService.Updates :=
  PaymentService.mkUpdates None None None None None None (Some s) (Some e) None.

Definition settled_by (txHash : string) (blockNumber : Z) (completedAt : Z)
  : PaymentService.Updates :=
  PaymentService.mkUpdates None None None None (Some txHash) (Some blockNumber)
                           (Some Payment.completed) None (Some completedAt).

(** Interpolation of [receipt?.status]. *)
Definition show_status (receipt : option Receipt) : string :=
  match receipt with
  | None => "undefined"
  | Some r => match receipt_status r with
              | Some n => JS.show_nat n
              | None => "null"
              end
  end.

(** The idempotency gate: [payment.status === 'completed' || payment.tx_hash]. *)
Definition already_processed (payment : Payment.Payment) : bool :=
  Payment.Status_eqb (Payment.status payment) Payment.completed
  || JS.truthy_opt (Payment.tx_hash payment).

(** The [try] block of [handlePaymentIntentSucceeded]. *)
Definition settle_payment_intent (w : World) (paymentIntent : PaymentIntent)
           (st : State) : Outcome * State :=
  match PaymentService.getPaymentByPaymentIntentId (intent_id paymentIntent)
                                                   (payments st) with
  | None => (inr tt, st)
  | Some payment =>
    if already_processed payment then (inr tt, st)
    else
      let st := update_payment w (Payment.id payment)
                               (only_status Payment.processing) st in
      let walletAddress :=
        JS.or_else (match metadata_wallet_address paymentIntent with
                    | Some a => a
                    | None => EmptyString
                    end)
                   (Payment.wallet_address payment) in
      if negb (JS.truthy walletAddress) then
        (inl (JS.Error "Wallet address not found in payment intent metadata"), st)
      else
        let amountUSDT := Payment.amount_usdt payment in
        match Blockchain.transferUSDTFromOfframp
                w walletAddress amountUSDT Blockchain.default_maxRetries st with
        | (inl error, st) =>
          (inl (JS.Error ("Failed to create USDT transfer transaction: "
                            ++ JS.show_message error)), st)
        | (inr tx, st) =>
          match Blockchain.waitForTransaction w (hash tx) st with
          | (inl error, st) =>
            (inl (JS.Error ("Failed to confirm transaction: "
                              ++ JS.show_message error)), st)
          | (inr receipt, st) =>
            match receipt with
            | Some r =>
              match receipt_status r with
              | Some 1 =>
                (inr tt,
                 update_payment w (Payment.id payment)
                   (settled_by (receipt_hash r) (blockNumber r) (now w)) st)
              | _ =>
                (inl (JS.Error ("Transaction failed on-chain. Status: "
                                  ++ show_status receipt)), st)
              end
            | None =>
              (inl (JS.Error ("Transaction failed on-chain. Status: "
                                ++ show_status receipt)), st)
            end
          end
        end
  end.

(** [handlePaymentIntentSucceeded]: the [try] block and, when it throws, the
    [catch] that marks the row failed and throws again. *)
Definition handlePaymentIntentSucceeded (w : World) (paymentIntent : PaymentIntent)
           (st : State) : Outcome * State :=
  match settle_payment_intent w paymentIntent st with
  | (inr tt, st) => (inr tt, st)
  | (inl error, st) =>
    let st :=
      match PaymentService.getPaymentByPaymentIntentId
              (intent_id paymentIntent) (payments st) with
      | Some payment =>
        update_payment w (Payment.id payment)
          (status_and_error Payment.failed
             (JS.message_or error "Failed to transfer USDT"))
          st
      | None => st
      end in
    (inl error, st)
  end.

Definition handlePaymentIntentFailed (w : World) (paymentIntent : PaymentIntent)
           (st : State) : Outcome * State :=
  match PaymentService.getPaymentByPaymentIntentId (intent_id paymentIntent)
                                                   (payments st) with
  | None => (inr tt, st)
  | Some payment =>
    let failureMessage :=
      option_or (last_payment_error_message paymentIntent) "Payment failed" in
    (inr tt,
     update_payment w (Payment.id payment)
       (status_and_error Payment.failed
          ("Stripe payment failed: " ++ failureMessage))
       st)
  end.

Definition handlePaymentIntentCanceled (w : World) (paymentIntent : PaymentIntent)
           (st : State) : Outcome * State :=
  match PaymentService.getPaymentByPaymentIntentId (intent_id paymentIntent)
                                                   (payments st) with
  | None => (inr tt, st)
  | Some payment =>
    (inr tt,
     update_payment w (Payment.id payment)
       (status_and_error Payment.canceled "Payment intent was canceled") st)
  end.

(** The [switch] on the event type. *)
Definition dispatch (w : World) (event : Event) (st : State) : Outcome * State :=
  match event with
  | payout_paid p => handlePayoutPaid w p st
  | payout_failed p => handlePayoutFailed w p st
  | payout_canceled p => handlePayoutCanceled w p st
  | payment_intent_succeeded pi => handlePaymentIntentSucceeded w pi st
  | payment_intent_payment_failed pi => handlePaymentIntentFailed w pi st
  | payment_intent_canceled pi => handlePaymentIntentCanceled w pi st
  | other_event _ => (inr tt, st)
  end.

(** The request: the [stripe-signature] header (empty when absent) and the
    raw body. *)
Record Request : Type := mkRequest {
  stripe_signature : string;
  payload : string
}.

Inductive Body : Type :=
| missing_signature_header
| received (error : option string).

Record Response : Type := mkResponse { status : nat; body : Body }.

Definition handleStripeWebhook (w : World) (req : Request) (st : State)
  : Response * State :=
  let signature := stripe_signature req in
  if negb (JS.truthy signature) then
    (mkResponse 400 missing_signature_header, st)
  else
    match Stripe.verifyWebhookSignature w (payload req) signature
                                        (stripeWebhookSecret w) with
    | inl error => (mkResponse 200 (received (JS.message error)), st)
    | inr event =>
      match dispatch w event st with
      | (inr tt, st) => (mkResponse 200 (received None), st)
      | (inl error, st) => (mkResponse 200 (received (JS.message error)), st)
      end
    end.

End WebhookController.

(* ================================================================== *)
(** * controllers/cashoutController.ts *)
(* ================================================================== *)

Module CashoutController.

Import Sys.

(** The body of the request; a field that is absent is the empty string. *)
Record Request : Type := mkRequest {
  amount : string;
  currency : string;
  bankAccountId : string;
  connectedAccountId : string;
  signature : string;
  message : string;
  txHash : string;
  employeeAddress : string;
  address : string
}.

Inductive Body : Type :=
| error (msg : string)
| invalid_message_format (message expectedPattern : string)
| rpc_error (details : string)
| verification_failed (details txHash : string)
| amount_mismatch (requested transferred : float)
| existing (cashoutId : nat) (status : Cashout.Status) (payoutId : option string)
           (fiatAmount : option JS.text) (currency txHash : string)
| created (cashoutId : nat) (payoutId : string) (fiatAmount : JS.text)
          (currency txHash : string).

Record Response : Type := mkResponse { status : nat; body : Body }.

(** [req.body.employeeAddress || req.body.address]. *)
Definition claimed_address (req : Request) : string :=
  JS.or_else (employeeAddress req) (address req).

(** [['usd', 'eur'].includes(currency.toLowerCase())]. *)
Definition supported_currency (currency : string) : bool :=
  String.eqb (JS.toLowerCase currency) "usd"
  || String.eqb (JS.toLowerCase currency) "eur".

(** The field validation: the response of the first check that fails. *)
Definition validate (w : World) (req : Request) : option Response :=
  let employeeAddress := claimed_address req in
  if negb (JS.truthy employeeAddress)
     || negb (Blockchain.isValidAddress w employeeAddress) then
    Some (mkResponse 400 (error "Invalid employee address"))
  else if negb (JS.truthy (amount req))
          || JS.le (JS.parseFloat (amount req)) 0 then
    Some (mkResponse 400 (error "Invalid amount"))
  else if negb (JS.truthy (currency req))
          || negb (supported_currency (currency req)) then
    Some (mkResponse 400 (error "Invalid currency. Supported: usd, eur"))
  else if negb (JS.truthy (bankAccountId req)) then
    Some (mkResponse 400 (error "Bank account ID is required"))
  else if negb (JS.truthy (signature req)) || negb (JS.truthy (message req)) then
    Some (mkResponse 400 (error "Signature and message are required"))
  else if negb (JS.truthy (txHash req)) then
    Some (mkResponse 400 (error "Transaction hash is required"))
  else None.

(** The two checks of the signed message; a [SyntaxError] thrown while the
    expressions are built is caught by the handler and answered 500. *)
Definition authenticate (w : World) (req : Request) : option Response :=
  let employeeAddress := claimed_address req in
  if negb (Signature.verifySignature (verifyMessage w) (message req)
                                     (signature req) employeeAddress) then
    Some (mkResponse 401 (error "Invalid signature"))
  else
    match Signature.validateCashoutMessage (regExpEngine w) (message req)
                                           employeeAddress (amount req) with
    | inl e =>
      Some (mkResponse 500 (error (JS.message_or e "Failed to request cashout")))
    | inr false =>
      Some (mkResponse 400
              (invalid_message_format
                 (message req)
                 ("I request cashout " ++ amount req
                    ++ " USDT at ...\n\nAddress: " ++ employeeAddress)))
    | inr true => None
    end.

(** The chain lookup and the comparison of what it found with the request.
    (The lookup of the employee row that precedes it is a read of the store
    whose result is not used.) *)
Definition verify_on_chain (w : World) (req : Request) (st : State)
  : option Response * State :=
  let employeeAddress := claimed_address req in
  match Blockchain.getOfframpAddress w with
  | inl e => (Some (mkResponse 500 (error (JS.message_or e "Failed to request cashout"))), st)
  | inr offrampAddress =>
    let st := emit (ChainLookup (txHash req)) st in
    match Blockchain.verifyTransferTransaction w (txHash req) with
    | inl e =>
      match JS.message e with
      | None =>
        (Some (mkResponse 500
                 (error "Cannot read properties of undefined (reading 'includes')")),
         st)
      | Some m =>
        if JS.includes m "403" || JS.includes m "Forbidden" then
          (Some (mkResponse 503 (rpc_error m)), st)
        else (Some (mkResponse 400 (verification_failed m (txHash req))), st)
      end
    | inr transferInfo =>
      if negb (String.eqb (JS.toLowerCase (from transferInfo))
                          (JS.toLowerCase employeeAddress)) then
        (Some (mkResponse 400
                 (error "Transaction sender does not match employee address")), st)
      else if negb (String.eqb (JS.toLowerCase (to transferInfo))
                               (JS.toLowerCase offrampAddress)) then
        (Some (mkResponse 400
                 (error "Transaction recipient is not the offramp wallet")), st)
      else
        let transferAmount := JS.parseFloat (Sys.amount transferInfo) in
        let requestedAmount := JS.parseFloat (amount req) in
        if JS.exceeds_tolerance transferAmount requestedAmount then
          (Some (mkResponse 400 (amount_mismatch requestedAmount transferAmount)),
           st)
        else (None, st)
    end
  end.

(** Everything up to the duplicate check: the early response, if any. *)
Definition checks (w : World) (req : Request) (st : State)
  : option Response * State :=
  match validate w req with
  | Some r => (Some r, st)
  | None =>
    match authenticate w req with
    | Some r => (Some r, st)
    | None => verify_on_chain w req st
    end
  end.

(** The creation of the payout, directly or through the connected account. *)
Definition create_payout (w : World) (req : Request) (fiatAmount : float)
           (st : State) : (JS.error + string) * State :=
  let currency := JS.toLowerCase (currency req) in
  if JS.truthy (connectedAccountId req) then
    let st := emit (TransferToConnectedAccount fiatAmount currency
                                               (connectedAccountId req)) st in
    match transferToConnectedAccount w fiatAmount currency
                                     (connectedAccountId req) with
    | inl e => (inl e, st)
    | inr _ =>
      let st := emit (Sleep 2000) st in
      let st := emit (CreatePayout fiatAmount currency (bankAccountId req)
                                   (Some (connectedAccountId req))) st in
      (createPayout w fiatAmount currency (bankAccountId req)
                    (Some (connectedAccountId req)), st)
    end
  else
    let st := emit (CreatePayout fiatAmount currency (bankAccountId req) None) st in
    (createPayout w fiatAmount currency (bankAccountId req) None, st).

(** The settlement of a request that passed the checks and is not a
    duplicate: the cashout row, then the payout. *)
Definition settle (w : World) (req : Request) (st : State) : Response * State :=
  let exchangeRate :=
    match getExchangeRate w "usdt" (JS.toLowerCase (currency req)) with
    | inr rate => rate
    | inl _ => 1%float
    end in
  let fiatAmount := PrimFloat.mul (JS.parseFloat (amount req)) exchangeRate in
  let '(cashout, st) :=
    insert_cashout
      (fun fresh =>
         Cashout.createCashout (now w) fresh (claimed_address req) (amount req)
           (JS.toLowerCase (currency req))
           (Some (JS.NumToString fiatAmount))
           (Some (JS.NumToString exchangeRate))
           (txHash req) None (Some (bankAccountId req))
           Cashout.pending_transfer None) st in
  match create_payout w req fiatAmount st with
  | (inr payoutId, st) =>
    let st :=
      with_cashouts
        (Cashout.updateCashout (now w) (Cashout.id cashout)
           (Cashout.mkUpdates None None None None (Some payoutId) None
                              (Some Cashout.pending_payout) None None)
           (cashouts st)) st in
    (mkResponse 200
       (created (Cashout.id cashout) payoutId (JS.NumToString fiatAmount)
                (JS.toLowerCase (currency req)) (txHash req)), st)
  | (inl e, st) =>
    let st :=
      with_cashouts
        (Cashout.updateCashout (now w) (Cashout.id cashout)
           (Cashout.status_and_error Cashout.failed
              (JS.message_or e "Failed to create Stripe payout"))
           (cashouts st)) st in
    (mkResponse 500 (error (JS.message_or e "Failed to request cashout")), st)
  end.

Definition requestCashout (w : World) (req : Request) (st : State)
  : Response * State :=
  match checks w req st with
  | (Some r, st) => (r, st)
  | (None, st) =>
    match Cashout.getCashoutByTxHash (txHash req) (cashouts st) with
    | Some existingCashout =>
      (mkResponse 200
         (existing (Cashout.id existingCashout)
                   (Cashout.status existingCashout)
                   (Cashout.string_or_null (Cashout.payout_id_stripe existingCashout))
                   (Cashout.fiat_amount existingCashout)
                   (Cashout.fiat_currency existingCashout)
                   (txHash req)), st)
    | None => settle w req st
    end
  end.

End CashoutController.

(* ================================================================== *)
(** * The payroll controller: batch reconciliation *)
(* ================================================================== *)

Module PayrollController.

Import Sys.

Record Request : Type := mkRequest {
  payrollId : string;
  txHash : string;
  blockNumber : option Z
}.

Inductive Body : Type :=
| error (msg : string)
| amount_mismatch (employee expected received : string)
| not_all_received (missing : list string)
| verification_failed (details : option string)
| success (payrollId txHash : string) (blockNumber : Z)
          (employeeCount transfersVerified : nat).

Record Response : Type := mkResponse { status : nat; body : Body }.

(** A [Map<string, string>]: the entries in insertion order, keys distinct. *)
Definition StringMap : Type := list (string * string).

Fixpoint map_set (k v : string) (m : StringMap) : StringMap :=
  match m with
  | [] => [(k, v)]
  | (k', v') :: m' =>
    if String.eqb k' k then (k', v) :: m' else (k', v') :: map_set k v m'
  end.

Definition map_get (k : string) (m : StringMap) : option string :=
  match find (fun kv => String.eqb (fst kv) k) m with
  | Some kv => Some (snd kv)
  | None => None
  end.

Definition map_keys (m : StringMap) : list string := List.map fst m.

(** A [Set<string>]: the elements in insertion order, without repetition. *)
Definition set_has (k : string) (s : list string) : bool :=
  existsb (String.eqb k) s.

Definition set_add (k : string) (s : list string) : list string :=
  if set_has k s then s else (s ++ [k])%list.

(** The map of the expected recipients, built from the rows of the batch. *)
Definition expected_of (payrolls : list Payroll.Payroll) : StringMap :=
  fold_left
    (fun m payroll =>
       map_set (JS.toLowerCase (Payroll.employee_address payroll))
               (Payroll.amount_usdt payroll) m)
    payrolls [].

(** The loop over the verified transfers: the transfer whose amount does
    not match, with the amount expected, or the set of the recipients that
    received their payment. *)
Fixpoint reconcile (expectedEmployees : StringMap) (transfers : list Transfer)
         (receivedEmployees : list string)
  : (Transfer * string) + list string :=
  match transfers with
  | [] => inr receivedEmployees
  | transfer :: rest =>
    let to_ := JS.toLowerCase (to transfer) in
    match map_get to_ expectedEmployees with
    | Some expectedAmount =>
      if JS.truthy expectedAmount then
        if JS.exceeds_tolerance (JS.parseFloat (amount transfer))
                                (JS.parseFloat expectedAmount)
        then inl (transfer, expectedAmount)
        else reconcile expectedEmployees rest (set_add to_ receivedEmployees)
      else reconcile expectedEmployees rest receivedEmployees
    | None => reconcile expectedEmployees rest receivedEmployees
    end
  end.

(** [Promise.all(payrolls.map(payroll => updatePayroll(payroll.payroll_id, u)))]. *)
Definition update_all (payrolls : list Payroll.Payroll) (u : Payroll.Updates)
           (rows : list Payroll.Payroll) : list Payroll.Payroll :=
  fold_left (fun rows payroll =>
               Payroll.updatePayroll (Payroll.payroll_id payroll) u rows)
            payrolls rows.

Definition executePayroll (w : World) (req : Request) (st : State)
  : Response * State :=
  if negb (JS.truthy (payrollId req)) then
    (mkResponse 400 (error "payrollId is required"), st)
  else if negb (JS.truthy (txHash req)) then
    (mkResponse 400 (error "txHash is required"), st)
  else
    let payrolls := Payroll.getPayrollsByPayrollId (payrollId req) (Sys.payrolls st) in
    match payrolls with
    | [] => (mkResponse 404 (error "Payroll not found"), st)
    | first :: _ =>
      let employerAddress := Payroll.employer_address first in
      let st := emit (ChainLookup (txHash req)) st in
      match Blockchain.verifyPayrollTransaction w (txHash req) employerAddress with
      | inl e =>
        let st :=
          with_payrolls
            (update_all payrolls
               (Payroll.mkUpdates (Some (txHash req)) (blockNumber req)
                                  (Some Payroll.failed))
               (Sys.payrolls st)) st in
        (mkResponse 400 (verification_failed (JS.message e)), st)
      | inr (verifiedTransfers, verifiedBlockNumber) =>
        let expectedEmployees := expected_of payrolls in
        match reconcile expectedEmployees verifiedTransfers [] with
        | inl (transfer, expectedAmount) =>
          (mkResponse 400
             (amount_mismatch (to transfer) expectedAmount (amount transfer)), st)
        | inr receivedEmployees =>
          if negb (Nat.eqb (List.length receivedEmployees)
                           (List.length expectedEmployees)) then
            let missing :=
              filter (fun addr => negb (set_has addr receivedEmployees))
                     (map_keys expectedEmployees) in
            (mkResponse 400 (not_all_received missing), st)
          else
            let st :=
              with_payrolls
                (update_all payrolls
                   (Payroll.mkUpdates (Some (txHash req))
                                      (Some verifiedBlockNumber)
                                      (Some Payroll.completed))
                   (Sys.payrolls st)) st in
            let updatedPayrolls :=
              Payroll.getPayrollsByPayrollId (payrollId req) (Sys.payrolls st) in
            (mkResponse 200
               (success (payrollId req) (txHash req) verifiedBlockNumber
                        (List.length updatedPayrolls)
                        (List.length verifiedTransfers)), st)
        end
      end
    end.

End PayrollController.

(* ================================================================== *)
(** * The payment controller: on-ramp initiation *)
(* ================================================================== *)

Module PaymentController.

Import Sys.

Record Request : Type := mkRequest {
  amount : string;
  currency : string;
  walletAddress : string
}.

Inductive Body : Type :=
| error (msg : string)
| maximum_purchase_limit (maxAmount : string) (requested : JS.text)
| insufficient_offramp_balance (available : string) (required : JS.text)
| created (paymentIntentId clientSecret : string) (amount : float)
          (currency : string) (amountUSDT exchangeRate : JS.text)
          (walletAddress : string).

Record Response : Type := mkResponse { status : nat; body : Body }.

Definition validate (w : World) (req : Request) : option Response :=
  if negb (JS.truthy (walletAddress req))
     || negb (Blockchain.isValidAddress w (walletAddress req)) then
    Some (mkResponse 400 (error "Invalid wallet address"))
  else if negb (JS.truthy (amount req))
          || JS.le (JS.parseFloat (amount req)) 0 then
    Some (mkResponse 400 (error "Invalid amount"))
  else if negb (JS.truthy (currency req))
          || negb (CashoutController.supported_currency (currency req)) then
    Some (mkResponse 400 (error "Invalid currency. Supported: usd, eur"))
  else None.

(** The fiat-to-token rate: the inverse of the rate the service returns, or
    1.0 when the lookup throws. *)
Definition exchange_rate (w : World) (req : Request) : float :=
  match getExchangeRate w "usdt" (JS.toLowerCase (currency req)) with
  | inr usdtToFiatRate => PrimFloat.div 1 usdtToFiatRate
  | inl _ => 1%float
  end.

(** [parseFloat(amount) * exchangeRate]. *)
Definition amount_usdt (w : World) (req : Request) : float :=
  PrimFloat.mul (JS.parseFloat (amount req)) (exchange_rate w req).

(** The check of the custody balance: the response when it is known to be
    insufficient; a lookup that throws is ignored. *)
Definition check_balance (w : World) (amountUSDT : float) (st : State)
  : option Response * State :=
  match Blockchain.getOfframpBalance w st with
  | (inr offrampBalance, st) =>
    if JS.lt (JS.parseFloat offrampBalance) amountUSDT then
      (Some (mkResponse 400
               (insufficient_offramp_balance offrampBalance
                                             (JS.NumToFixed 6 amountUSDT))), st)
    else (None, st)
  | (inl _, st) => (None, st)
  end.

(** The argument of [createPayment]. *)
Definition payment_data (w : World) (req : Request) (paymentIntent : PaymentIntent)
  : PaymentService.PaymentData :=
  PaymentService.mkPaymentData
    (intent_id paymentIntent) (walletAddress req) (amount req)
    (JS.toLowerCase (currency req))
    (JS.NumToFixed 6 (amount_usdt w req))
    (JS.NumToString (exchange_rate w req))
    Payment.pending None.

(** The state once a row has been inserted with the id [next_id]. *)
Definition inserted_payment (rows : list Payment.Payment) (st : State) : State :=
  mkState rows (cashouts st) (payrolls st) (S (next_id st)) (log st).

Definition createPaymentIntentHandler (w : World) (req : Request) (st : State)
  : Response * State :=
  match validate w req with
  | Some r => (r, st)
  | None =>
    let exchangeRate := exchange_rate w req in
    let amountUSDT := amount_usdt w req in
    if JS.gt amountUSDT 5 then
      (mkResponse 400
         (maximum_purchase_limit "5" (JS.NumToFixed 6 amountUSDT)), st)
    else
      match check_balance w amountUSDT st with
      | (Some r, st) => (r, st)
      | (None, st) =>
        let currency := JS.toLowerCase (currency req) in
        let st := emit (CreatePaymentIntent (JS.parseFloat (amount req)) currency
                                            (walletAddress req)) st in
        match createPaymentIntent w (JS.parseFloat (amount req)) currency
                                  (walletAddress req) with
        | inl e =>
          (mkResponse 500
             (error (JS.message_or e "Failed to create payment intent")), st)
        | inr paymentIntent =>
          match PaymentService.createPayment
                  (isSQLite w) (now w) (next_id st)
                  (payment_data w req paymentIntent) (payments st) with
          | (inl e, _) =>
            (mkResponse 500
               (error (JS.message_or e "Failed to create payment intent")), st)
          | (inr payment, rows) =>
            (mkResponse 200
               (created (intent_id paymentIntent) (client_secret paymentIntent)
                        (JS.parseFloat (amount req)) currency
                        (JS.NumToFixed 6 amountUSDT) (JS.NumToString exchangeRate)
                        (walletAddress req)), inserted_payment rows st)
          end
        end
      end
  end.

End PaymentController.

(* ================================================================== *)
(** * Observations on states and logs *)
(* ================================================================== *)

Module Observe.

Import Sys.

(** The state after the given calls have been appended to the log. *)
Definition emit_all (es : list effect) (st : State) : State :=
  fold_left (fun s e => emit e s) es st.

Definition is_broadcast (e : effect) : bool :=
  match e with TransferBroadcast _ _ _ => true | _ => false end.

Definition is_attempt (e : effect) : bool :=
  match e with TransferAttempt _ _ _ => true | _ => false end.

Definition is_fiat_movement (e : effect) : bool :=
  match e with
  | CreatePayout _ _ _ _ | TransferToConnectedAccount _ _ _ => true
  | _ => false
  end.

Definition is_chain_lookup (e : effect) : bool :=
  match e with ChainLookup _ => true | _ => false end.

Definition is_charge (e : effect) : bool :=
  match e with CreatePaymentIntent _ _ _ => true | _ => false end.

(** The number of token transfers sent from the custody wallet. *)
Definition transfers_sent (st : State) : nat :=
  List.length (filter is_broadcast (log st)).

(** The number of passes through the body of the transfer loop. *)
Definition attempts_made (st : State) : nat :=
  List.length (filter is_attempt (log st)).

(** The number of calls that move fiat: payouts and platform transfers. *)
Definition fiat_movements (st : State) : nat :=
  List.length (filter is_fiat_movement (log st)).

(** The number of chain verifications made. *)
Definition chain_lookups (st : State) : nat :=
  List.length (filter is_chain_lookup (log st)).

(** The number of charges created at the payment processor. *)
Definition charges_created (st : State) : nat :=
  List.length (filter is_charge (log st)).

(** The cashout rows recorded for an inbound transaction hash. *)
Definition rows_for (txHash : string) (rows : list Cashout.Cashout)
  : list Cashout.Cashout :=
  filter (fun c => String.eqb (Cashout.tx_hash_onchain c) txHash) rows.

(** The inbound transaction hash is unique across the cashouts. *)
Definition at_most_one_per_hash (rows : list Cashout.Cashout) : Prop :=
  forall txHash, (List.length (rows_for txHash rows) <= 1)%nat.

(** The world in which the rate service answers [rate] to every lookup. *)
Definition with_rate (rate : float) (w : World) : World :=
  mkWorld (now w) (isSQLite w) (isAddress w) (verifyMessage w)
          (regExpEngine w) (offrampWallet w) (parseUnits w)
          (contract_transfer w) (provider_waitForTransaction w)
          (getTransactionReceipt w) (getTransaction w) (decimals w)
          (balanceOf w) (formatUnits w) (fun _ _ => inr rate)
          (constructEvent w) (stripeWebhookSecret w) (createPaymentIntent w)
          (createPayout w) (transferToConnectedAccount w).

End Observe.

(** ** The vocabulary of batch reconciliation *)

Module Reconcile.

Import Sys PayrollController.

(** The amount expected for the recipient of a transfer: the entry of the
    map for the lowered address, when there is one and it is not empty. *)
Definition expected_amount (expected : StringMap) (t : Transfer) : option string :=
  match map_get (JS.toLowerCase (to t)) expected with
  | Some a => if JS.truthy a then Some a else None
  | None => None
  end.

(** A transfer to an expected recipient whose amount is off by more than
    the tolerance. *)
Definition amount_differs (expected : StringMap) (t : Transfer) : bool :=
  match expected_amount expected t with
  | Some a => JS.exceeds_tolerance (JS.parseFloat (amount t)) (JS.parseFloat a)
  | None => false
  end.

(** An expected recipient is satisfied when an observed transfer goes to it. *)
Definition satisfied (expected : StringMap) (transfers : list Transfer)
           (addr : string) : bool :=
  existsb (fun t => String.eqb (JS.toLowerCase (to t)) addr
                    && Cashout.is_some (expected_amount expected t)) transfers.

(** One step of the set built by the loop when no amount differs. *)
Definition receive (expected : StringMap) (received : list string) (t : Transfer)
  : list string :=
  match expected_amount expected t with
  | Some _ => set_add (JS.toLowerCase (to t)) received
  | None => received
  end.

(** The update that marks a row settled by a transaction. *)
Definition mark (status : Payroll.Status) (txHash : string) (blockNumber : option Z)
  : Payroll.Updates :=
  Payroll.mkUpdates (Some txHash) blockNumber (Some status).

(** The update applied to the rows of one batch, the others left alone. *)
Definition in_batch (payrollId : string) (u : Payroll.Updates) (p : Payroll.Payroll)
  : Payroll.Payroll :=
  if String.eqb (Payroll.payroll_id p) payrollId then Payroll.apply_updates u p else p.

End Reconcile.

(** ** The vocabulary of the transfer retry *)

Module Retry.

(** The texts the classification looks for in the message of an error. *)
Definition markers : list string :=
  ["502"; "503"; "Bad Gateway"; "Service Unavailable"; "timeout";
   "ECONNRESET"; "ETIMEDOUT"].

(** The message holds one of them. *)
Definition looks_transient (text : string) : bool :=
  existsb (JS.includes text) markers.

End Retry.

(** ** The vocabulary of pattern compilation *)

Module Pattern.

Import Regex.

(** A character that stands for itself in a pattern, or the dot. *)
Definition plain (c : ascii) : bool :=
  match classify c with
  | CLit | CDot => true
  | _ => false
  end.

(** The item a plain character compiles to. *)
Definition item_of (c : ascii) : item :=
  (match classify c with CDot => Dot | _ => Lit c end, Once).

(** The items [its] accept the characters [u], one for one. *)
Definition accepts (ci : bool) (its : list item) (u : list ascii) : Prop :=
  Forall2 (fun it c => snd it = Once /\ atom_matches ci (fst it) c = true) its u.

(** The items of the fixed text of the three patterns. *)
Definition head : list item :=
  map item_of (list_ascii_of_string "I request cashout ").

Definition tail1 : list item :=
  (map item_of (list_ascii_of_string " USDT at ")
   ++ [(Dot, Plus); (Lit JS.LF, Once); (Lit JS.LF, Once)]
   ++ map item_of (list_ascii_of_string "Address: "))%list.

Definition tail2 : list item :=
  (map item_of (list_ascii_of_string " USDT at ")
   ++ [(Dot, Plus); (Lit JS.LF, Once)]
   ++ map item_of (list_ascii_of_string "Address: "))%list.

Definition tail3 : list item :=
  (map item_of (list_ascii_of_string " USDT at ")
   ++ [(Dot, Plus)]
   ++ map item_of (list_ascii_of_string " Address: "))%list.

End Pattern.

(* ================================================================== *)
(** * Scenarios: concrete worlds, requests and ledgers *)
(* ================================================================== *)

Module Scenario.

Import Sys.

Definition unreachable {A : Type} : JS.error + A :=
  inl (JS.Error "unreachable").

Definition alice : string := "0xAbCdEf0123456789aBcDeF0123456789AbCdEf01".
Definition bob : string := "0xB0b0000000000000000000000000000000000002".
Definition mallory : string := "0x6666666666666666666666666666666666666666".
Definition employer : string := "0xE000000000000000000000000000000000000001".
Definition custody : string := "0x00000000000000000000000000000000000000C0".
Definition deposit : string :=
  "0x5c504ed432cb51138bcf09aa5e8a410dd4a1e204ef84bfed1be16dfba1b22060".
Definition settlement : string :=
  "0x9fc76417374aa880d4449a1f7f31ec597f00b1f6f3dd2d66f4c9c6c445836d8b".

(** The rendering of a token amount by the chain library: the whole part,
    a dot, and the fraction without its trailing zeros (one digit at
    least). *)
Definition show_N (n : N) : string := NilEmpty.string_of_uint (N.to_uint n).

Fixpoint zeros (k : nat) : string :=
  match k with
  | O => EmptyString
  | S k' => String "0" (zeros k')
  end.

Fixpoint drop_zeros (reversed : list ascii) : list ascii :=
  match reversed with
  | c :: rest =>
    if Ascii.eqb c "0" then
      match rest with
      | [] => reversed
      | _ :: _ => drop_zeros rest
      end
    else reversed
  | [] => []
  end.

Definition format_units (value : N) (decimals : nat) : string :=
  match decimals with
  | O => show_N value
  | S _ =>
    let unit := (10 ^ N.of_nat decimals)%N in
    let fraction := show_N (value mod unit) in
    let padded := zeros (decimals - String.length fraction) ++ fraction in
    show_N (value / unit) ++ "."
      ++ string_of_list_ascii (rev (drop_zeros (rev (list_ascii_of_string padded))))
  end.

(** An amount of whole tokens and thousandths, with 18 decimals. *)
Definition tokens (n : N) : N := (n * 10 ^ 18)%N.
Definition thousandths (n : N) : N := (n * 10 ^ 15)%N.

(** The log of a transfer event. *)
Definition transfer_log (sender recipient : string) (value : N) : Log :=
  mkLog (inr (Some (mkParsedLog "Transfer" sender recipient value))).

(** The reading of an amount by the chain library: a decimal numeral with
    at most [decimals] digits after the dot. *)
Definition units_of_decimal (s : string) (decimals : nat) : JS.error + N :=
  let '(ip, rest) := JS.take_digits (list_ascii_of_string s) in
  let '(fp, rest) :=
    match rest with
    | c :: t => if Ascii.eqb c "." then JS.take_digits t else ([], rest)
    | [] => ([], [])
    end in
  match (ip ++ fp)%list, rest with
  | _ :: _, [] =>
    if (List.length fp <=? decimals)%nat then
      inr (Z.to_N (JS.digits_value ip * 10 ^ Z.of_nat decimals
                   + JS.digits_value fp
                     * 10 ^ Z.of_nat (decimals - List.length fp)))
    else inl (JS.Error "too many decimals for format")
  | _, _ => inl (JS.Error "invalid FixedNumber string value")
  end.

(** The same for the rendering of a number that is a whole number of the
    smallest unit (the numbers of the scenarios are). *)
Definition units_of_number (x : float) (decimals : nat) : JS.error + N :=
  match Prim2SF x with
  | S754_zero _ => inr 0%N
  | S754_finite false m e =>
    let v := (Z.pos m * 10 ^ Z.of_nat decimals)%Z in
    if (0 <=? e)%Z then inr (Z.to_N (v * 2 ^ e))
    else if (v mod 2 ^ (- e) =? 0)%Z then inr (Z.to_N (v / 2 ^ (- e)))
    else inl (JS.Error "too many decimals for format")
  | _ => inl (JS.Error "invalid FixedNumber string value")
  end.

Definition parse_units (amount : JS.text) (decimals : nat) : JS.error + N :=
  match amount with
  | JS.Str s => units_of_decimal s decimals
  | JS.NumToString x | JS.NumToFixed _ x => units_of_number x decimals
  end.

(** A world in which every collaborator answers: signatures recover to
    alice, every transaction is a transfer of 5 tokens from alice to the
    custody wallet, which holds 1000 tokens, transfers are sent and
    confirmed, the rate is 1; the database is PostgreSQL. *)
Definition world : World :=
  mkWorld 1714557600%Z
          false
          (fun _ => true)
          (fun _ _ => Some alice)
          (fun _ _ _ => inl (JS.Error "Invalid regular expression"))
          (Some custody)
          parse_units
          (fun _ _ _ => inr (mkTx settlement))
          (fun h => inr (Some (mkReceipt h 42 (Some 1) [])))
          (fun h => inr (Some (mkReceipt h 41 (Some 1)
                                         [transfer_log alice custody (tokens 5)])))
          (fun _ => inr (Some (mkTransaction alice)))
          (inr 18)
          (fun _ => inr (tokens 1000))
          format_units
          (fun _ _ => inr 1%float)
          (fun _ _ _ => unreachable)
          "whsec_test"
          (fun _ _ _ => inr (mkPaymentIntent "pi_1" "pi_1_secret" None None))
          (fun _ _ _ _ => inr "po_1")
          (fun _ _ _ => inr tt).

Definition with_verifyMessage (f : string -> string -> option string) (w : World)
  : World :=
  mkWorld (now w) (isSQLite w) (isAddress w) f (regExpEngine w)
          (offrampWallet w) (parseUnits w) (contract_transfer w)
          (provider_waitForTransaction w) (getTransactionReceipt w)
          (getTransaction w) (decimals w) (balanceOf w) (formatUnits w)
          (getExchangeRate w) (constructEvent w) (stripeWebhookSecret w)
          (createPaymentIntent w) (createPayout w)
          (transferToConnectedAccount w).

Definition with_contract_transfer (f : nat -> string -> N -> JS.error + Tx)
           (w : World) : World :=
  mkWorld (now w) (isSQLite w) (isAddress w) (verifyMessage w)
          (regExpEngine w) (offrampWallet w) (parseUnits w) f
          (provider_waitForTransaction w) (getTransactionReceipt w)
          (getTransaction w) (decimals w) (balanceOf w) (formatUnits w)
          (getExchangeRate w) (constructEvent w) (stripeWebhookSecret w)
          (createPaymentIntent w) (createPayout w)
          (transferToConnectedAccount w).

(** The world in which every transaction hash names the given receipt, of
    a transaction sent by [sender]. *)
Definition with_transaction (sender : string) (receipt : string -> Receipt)
           (w : World) : World :=
  mkWorld (now w) (isSQLite w) (isAddress w) (verifyMessage w)
          (regExpEngine w) (offrampWallet w) (parseUnits w)
          (contract_transfer w) (provider_waitForTransaction w)
          (fun h => inr (Some (receipt h)))
          (fun _ => inr (Some (mkTransaction sender))) (decimals w)
          (balanceOf w) (formatUnits w) (getExchangeRate w) (constructEvent w)
          (stripeWebhookSecret w) (createPaymentIntent w) (createPayout w)
          (transferToConnectedAccount w).

Definition with_getExchangeRate (f : string -> string -> JS.error + float)
           (w : World) : World :=
  mkWorld (now w) (isSQLite w) (isAddress w) (verifyMessage w)
          (regExpEngine w) (offrampWallet w) (parseUnits w)
          (contract_transfer w) (provider_waitForTransaction w)
          (getTransactionReceipt w) (getTransaction w) (decimals w)
          (balanceOf w) (formatUnits w) f (constructEvent w)
          (stripeWebhookSecret w) (createPaymentIntent w) (createPayout w)
          (transferToConnectedAccount w).

Definition with_constructEvent
           (f : string -> string -> string -> JS.error + Event) (w : World)
  : World :=
  mkWorld (now w) (isSQLite w) (isAddress w) (verifyMessage w)
          (regExpEngine w) (offrampWallet w) (parseUnits w)
          (contract_transfer w) (provider_waitForTransaction w)
          (getTransactionReceipt w) (getTransaction w) (decimals w)
          (balanceOf w) (formatUnits w) (getExchangeRate w) f
          (stripeWebhookSecret w) (createPaymentIntent w) (createPayout w)
          (transferToConnectedAccount w).

(** The ledger before anything happened, and with one pending payment. *)
Definition empty : State := mkState [] [] [] 1 [].

Definition pending_payment : Payment.Payment :=
  PaymentService.inserted
    1714557000%Z 1
    (PaymentService.mkPaymentData "pi_1" alice "3" "usd" (JS.NumToFixed 6 3)
                                  (JS.NumToString 1) Payment.pending None).

Definition awaiting_charge : State := mkState [pending_payment] [] [] 2 [].

Definition charge_confirmed : PaymentIntent :=
  mkPaymentIntent "pi_1" "pi_1_secret" (Some alice) None.

(** A cashout request of 5 tokens signed by alice. *)
Definition cashout_request : CashoutController.Request :=
  CashoutController.mkRequest
    "5.0" "usd" "ba_1" "" "0xsigned"
    (Signature.createCashoutMessage alice "5.0" "2024-05-01T10:00:00.000Z")
    deposit alice "".

(** A payroll batch that expects alice: 10 and bob: 20. *)
Definition batch : list Payroll.Payroll :=
  [Payroll.mkPayroll 1 "batch-1" employer alice "10" None None Payroll.pending;
   Payroll.mkPayroll 2 "batch-1" employer bob "20" None None Payroll.pending].

Definition batch_prepared : State := mkState [] [] batch 3 [].

Definition execute_batch : PayrollController.Request :=
  PayrollController.mkRequest "batch-1" settlement (Some 42%Z).

(** The transaction of the employer pays alice only, the expected amount or
    another one. *)
Definition pays_alice (value : N) : World :=
  with_transaction
    employer
    (fun h => mkReceipt h 42 (Some 1) [transfer_log employer alice value])
    world.

(** The first attempt meets a gateway error, the second one is sent. *)
Definition gateway_error : JS.error :=
  JS.mkError (Some "server response 503 Service Unavailable")
             (Some "SERVER_ERROR") None.

Definition flaky : World :=
  with_contract_transfer
    (fun attempt _ _ =>
       match attempt with
       | 1 => inl gateway_error
       | _ => inr (mkTx settlement)
       end) world.

(** A webhook whose signature the processor's library rejects. *)
Definition signature_rejected : JS.error :=
  JS.mkError
    (Some "No signatures found matching the expected signature for payload")
    None (Some "StripeSignatureVerificationError").

Definition forged_webhook : WebhookController.Request :=
  WebhookController.mkRequest "t=1714557600,v1=00" "{}".

Definition rejecting : World :=
  with_constructEvent (fun _ _ _ => inl signature_rejected) world.

Definition buy (amount : string) : PaymentController.Request :=
  PaymentController.mkRequest amount "usd" alice.

Definition rate_service_down : World :=
  with_getExchangeRate (fun _ _ => inl (JS.Error "rate service unreachable")) world.

(** The custody wallet holds the given balance. *)
Definition with_balance (balance : N) (w : World) : World :=
  mkWorld (now w) (isSQLite w) (isAddress w) (verifyMessage w)
          (regExpEngine w) (offrampWallet w) (parseUnits w)
          (contract_transfer w) (provider_waitForTransaction w)
          (getTransactionReceipt w) (getTransaction w) (decimals w)
          (fun _ => inr balance) (formatUnits w) (getExchangeRate w)
          (constructEvent w) (stripeWebhookSecret w) (createPaymentIntent w)
          (createPayout w) (transferToConnectedAccount w).

(** The custody wallet is empty: no transfer can be sent. *)
Definition custody_empty : World := with_balance 0 world.

(** The custody wallet holds one token, and 1.503 tokens are to be sent. *)
Definition custody_short : World := with_balance (tokens 1) world.

End Scenario.

(* ================================================================== *)
(** * The payment controller: status polling *)
(* ================================================================== *)

Module PaymentStatus.

Import Sys.

(** The value of the [status] column. *)
Definition status_name (s : Payment.Status) : string :=
  match s with
  | Payment.pending => "pending"
  | Payment.processing => "processing"
  | Payment.completed => "completed"
  | Payment.failed => "failed"
  | Payment.canceled => "canceled"
  end.

Inductive Body : Type :=
| error (msg : string)
| payment (row : Payment.Payment).

Record Response : Type := mkResponse { status : nat; body : Body }.

(** The status computed from the status of the intent at the processor. *)
Definition newStatus (stripeStatus : string) (payment : Payment.Payment)
  : Payment.Status :=
  if String.eqb stripeStatus "succeeded" then
    if JS.truthy_opt (Payment.tx_hash payment)
    then Payment.completed else Payment.processing
  else if String.eqb stripeStatus "canceled" then Payment.canceled
  else if String.eqb stripeStatus "requires_payment_method" then Payment.failed
  else Payment.pending.

(** The assignment [payment.status = newStatus] on the object read. *)
Definition with_status (s : Payment.Status) (p : Payment.Payment)
  : Payment.Payment :=
  Payment.mkPayment (Payment.id p) (Payment.payment_intent_id p)
                    (Payment.wallet_address p) (Payment.amount_fiat p)
                    (Payment.fiat_currency p) (Payment.amount_usdt p)
                    (Payment.exchange_rate p) (Payment.tx_hash p)
                    (Payment.block_number p) s (Payment.error_message p)
                    (Payment.created_at p) (Payment.updated_at p)
                    (Payment.completed_at p).

Definition only_status (s : Payment.Status) : PaymentService.Updates :=
  PaymentService.mkUpdates None None None None None None (Some s) None None.

(** [getPaymentStatus]; [getPaymentIntent] is the retrieval of the intent
    from the processor, giving its status, or the error thrown. *)
Definition getPaymentStatus (w : World)
           (getPaymentIntent : string -> JS.error + string)
           (paymentIntentId : string) (st : State) : Response * State :=
  if negb (JS.truthy paymentIntentId) then
    (mkResponse 400 (error "Payment Intent ID is required"), st)
  else
    match PaymentService.getPaymentByPaymentIntentId paymentIntentId
                                                     (payments st) with
    | None => (mkResponse 404 (error "Payment not found"), st)
    | Some row =>
      match getPaymentIntent paymentIntentId with
      | inl _ => (mkResponse 200 (payment row), st)
      | inr stripeStatus =>
        if negb (String.eqb stripeStatus (status_name (Payment.status row))) then
          let s := newStatus stripeStatus row in
          if negb (Payment.Status_eqb s (Payment.status row)) then
            (mkResponse 200 (payment (with_status s row)),
             with_payments
               (snd (PaymentService.updatePayment (now w) (Payment.id row)
                                                  (only_status s) (payments st)))
               st)
          else (mkResponse 200 (payment row), st)
        else (mkResponse 200 (payment row), st)
      end
    end.

End PaymentStatus.

(* ================================================================== *)
(** * services/exchangeRateService.ts *)
(* ================================================================== *)

Module ExchangeRateService.

(** Ten minutes, in milliseconds. *)
Definition CACHE_DURATION_MS : Z := 10 * 60 * 1000.

(** A row of the table of cached rates; the time in milliseconds. *)
Record ExchangeRate : Type := mkExchangeRate {
  from_currency : string;
  to_currency : string;
  rate : float;
  source : string;
  timestamp : Z
}.

(** The answer of the price service: [response.ok], [response.status] and
    the price [data.tether?.<currency>] read from the body (a number, or
    absent; [inl e] when reading the body throws [e]). *)
Record Response : Type := mkResponse {
  ok : bool;
  status : nat;
  tether : JS.error + option float
}.

(** [fetch(url, ...)]: the answer, or the error thrown. *)
Definition Fetch : Type := string -> JS.error + Response.

(** [!rate || rate <= 0] on a number. *)
Definition invalid_rate (rate : float) : bool :=
  (PrimFloat.eqb rate 0 || PrimFloat.is_nan rate) || JS.le rate 0.

Definition price_url (currency : string) : string :=
  "https://api.coingecko.com/api/v3/simple/price?ids=tether&vs_currencies="
    ++ currency.

(** The body shared by the three fetchers. *)
Definition fetch_price (fetch : Fetch) (currency : string) : JS.error + float :=
  match fetch (price_url currency) with
  | inl e => inl e
  | inr response =>
    if negb (ok response) then
      inl (JS.Error ("CoinGecko API error: " ++ JS.show_nat (status response)))
    else
      match tether response with
      | inl e => inl e
      | inr None => inl (JS.Error "Invalid rate from CoinGecko")
      | inr (Some rate) =>
        if invalid_rate rate then inl (JS.Error "Invalid rate from CoinGecko")
        else inr rate
      end
  end.

Definition fetchUSDTtoVND (fetch : Fetch) : JS.error + float :=
  fetch_price fetch "vnd".

Definition fetchUSDTtoUSD (fetch : Fetch) : JS.error + float :=
  fetch_price fetch "usd".

Definition fetchUSDTtoEUR (fetch : Fetch) : JS.error + float :=
  fetch_price fetch "eur".

(** The condition of the cache query. *)
Definition fresh_for (now : Z) (from to : string) (r : ExchangeRate) : bool :=
  String.eqb (from_currency r) (JS.toLowerCase from)
  && String.eqb (to_currency r) (JS.toLowerCase to)
  && (now - CACHE_DURATION_MS <? timestamp r)%Z.

(** [ORDER BY timestamp DESC LIMIT 1]; among rows of one timestamp, the
    first of the table. *)
Definition latest (rows : list ExchangeRate) : option ExchangeRate :=
  fold_left (fun best r =>
               match best with
               | None => Some r
               | Some b => if (timestamp b <? timestamp r)%Z then Some r else best
               end) rows None.

Definition getCachedRate (now : Z) (from to : string) (table : list ExchangeRate)
  : option ExchangeRate :=
  latest (filter (fresh_for now from to) table).

Definition saveRate (now : Z) (from to : string) (rate : float) (source : string)
           (table : list ExchangeRate) : list ExchangeRate :=
  (table ++ [mkExchangeRate (JS.toLowerCase from) (JS.toLowerCase to)
                            rate source now])%list.

(** The arrow of the messages, in UTF-8, between two spaces. *)
Definition arrow : string :=
  String " " (String (ascii_of_N 226) (String (ascii_of_N 134)
    (String (ascii_of_N 146) (String " " EmptyString)))).

(** The [try] block of [getExchangeRate]. *)
Definition fetch_rate (fetch : Fetch) (from to : string) : JS.error + float :=
  let fromLower := JS.toLowerCase from in
  let toLower := JS.toLowerCase to in
  if String.eqb fromLower "usdt" then
    if String.eqb toLower "vnd" then fetchUSDTtoVND fetch
    else if String.eqb toLower "usd" then fetchUSDTtoUSD fetch
    else if String.eqb toLower "eur" then fetchUSDTtoEUR fetch
    else inl (JS.Error ("Unsupported currency pair: " ++ from ++ arrow ++ to))
  else inl (JS.Error ("Unsupported from currency: " ++ from)).

(** [getExchangeRate(from, to)]: the rate, or the error thrown, and the
    table of cached rates. *)
Definition getExchangeRate (fetch : Fetch) (now : Z) (from to : string)
           (table : list ExchangeRate)
  : (JS.error + float) * list ExchangeRate :=
  let fromLower := JS.toLowerCase from in
  let toLower := JS.toLowerCase to in
  let cached := getCachedRate now fromLower toLower table in
  match cached with
  | Some c => (inr (rate c), table)
  | None =>
    match fetch_rate fetch from to with
    | inr fetched =>
      (inr fetched, saveRate now fromLower toLower fetched "coingecko" table)
    | inl error =>
      if String.eqb fromLower "usdt" && String.eqb toLower "usd" then
        (inr 1%float, table)
      else
        match cached with
        | Some c => (inr (rate c), table)
        | None =>
          (inl (JS.Error ("Failed to get exchange rate for " ++ from ++ arrow
                            ++ to ++ ": " ++ JS.show_message error)), table)
        end
    end
  end.

End ExchangeRateService.

(* ================================================================== *)
(** * services/employeeService.ts and controllers/employeeController.ts *)
(* ================================================================== *)

Module EmployeeService.

Record Employee : Type := mkEmployee {
  id : nat;
  wallet_address : string;
  name : option string;
  email : option string;
  country : option string;
  stripe_bank_account_id : option string;
  created_at : Z;
  updated_at : Z
}.

(** The argument of [createEmployee]; [None] is [undefined] or [null]. *)
Record EmployeeData : Type := mkEmployeeData {
  data_wallet_address : string;
  data_name : option string;
  data_email : option string;
  data_country : option string;
  data_stripe_bank_account_id : option string
}.

(** The argument of [updateEmployee]: [None] is [undefined] (the column is
    left alone), [Some None] is [null]. *)
Record Updates : Type := mkUpdates {
  set_name : option (option string);
  set_email : option (option string);
  set_country : option (option string);
  set_stripe_bank_account_id : option (option string)
}.

(** [SELECT * FROM employees WHERE wallet_address = ?], with the address in
    lower case. *)
Definition getEmployeeByAddress (walletAddress : string) (table : list Employee)
  : option Employee :=
  find (fun e => String.eqb (wallet_address e) (JS.toLowerCase walletAddress))
       table.

(** The row inserted: the address in lower case, empty values as [null]. *)
Definition inserted (now : Z) (fresh : nat) (d : EmployeeData) : Employee :=
  mkEmployee fresh (JS.toLowerCase (data_wallet_address d))
             (Cashout.string_or_null (data_name d))
             (Cashout.string_or_null (data_email d))
             (Cashout.string_or_null (data_country d))
             (Cashout.string_or_null (data_stripe_bank_account_id d))
             now now.

(** The object the SQLite branch returns: the data as given. *)
Definition echoed (now : Z) (fresh : nat) (d : EmployeeData) : Employee :=
  mkEmployee fresh (data_wallet_address d) (data_name d) (data_email d)
             (data_country d) (data_stripe_bank_account_id d) now now.

(** [createEmployee]: the wallet address is [UNIQUE]. *)
Definition createEmployee (isSQLite : bool) (now : Z) (fresh : nat)
           (d : EmployeeData) (table : list Employee)
  : (JS.error + Employee) * list Employee :=
  match getEmployeeByAddress (data_wallet_address d) table with
  | Some _ =>
    (inl (JS.Error "Employee with this wallet address already exists"), table)
  | None =>
    (inr (if isSQLite then echoed now fresh d else inserted now fresh d),
     (table ++ [inserted now fresh d])%list)
  end.

Definition no_fields (u : Updates) : bool :=
  match set_name u, set_email u, set_country u, set_stripe_bank_account_id u with
  | None, None, None, None => true
  | _, _, _, _ => false
  end.

Definition or_old {A : Type} (new : option A) (old : A) : A :=
  match new with Some v => v | None => old end.

Definition apply_updates (now : Z) (u : Updates) (e : Employee) : Employee :=
  mkEmployee (id e) (wallet_address e)
             (or_old (set_name u) (name e))
             (or_old (set_email u) (email e))
             (or_old (set_country u) (country e))
             (or_old (set_stripe_bank_account_id u) (stripe_bank_account_id e))
             (created_at e) now.

(** [updateEmployee]: the row it returns and the table. *)
Definition updateEmployee (now : Z) (walletAddress : string) (u : Updates)
           (table : list Employee) : option Employee * list Employee :=
  if no_fields u then (getEmployeeByAddress walletAddress table, table)
  else
    let table' :=
      map (fun e => if String.eqb (wallet_address e) (JS.toLowerCase walletAddress)
                    then apply_updates now u e else e) table in
    (getEmployeeByAddress walletAddress table', table').

(** [deleteEmployee]: whether a row was deleted, and the table. *)
Definition deleteEmployee (walletAddress : string) (table : list Employee)
  : bool * list Employee :=
  (existsb (fun e => String.eqb (wallet_address e) (JS.toLowerCase walletAddress))
           table,
   filter (fun e => negb (String.eqb (wallet_address e)
                                     (JS.toLowerCase walletAddress)))
          table).

End EmployeeService.

Module EmployeeController.

Import Sys.

Inductive Body : Type :=
| error (msg : string)
| employee (row : EmployeeService.Employee)
| deleted.

Record Response : Type := mkResponse { status : nat; body : Body }.

Definition Table : Type := list EmployeeService.Employee.

Definition getEmployee (w : World) (address : string) (table : Table)
  : Response :=
  if negb (JS.truthy address) || negb (Blockchain.isValidAddress w address) then
    mkResponse 400 (error "Invalid address")
  else
    match EmployeeService.getEmployeeByAddress address table with
    | None => mkResponse 404 (error "Employee not found")
    | Some row => mkResponse 200 (employee row)
    end.

(** [registerEmployee]; [fresh] is the id the database gives to a new row. *)
Definition registerEmployee (w : World) (isSQLite : bool) (fresh : nat)
           (d : EmployeeService.EmployeeData) (table : Table)
  : Response * Table :=
  let wallet_address := EmployeeService.data_wallet_address d in
  if negb (JS.truthy wallet_address)
     || negb (Blockchain.isValidAddress w wallet_address) then
    (mkResponse 400 (error "Invalid wallet address"), table)
  else
    match EmployeeService.getEmployeeByAddress wallet_address table with
    | Some _ => (mkResponse 400 (error "Employee already exists"), table)
    | None =>
      match EmployeeService.createEmployee isSQLite (now w) fresh d table with
      | (inr row, table) => (mkResponse 201 (employee row), table)
      | (inl e, table) =>
        (mkResponse 500 (error (JS.message_or e "Failed to register employee")),
         table)
      end
    end.

Definition updateEmployeeInfo (w : World) (address : string)
           (u : EmployeeService.Updates) (table : Table) : Response * Table :=
  if negb (JS.truthy address) || negb (Blockchain.isValidAddress w address) then
    (mkResponse 400 (error "Invalid address"), table)
  else
    match EmployeeService.updateEmployee (now w) address u table with
    | (None, table) => (mkResponse 404 (error "Employee not found"), table)
    | (Some row, table) => (mkResponse 200 (employee row), table)
    end.

Definition deleteEmployeeInfo (w : World) (address : string) (table : Table)
  : Response * Table :=
  if negb (JS.truthy address) || negb (Blockchain.isValidAddress w address) then
    (mkResponse 400 (error "Invalid address"), table)
  else
    match EmployeeService.deleteEmployee address table with
    | (false, table) => (mkResponse 404 (error "Employee not found"), table)
    | (true, table) => (mkResponse 200 deleted, table)
    end.

End EmployeeController.

(* ================================================================== *)
(** * The payroll controller: preparation of a batch *)
(* ================================================================== *)

Module PayrollPreparation.

Import Sys.

(** An entry of [employees]; a field that is absent is the empty string. *)
Record Employee : Type := mkEmployee {
  address : string;
  amount : string
}.

(** The body of the request; [employees] that is absent, or not an array,
    is the empty list. *)
Record Request : Type := mkRequest {
  employees : list Employee;
  employer_address : string
}.

(** What the chain library, the clock and the random generator give to one
    request: [ethers.parseUnits(value, decimals)] (amounts that reach it
    passed [parseFloat(amount) > 0], so that what it accepts is not
    negative), [Date.now().toString(36)] and
    [Math.random().toString(36).substring(2, 9)]. *)
Record Env : Type := mkEnv {
  parseUnits : string -> nat -> JS.error + N;
  timestamp36 : string;
  random36 : string
}.

(** utils/uuid.ts: [generatePayrollId()]. *)
Definition generatePayrollId (env : Env) : string :=
  "payroll_" ++ timestamp36 env ++ "_" ++ random36 env.

(** An element of [validatedEmployees]. *)
Record Entry : Type := mkEntry {
  entry_employer_address : string;
  entry_employee_address : string;
  entry_amount_usdt : string
}.

Inductive Body : Type :=
| error (msg : string)
| invalid_employee_address (address : string)
| duplicate_employee_address (address : string)
| invalid_amount (address : string)
| amount_not_a_number (address : string)
| insufficient_balance (balance required : string) (shortfall : JS.text)
| prepared (payrollId totalAmount : string) (employeeCount : nat)
           (employees : list Employee).

Record Response : Type := mkResponse { status : nat; body : Body }.

(** The 500 of the outer [catch]. *)
Definition failed (e : JS.error) : Response :=
  mkResponse 500 (error (JS.message_or e "Failed to prepare payroll")).

(** The loop over [employees]: the response of the first entry refused, or
    the total in the smallest unit and the validated entries. *)
Fixpoint validate (w : World) (env : Env) (decimals : nat)
         (employer_address : string) (employees : list Employee)
         (seenAddresses : list string) (totalAmount : N)
         (validatedEmployees : list Entry)
  : Response + (N * list Entry) :=
  match employees with
  | [] => inr (totalAmount, validatedEmployees)
  | emp :: rest =>
    if negb (JS.truthy (address emp))
       || negb (Blockchain.isValidAddress w (address emp)) then
      inl (mkResponse 400 (invalid_employee_address (address emp)))
    else
      let normalizedAddress := JS.toLowerCase (address emp) in
      if PayrollController.set_has normalizedAddress seenAddresses then
        inl (mkResponse 400 (duplicate_employee_address (address emp)))
      else
        let seenAddresses :=
          PayrollController.set_add normalizedAddress seenAddresses in
        if String.eqb normalizedAddress (JS.toLowerCase employer_address) then
          inl (mkResponse 400
                 (error "Employee address cannot be same as employer address"))
        else if negb (JS.truthy (amount emp))
                || JS.le (JS.parseFloat (amount emp)) 0 then
          inl (mkResponse 400 (invalid_amount (address emp)))
        else if PrimFloat.is_nan (JS.parseFloat (amount emp)) then
          inl (mkResponse 400 (amount_not_a_number (address emp)))
        else
          match parseUnits env (amount emp) decimals with
          | inl e => inl (failed e)
          | inr amountWei =>
            validate w env decimals employer_address rest seenAddresses
                     (totalAmount + amountWei)%N
                     (validatedEmployees
                        ++ [mkEntry employer_address (address emp) (amount emp)])%list
          end
  end.

(** The check of the balance of the employer: the response when it is
    known to be insufficient; a lookup that throws is ignored. *)
Definition check_balance (w : World) (employer_address : string)
           (totalAmount : N) (decimals : nat) : option Response :=
  match Blockchain.getUSDTBalance w employer_address with
  | inl _ => None
  | inr balance =>
    let totalAmountStr := formatUnits w totalAmount decimals in
    let balanceNum := JS.parseFloat balance in
    let requiredNum := JS.parseFloat totalAmountStr in
    if JS.lt balanceNum requiredNum then
      Some (mkResponse 400
              (insufficient_balance balance totalAmountStr
                 (JS.NumToFixed 6 (PrimFloat.sub requiredNum balanceNum))))
    else None
  end.

(** The rows [createPayrolls] inserts for the entries, from the id [fresh]
    on: one batch identifier, the addresses in lower case. *)
Fixpoint rows_of (payrollId : string) (fresh : nat) (entries : list Entry)
  : list Payroll.Payroll :=
  match entries with
  | [] => []
  | entry :: rest =>
    Payroll.mkPayroll fresh payrollId
                      (JS.toLowerCase (entry_employer_address entry))
                      (JS.toLowerCase (entry_employee_address entry))
                      (entry_amount_usdt entry) None None Payroll.pending
    :: rows_of payrollId (S fresh) rest
  end.

(** [createPayrolls(payrolls)] for entries that carry no batch identifier:
    the identifier of the batch and the state. *)
Definition createPayrolls (env : Env) (entries : list Entry) (st : State)
  : string * State :=
  let payrollId := generatePayrollId env in
  (payrollId,
   mkState (payments st) (cashouts st)
           (payrolls st ++ rows_of payrollId (next_id st) entries)%list
           (next_id st + List.length entries) (log st)).

Definition preparePayroll (w : World) (env : Env) (req : Request) (st : State)
  : Response * State :=
  if negb (JS.truthy (employer_address req))
     || negb (Blockchain.isValidAddress w (employer_address req)) then
    (mkResponse 400 (error "Invalid employer address"), st)
  else
    match employees req with
    | [] =>
      (mkResponse 400 (error "Employees array is required and cannot be empty"),
       st)
    | _ :: _ =>
      match decimals w with
      | inl e => (failed e, st)
      | inr decimals =>
        match validate w env decimals (employer_address req) (employees req)
                       [] 0%N [] with
        | inl response => (response, st)
        | inr (totalAmount, validatedEmployees) =>
          match check_balance w (employer_address req) totalAmount decimals with
          | Some response => (response, st)
          | None =>
            let '(payrollId, st) := createPayrolls env validatedEmployees st in
            if negb (JS.truthy payrollId) then
              (failed (JS.Error "Failed to create payroll records"), st)
            else
              (mkResponse 200
                 (prepared payrollId (formatUnits w totalAmount decimals)
                           (List.length validatedEmployees)
                           (map (fun entry =>
                                   mkEmployee (entry_employee_address entry)
                                              (entry_amount_usdt entry))
                                validatedEmployees)), st)
          end
        end
      end
    end.

End PayrollPreparation.

(* ================================================================== *)
(** * Further vocabulary *)
(* ================================================================== *)

(** ** Sequences of webhook events *)

Module Deliveries.

Import Sys.

(** The function [f] applied to the rows of id [i], the others left alone. *)
Definition at_id (i : nat) (f : Payment.Payment -> Payment.Payment)
           (p : Payment.Payment) : Payment.Payment :=
  if Nat.eqb (Payment.id p) i then f p else p.

(** The ledger after the events have been dispatched in turn, each in the
    world in which it arrives. *)
Definition deliver (events : list (World * Event)) (st : State) : State :=
  fold_left (fun st arrival =>
               snd (WebhookController.dispatch (fst arrival) (snd arrival) st))
            events st.

(** The address the settlement transfers to:
    [paymentIntent.metadata?.wallet_address || payment.wallet_address]. *)
Definition recipient (paymentIntent : PaymentIntent) (payment : Payment.Payment)
  : string :=
  JS.or_else (match metadata_wallet_address paymentIntent with
              | Some a => a
              | None => EmptyString
              end)
             (Payment.wallet_address payment).

End Deliveries.

(** ** Cashout requests *)

Module Requests.

Import Sys CashoutController.

(** The request with another destination: bank account, connected account
    and currency; the signed message, the signature, the address, the
    amount and the transaction hash are kept. *)
Definition redirected (bankAccountId connectedAccountId currency : string)
           (req : Request) : Request :=
  mkRequest (amount req) currency bankAccountId connectedAccountId
            (signature req) (message req) (txHash req)
            (employeeAddress req) (address req).

(** What a cashout is about: the columns written when the row is created
    and the payout is made. *)
Definition deposit_columns (c : Cashout.Cashout)
  : nat * string * string * string * option JS.text * option JS.text
    * string * option string * option string * Z :=
  (Cashout.id c, Cashout.employee_address c, Cashout.amount_usdt c,
   Cashout.fiat_currency c, Cashout.fiat_amount c, Cashout.exchange_rate c,
   Cashout.tx_hash_onchain c, Cashout.payout_id_stripe c,
   Cashout.stripe_bank_account_id c, Cashout.created_at c).

(** A cashout marked paid has a completion time. *)
Definition stamped (c : Cashout.Cashout) : Prop :=
  Cashout.status c = Cashout.paid -> Cashout.completed_at c <> None.

End Requests.

(** ** Cashout messages *)

Module Messages.

(** The message with [separator] between the timestamp and the address
    line. *)
Definition layout (separator address amount timestamp : string) : string :=
  "I request cashout " ++ amount ++ " USDT at " ++ timestamp ++ separator
    ++ "Address: " ++ address.

(** The text [u] read against the amount [pattern] of a request: a
    character of the pattern stands for itself, and the dot for any ASCII
    character that is not a line terminator. *)
Definition reads_as (pattern u : string) : Prop :=
  Forall2 (fun p c =>
             if Ascii.eqb p "."
             then JS.is_ascii c = true /\ Regex.is_line_terminator c = false
             else c = p)
          (list_ascii_of_string pattern) (list_ascii_of_string u).

(** A decimal amount: digits and dots. *)
Definition decimal (amount : string) : bool :=
  JS.all_chars (fun c => JS.is_digit c || Ascii.eqb c ".")%bool amount.

(** A timestamp the pattern [.+] can match: ASCII text, not empty, on one
    line. *)
Definition one_line (timestamp : string) : bool :=
  JS.truthy timestamp
  && JS.all_chars (fun c => JS.is_ascii c && negb (Regex.is_line_terminator c))
                  timestamp.

End Messages.

(** ** Decoded logs *)

Module Decoded.

Import Sys.

(** The transfer a parsed event stands for, its value formatted with the
    decimals [d] of the token. *)
Definition transfer_of (w : World) (d : nat) (ev : ParsedLog) : Transfer :=
  mkTransfer (arg_from ev) (arg_to ev) (formatUnits w (arg_value ev) d).

(** The log parses to the [Transfer] event [ev]. *)
Definition is_transfer (log : Log) (ev : ParsedLog) : Prop :=
  parseLog log = inr (Some ev) /\ name ev = "Transfer".

(** The transfer [t] is decoded from a [Transfer] event of [entries] sent
    by [sender] (addresses compared in lower case). *)
Definition sent_by (w : World) (sender : string) (entries : list Log)
           (t : Transfer) : Prop :=
  exists log ev d,
    In log entries /\ is_transfer log ev
    /\ JS.toLowerCase (arg_from ev) = JS.toLowerCase sender
    /\ decimals w = inr d
    /\ t = transfer_of w d ev.

End Decoded.

(** ** Columns of the rows *)

Module Columns.

(** The columns that only a settlement writes. *)
Definition settlement_columns (p : Payment.Payment)
  : nat * string * string * string * string * JS.text * JS.text
    * option string * option Z * option string * Z :=
  (Payment.id p, Payment.payment_intent_id p, Payment.wallet_address p,
   Payment.amount_fiat p, Payment.fiat_currency p, Payment.amount_usdt p,
   Payment.exchange_rate p, Payment.tx_hash p, Payment.block_number p,
   Payment.error_message p, Payment.created_at p).

(** The function keeps the keys of a payment: its id and its reference. *)
Definition keeps_keys (f : Payment.Payment -> Payment.Payment) : Prop :=
  forall p, Payment.id (f p) = Payment.id p
            /\ Payment.payment_intent_id (f p) = Payment.payment_intent_id p.


End Columns.

(** ** Requests for a payroll batch *)

Module Batches.

Import Sys PayrollPreparation.

(** What the loop requires of an entry. *)
Definition acceptable (w : World) (employer_address : string) (emp : Employee)
  : Prop :=
  JS.truthy (address emp) = true
  /\ isAddress w (address emp) = true
  /\ JS.toLowerCase (address emp) <> JS.toLowerCase employer_address
  /\ JS.truthy (amount emp) = true
  /\ JS.gt (JS.parseFloat (amount emp)) 0 = true.

Definition lowered (emp : Employee) : string := JS.toLowerCase (address emp).

Definition entry_of (employer_address : string) (emp : Employee) : Entry :=
  mkEntry employer_address (address emp) (amount emp).

(** The sum of the amounts in the smallest unit, when each one parses. *)
Fixpoint total_of (env : Env) (decimals : nat) (employees : list Employee)
  : option N :=
  match employees with
  | [] => Some 0%N
  | emp :: rest =>
    match parseUnits env (amount emp) decimals, total_of env decimals rest with
    | inr wei, Some total => Some (wei + total)%N
    | _, _ => None
    end
  end.

End Batches.

(* ================================================================== *)
(** * Further scenarios *)
(* ================================================================== *)

Module Cases.

Import Sys Scenario.

(** The processor reports every intent as paid. *)
Definition paid : string -> JS.error + string := fun _ => inr "succeeded".

(** The price service answers with one price, or cannot be reached. *)
Definition price_service (price : float) : ExchangeRateService.Fetch :=
  fun _ => inr (ExchangeRateService.mkResponse true 200 (inr (Some price))).

Definition price_service_down : ExchangeRateService.Fetch :=
  fun _ => inl (JS.Error "fetch failed").

(** The registration of alice, and the registry after it. *)
Definition alice_data : EmployeeService.EmployeeData :=
  EmployeeService.mkEmployeeData alice (Some "Alice") None (Some "VN") None.

Definition registry : list EmployeeService.Employee :=
  [EmployeeService.inserted 1714557000 1 alice_data;
   EmployeeService.inserted
     1714557100 2
     (EmployeeService.mkEmployeeData bob (Some "Bob") None None None)].

(** The chain library reads the two amounts of the scenario. *)
Definition parse_units (value : string) (decimals : nat) : JS.error + N :=
  if String.eqb value "10.0" then inr (10 * 10 ^ N.of_nat decimals)%N
  else if String.eqb value "20.0" then inr (20 * 10 ^ N.of_nat decimals)%N
  else inl (JS.Error "invalid FixedNumber string value").

Definition office : PayrollPreparation.Env :=
  PayrollPreparation.mkEnv parse_units "lvo3k2a1" "x7f3k9q".

(** The employer prepares a batch for alice: 10 and bob: 20. *)
Definition staff : PayrollPreparation.Request :=
  PayrollPreparation.mkRequest
    [PayrollPreparation.mkEmployee alice "10.0";
     PayrollPreparation.mkEmployee bob "20.0"]
    employer.


(** The transaction of the employer was reverted. *)
Definition reverted_transaction : World :=
  with_transaction employer (fun h => mkReceipt h 42 (Some 0) []) world.

(** The ledger after the charge of alice has been settled. *)
Definition settled : State :=
  snd (WebhookController.handlePaymentIntentSucceeded
         world charge_confirmed awaiting_charge).

(** The node stops answering once a transfer has been sent. *)
Definition with_waitForTransaction (f : string -> JS.error + option Receipt)
           (w : World) : World :=
  mkWorld (now w) (isSQLite w) (isAddress w) (verifyMessage w)
          (regExpEngine w) (offrampWallet w) (parseUnits w)
          (contract_transfer w) f (getTransactionReceipt w) (getTransaction w)
          (decimals w) (balanceOf w) (formatUnits w) (getExchangeRate w)
          (constructEvent w) (stripeWebhookSecret w) (createPaymentIntent w)
          (createPayout w) (transferToConnectedAccount w).

Definition node_timeout : JS.error := JS.Error "request timed out".

Definition unconfirmed : World :=
  with_waitForTransaction (fun _ => inl node_timeout) world.

(** The processor refuses payouts and transfers to connected accounts. *)
Definition payout_refused : JS.error := JS.Error "Insufficient funds in Stripe account".

Definition refusing : World :=
  mkWorld (now world) (isSQLite world) (isAddress world) (verifyMessage world)
          (regExpEngine world) (offrampWallet world) (parseUnits world)
          (contract_transfer world) (provider_waitForTransaction world)
          (getTransactionReceipt world) (getTransaction world)
          (decimals world) (balanceOf world) (formatUnits world)
          (getExchangeRate world) (constructEvent world)
          (stripeWebhookSecret world) (createPaymentIntent world)
          (fun _ _ _ _ => inl payout_refused)
          (fun _ _ _ => inl payout_refused).

End Cases.

(* ================================================================== *)
(** * Properties *)
(* ================================================================== *)

Import Sys Observe Reconcile Pattern Scenario.

(** ** The model on concrete inputs *)

Example parseFloat_reads_decimal_literals :
  JS.parseFloat "100.004" = 0x1.9004189374bc7p+6%float
  /\ JS.parseFloat "  -2.5e1 USDT" = (-25)%float
  /\ JS.parseFloat ".5" = 0.5%float
  /\ JS.parseFloat "7." = 7%float
  /\ JS.parseFloat "abc" = nan
  /\ JS.parseFloat "-Infinity" = neg_infinity.
Proof. repeat split; vm_compute; reflexivity. Qed.

(** White space of more than one byte is skipped as well: a no-break space
    (U+00A0) and a line separator (U+2028) before the digits. *)
Example parseFloat_skips_unicode_white_space :
  JS.parseFloat (String (ascii_of_N 194) (String (ascii_of_N 160) "6"))
  = 6%float
  /\ JS.parseFloat
       (String (ascii_of_N 226)
               (String (ascii_of_N 128) (String (ascii_of_N 168) " 2.5")))
     = 2.5%float
  /\ JS.parseFloat (String (ascii_of_N 194) "6") = nan.
Proof. repeat split; vm_compute; reflexivity. Qed.

(** At a decimal distance of exactly 0.01 the outcome is the one of the
    binary64 subtraction. *)
Example the_boundary_is_binary :
  JS.exceeds_tolerance (JS.parseFloat "100.01") (JS.parseFloat "100.00") = true
  /\ JS.exceeds_tolerance (JS.parseFloat "5.01") (JS.parseFloat "5.00") = false.
Proof. split; vm_compute; reflexivity. Qed.

(** Messages accepted and refused; an amount that is not a plain numeral
    is left to the engine, which may accept a message without address. *)
Example messages_accepted_and_refused (engine : Signature.Engine) :
  Signature.validateCashoutMessage
    engine (Signature.createCashoutMessage alice "5.0" "2024-05-01T10:00:00.000Z")
    alice "5.0" = inr true
  /\ Signature.validateCashoutMessage
       engine
       (Signature.createCashoutMessage alice "5.0" "2024-05-01T10:00:00.000Z")
       alice "6.0" = inr false
  /\ Signature.validateCashoutMessage
       engine
       (Signature.createCashoutMessage alice "5.0" "2024-05-01T10:00:00.000Z")
       mallory "5.0" = inr false
  /\ Signature.validateCashoutMessage
       engine ("I request cashout 3 USDT at noon Address: " ++ alice) alice "3"
     = inr true
  /\ Signature.validateCashoutMessage
       engine (Signature.createCashoutMessage alice "5.0" EmptyString) alice "5.0"
     = inr false
  /\ Signature.validateCashoutMessage engine "I request cashout 5" alice "5|6"
     = engine "I request cashout 5" alice "5|6".
Proof. repeat split; vm_compute; reflexivity. Qed.

Example errors_classified :
  Blockchain.isRetryableError gateway_error = true
  /\ Blockchain.isRetryableError (JS.Error "request timeout") = true
  /\ Blockchain.isRetryableError (JS.mkError None (Some "TIMEOUT") None) = true
  /\ Blockchain.isRetryableError
       (JS.Error "Insufficient balance in offramp wallet. Required: 3.0 USDT, Available: 1.0 USDT")
     = false
  /\ Blockchain.isRetryableError (JS.Error "invalid address") = false.
Proof. repeat split; vm_compute; reflexivity. Qed.

(** The classification reads the message by substring: a balance that shows
    the digits 503 makes the same error look transient. *)
Example a_balance_can_look_transient :
  Blockchain.isRetryableError
    (JS.Error "Insufficient balance in offramp wallet. Required: 3.0 USDT, Available: 1.503 USDT")
  = true.
Proof. vm_compute; reflexivity. Qed.

(** Amounts as the chain library prints them. *)
Example token_amounts_rendered :
  format_units (tokens 5) 18 = "5.0"
  /\ format_units (thousandths 100004) 18 = "100.004"
  /\ format_units 1 18 = "0.000000000000000001"
  /\ format_units 1234567 6 = "1.234567"
  /\ format_units 15 0 = "15".
Proof. repeat split; vm_compute; reflexivity. Qed.

(** What the chain verification makes of a deposit, of a reverted
    transaction, of a receipt without logs, of a log that cannot be decoded,
    and of a payroll transaction sent by somebody else. *)
Example chain_verification_decodes_and_rewraps :
  Blockchain.verifyTransferTransaction world deposit
  = inr (mkTransfer alice custody "5.0")
  /\ Blockchain.verifyTransferTransaction
       (with_transaction alice (fun h => mkReceipt h 41 (Some 0) []) world) deposit
     = inl (JS.Error "Failed to verify transaction: Transaction failed")
  /\ Blockchain.verifyTransferTransaction
       (with_transaction alice (fun h => mkReceipt h 41 (Some 1) []) world) deposit
     = inl (JS.Error "Failed to verify transaction: Cannot read properties of undefined (reading 'topics')")
  /\ Blockchain.verifyTransferTransaction
       (with_transaction
          alice
          (fun h => mkReceipt h 41 (Some 1)
                              [mkLog (inl (JS.Error "could not decode result data"))])
          world) deposit
     = inl (JS.Error "Could not decode transaction data. Transaction may not exist or contract address is incorrect.")
  /\ Blockchain.verifyPayrollTransaction (pays_alice (tokens 10)) deposit employer
     = inr ([mkTransfer employer alice "10.0"], 42%Z)
  /\ Blockchain.verifyPayrollTransaction world deposit employer
     = inl (JS.Error "Failed to verify payroll transaction: Transaction sender does not match employer address").
Proof. repeat split; vm_compute; reflexivity. Qed.

(** The on-ramp from the purchase to the settled row. *)
Example on_ramp_end_to_end :
  let st1 := snd (PaymentController.createPaymentIntentHandler world (buy "3") empty) in
  let st2 := snd (WebhookController.handleStripeWebhook
                    (with_constructEvent
                       (fun _ _ _ => inr (payment_intent_succeeded charge_confirmed))
                       world)
                    (WebhookController.mkRequest "t=1,v1=ab" "{}") st1) in
  List.map Payment.status (payments st1) = [Payment.pending]
  /\ List.map Payment.status (payments st2) = [Payment.completed]
  /\ List.map Payment.tx_hash (payments st2) = [Some settlement]
  /\ transfers_sent st2 = 1.
Proof. repeat split; vm_compute; reflexivity. Qed.

(** The off-ramp from the request to the paid cashout. *)
Example off_ramp_end_to_end :
  let st1 := snd (CashoutController.requestCashout world cashout_request empty) in
  let st2 := snd (WebhookController.handlePayoutPaid
                    world (mkPayout "po_1" None None) st1) in
  fst (CashoutController.requestCashout world cashout_request empty)
  = CashoutController.mkResponse
      200 (CashoutController.created 1 "po_1" (JS.NumToString 5) "usd" deposit)
  /\ List.map Cashout.status (cashouts st1) = [Cashout.pending_payout]
  /\ List.map Cashout.status (cashouts st2) = [Cashout.paid]
  /\ chain_lookups st1 = 1 /\ fiat_movements st1 = 1.
Proof. repeat split; vm_compute; reflexivity. Qed.

(** ** Binary64 arithmetic *)

Module FloatFacts.

Lemma digits2_pos_shift (m : positive) :
  digits2_pos (Pos.mul 4503599627370496 m) = (digits2_pos m + 52)%positive.
Proof. cbn [Pos.mul digits2_pos]. lia. Qed.

Lemma shr_52 (m : positive) :
  iter_pos shr_1 52 (Build_shr_record (Zpos (Pos.mul 4503599627370496 m)) false false)
  = Build_shr_record (Zpos m) false false.
Proof. reflexivity. Qed.

Lemma SF64mul_one (x : spec_float) :
  valid_binary x = true ->
  SF64mul x (S754_finite false 4503599627370496 (-52)) = x.
Proof.
  destruct x as [s|s|  |s m e]; intros Hv; unfold SF64mul; cbn [SFmul];
    try (rewrite ?xorb_false_r; reflexivity).
  unfold valid_binary in Hv. cbn [SpecFloat.valid_binary] in Hv.
  unfold bounded, canonical_mantissa in Hv.
  apply andb_true_iff in Hv as [Hc Hb]. apply Z.eqb_eq in Hc.
  rewrite xorb_false_r, Pos.mul_comm.
  unfold binary_round_aux, shr_fexp. cbn [Zdigits2 shr_record_of_loc].
  rewrite digits2_pos_shift.
  replace (Z.pos (digits2_pos m + 52) + (e + -52))%Z
    with (Z.pos (digits2_pos m) + e)%Z by lia.
  rewrite Hc.
  replace (e - (e + -52))%Z with 52%Z by lia.
  cbn [shr]. rewrite shr_52. cbn [shr_m loc_of_shr_record round_nearest_even Zdigits2].
  replace (e + -52 + 52)%Z with e by lia.
  rewrite Hc, Z.sub_diag. cbn [shr shr_m]. rewrite Hb. reflexivity.
Qed.

(** Multiplication by one is exact. *)
Lemma mul_one (x : float) : PrimFloat.mul x 1 = x.
Proof.
  apply Prim2SF_inj. rewrite mul_spec.
  change (Prim2SF 1) with (S754_finite false 4503599627370496 (-52)).
  apply SF64mul_one. apply Prim2SF_valid.
Qed.

End FloatFacts.

(** ** Compilation and matching of the cashout patterns *)

Module RegexFacts.

Import Regex.

Local Open Scope list_scope.

Lemma list_ascii_app (a b : string) :
  list_ascii_of_string (a ++ b)%string
  = list_ascii_of_string a ++ list_ascii_of_string b.
Proof. induction a as [|c a IH]; simpl; [reflexivity | now rewrite IH]. Qed.

Lemma list_ascii_lower (s : string) :
  list_ascii_of_string (JS.toLowerCase s)
  = map JS.lower_char (list_ascii_of_string s).
Proof. induction s as [|c s IH]; simpl; [reflexivity | now rewrite IH]. Qed.

Lemma all_chars_forallb (p : ascii -> bool) (s : string) :
  JS.all_chars p s = forallb p (list_ascii_of_string s).
Proof. induction s as [|c s IH]; simpl; [reflexivity | now rewrite IH]. Qed.

Lemma parse_acc_plain (s rest : list ascii) :
  forallb plain s = true ->
  forall acc,
    parse_acc acc (s ++ rest) = parse_acc (rev (map item_of s) ++ acc) rest.
Proof.
  induction s as [|c s IH]; intros Hs acc; [reflexivity|].
  simpl in Hs. apply andb_true_iff in Hs as [Hc Hs].
  simpl. unfold plain in Hc.
  assert (Hi : item_of c
               = (match classify c with CDot => Dot | _ => Lit c end, Once))
    by reflexivity.
  destruct (classify c); try discriminate;
    rewrite (IH Hs), <- app_assoc, Hi; reflexivity.
Qed.

Lemma match_here_accepts (ci : bool) (its : list item) (u : list ascii) :
  accepts ci its u ->
  forall r t, match_here ci (its ++ r) (u ++ t) = match_here ci r t.
Proof.
  induction 1 as [|[a q] c its u [Hq Hc] _ IH]; intros r t; [reflexivity|].
  simpl in Hq, Hc. subst q. simpl. rewrite Hc. simpl. apply IH.
Qed.

Lemma match_star_absorbs (ci : bool) (a : atom) (k : list ascii -> bool)
      (u t : list ascii) :
  Forall (fun c => atom_matches ci a c = true) u ->
  k t = true ->
  match_star ci a k (u ++ t) = true.
Proof.
  induction 1 as [|c u Hc _ IH]; intros Hk; simpl.
  - destruct t; simpl; rewrite Hk; reflexivity.
  - rewrite Hc, (IH Hk). simpl. apply orb_true_r.
Qed.

Lemma search_of_match_here (ci : bool) (r : list item) (s : list ascii) :
  match_here ci r s = true -> search ci r s = true.
Proof. intros H. destruct s; simpl; rewrite H; reflexivity. Qed.

Lemma plain_accepts_lower (c : ascii) :
  plain c = true -> atom_matches true (fst (item_of c)) (JS.lower_char c) = true.
Proof.
  destruct c as [[] [] [] [] [] [] [] []]; intros H;
    solve [reflexivity | discriminate H].
Qed.

Lemma alnum_lower_plain (c : ascii) :
  JS.is_alnum c = true ->
  item_of (JS.lower_char c) = (Lit (JS.lower_char c), Once)
  /\ plain (JS.lower_char c) = true.
Proof.
  destruct c as [[] [] [] [] [] [] [] []]; intros H;
    solve [split; reflexivity | discriminate H].
Qed.

Lemma digit_or_dot_plain (c : ascii) :
  (JS.is_digit c || Ascii.eqb c ".")%bool = true -> plain c = true.
Proof.
  destruct c as [[] [] [] [] [] [] [] []]; intros H;
    solve [reflexivity | discriminate H].
Qed.

Lemma lower_keeps_line (c : ascii) :
  is_line_terminator c = false ->
  atom_matches true Dot (JS.lower_char c) = true.
Proof.
  destruct c as [[] [] [] [] [] [] [] []]; intros H;
    solve [reflexivity | discriminate H].
Qed.

Lemma accepts_lower (s : list ascii) :
  forallb plain s = true ->
  accepts true (map item_of s) (map JS.lower_char s).
Proof.
  induction s as [|c s IH]; simpl; intros H; [constructor|].
  apply andb_true_iff in H as [Hc Hs].
  constructor; [split; [reflexivity | now apply plain_accepts_lower] | now apply IH].
Qed.

Lemma accepts_lowered_alnum (s : list ascii) :
  forallb JS.is_alnum s = true ->
  accepts true (map item_of (map JS.lower_char s)) (map JS.lower_char s)
  /\ forallb plain (map JS.lower_char s) = true.
Proof.
  induction s as [|c s IH]; simpl; intros H; [split; [constructor | reflexivity]|].
  apply andb_true_iff in H as [Hc Hs].
  destruct (alnum_lower_plain c Hc) as [Hi Hp].
  destruct (IH Hs) as [IH1 IH2].
  split.
  - constructor; [|exact IH1]. rewrite Hi. split; [reflexivity|].
    simpl. apply Ascii.eqb_refl.
  - rewrite Hp, IH2. reflexivity.
Qed.

Lemma parse_dot_plus (acc : list item) (rest : list ascii) :
  parse_acc acc ("."%char :: "+"%char :: rest) = parse_acc ((Dot, Plus) :: acc) rest.
Proof. reflexivity. Qed.

Lemma parse_escaped_n (acc : list item) (rest : list ascii) :
  parse_acc acc ("\"%char :: "n"%char :: rest)
  = parse_acc ((Lit JS.LF, Once) :: acc) rest.
Proof. reflexivity. Qed.

Lemma parse_space (acc : list item) (rest : list ascii) :
  parse_acc acc (" "%char :: rest) = parse_acc ((Lit " "%char, Once) :: acc) rest.
Proof. reflexivity. Qed.

Lemma parse_acc_plain_end (s : list ascii) (acc : list item) :
  forallb plain s = true ->
  parse_acc acc s = Some (rev acc ++ map item_of s).
Proof.
  intros Hs. rewrite <- (app_nil_r s) at 1. rewrite (parse_acc_plain _ _ Hs).
  cbn [parse_acc]. now rewrite rev_app_distr, rev_involutive.
Qed.

Ltac compile_pattern :=
  intros Ha Hl; unfold compile;
  rewrite !list_ascii_app;
  rewrite (parse_acc_plain (list_ascii_of_string "I request cashout "))
    by reflexivity;
  rewrite (parse_acc_plain _ _ Ha);
  change (list_ascii_of_string " USDT at .+\n\nAddress: ")
    with (list_ascii_of_string " USDT at "
            ++ "."%char :: "+"%char :: "\"%char :: "n"%char :: "\"%char :: "n"%char
            :: list_ascii_of_string "Address: ");
  change (list_ascii_of_string " USDT at .+\nAddress: ")
    with (list_ascii_of_string " USDT at "
            ++ "."%char :: "+"%char :: "\"%char :: "n"%char
            :: list_ascii_of_string "Address: ");
  change (list_ascii_of_string " USDT at .+ Address: ")
    with (list_ascii_of_string " USDT at "
            ++ "."%char :: "+"%char :: list_ascii_of_string " Address: ");
  rewrite <- !app_assoc;
  rewrite (parse_acc_plain (list_ascii_of_string " USDT at ")) by reflexivity;
  rewrite <- !app_comm_cons;
  rewrite parse_dot_plus, ?parse_escaped_n;
  rewrite (parse_acc_plain (list_ascii_of_string _)) by reflexivity;
  rewrite (parse_acc_plain_end _ _ Hl);
  f_equal; f_equal;
  repeat (rewrite rev_app_distr || rewrite rev_involutive
          || rewrite app_nil_r || (progress cbn [rev app]));
  unfold head, tail1, tail2, tail3;
  rewrite <- ?app_assoc; reflexivity.

Lemma compile_pattern1 (amount la : string) :
  forallb plain (list_ascii_of_string amount) = true ->
  forallb plain (list_ascii_of_string la) = true ->
  compile (Signature.pattern1 amount la) true
  = Some (mkRegExp (head ++ map item_of (list_ascii_of_string amount)
                         ++ tail1 ++ map item_of (list_ascii_of_string la)) true).
Proof. unfold Signature.pattern1. compile_pattern. Qed.

Lemma compile_pattern2 (amount la : string) :
  forallb plain (list_ascii_of_string amount) = true ->
  forallb plain (list_ascii_of_string la) = true ->
  compile (Signature.pattern2 amount la) true
  = Some (mkRegExp (head ++ map item_of (list_ascii_of_string amount)
                         ++ tail2 ++ map item_of (list_ascii_of_string la)) true).
Proof. unfold Signature.pattern2. compile_pattern. Qed.

Lemma compile_pattern3 (amount la : string) :
  forallb plain (list_ascii_of_string amount) = true ->
  forallb plain (list_ascii_of_string la) = true ->
  compile (Signature.pattern3 amount la) true
  = Some (mkRegExp (head ++ map item_of (list_ascii_of_string amount)
                         ++ tail3 ++ map item_of (list_ascii_of_string la)) true).
Proof. unfold Signature.pattern3. compile_pattern. Qed.

(** The first pattern matches the lowered message at its start. *)
Lemma pattern1_matches (amount timestamp la : list ascii) :
  forallb plain amount = true ->
  timestamp <> [] ->
  forallb (fun c => negb (is_line_terminator c)) timestamp = true ->
  accepts true (map item_of la) la ->
  match_here true (head ++ map item_of amount ++ tail1 ++ map item_of la)
    (map JS.lower_char (list_ascii_of_string "I request cashout ")
       ++ map JS.lower_char amount
       ++ map JS.lower_char (list_ascii_of_string " USDT at ")
       ++ map JS.lower_char timestamp
       ++ [JS.LF; JS.LF]
       ++ map JS.lower_char (list_ascii_of_string "Address: ")
       ++ la)
  = true.
Proof.
  intros Ha Hne Hline Hla.
  unfold head.
  rewrite (match_here_accepts
             true _ _ (accepts_lower (list_ascii_of_string "I request cashout ")
                                     eq_refl)).
  rewrite (match_here_accepts true _ _ (accepts_lower _ Ha)).
  unfold tail1. rewrite <- !app_assoc.
  rewrite (match_here_accepts
             true _ _ (accepts_lower (list_ascii_of_string " USDT at ") eq_refl)).
  destruct timestamp as [|c ts]; [contradiction|].
  simpl in Hline. apply andb_true_iff in Hline as [Hc Hts].
  apply negb_true_iff in Hc.
  cbn [app map match_here match_one].
  rewrite (lower_keeps_line c Hc). cbn [andb].
  apply match_star_absorbs.
  - apply Forall_forall. intros x Hx. apply in_map_iff in Hx as [y [<- Hy]].
    apply lower_keeps_line. apply negb_true_iff.
    rewrite forallb_forall in Hts. now apply Hts.
  - cbn [app match_here match_one atom_matches canonicalize].
    rewrite !Ascii.eqb_refl. cbn [andb].
    change (match_here true
              (map item_of (list_ascii_of_string "Address: ") ++ map item_of la)
              (map JS.lower_char (list_ascii_of_string "Address: ") ++ la) = true).
    rewrite (match_here_accepts
               true _ _ (accepts_lower (list_ascii_of_string "Address: ") eq_refl)).
    pose proof (match_here_accepts true _ _ Hla [] []) as H.
    rewrite !app_nil_r in H. rewrite H. reflexivity.
Qed.

End RegexFacts.

(** ** Acceptance of the cashout message *)

Module MessageFacts.

Import Regex.

Lemma all_chars_impl (p q : ascii -> bool) :
  (forall c, p c = true -> q c = true) ->
  forall s, JS.all_chars p s = true -> JS.all_chars q s = true.
Proof.
  intros Hpq s. induction s as [|c s IH]; [reflexivity|].
  cbn [JS.all_chars]. intros H. apply andb_true_iff in H. destruct H as [Hc Hs].
  rewrite (Hpq c Hc), (IH Hs). reflexivity.
Qed.

Lemma ascii_only_app (a b : string) :
  JS.ascii_only (a ++ b) = JS.ascii_only a && JS.ascii_only b.
Proof.
  unfold JS.ascii_only. induction a as [|c a IH]; [reflexivity|].
  cbn [append JS.all_chars]. rewrite IH. apply andb_assoc.
Qed.

Lemma is_ascii_lower (c : ascii) : JS.is_ascii (JS.lower_char c) = JS.is_ascii c.
Proof. destruct c as [[] [] [] [] [] [] [] []]; reflexivity. Qed.

Lemma ascii_only_lower (s : string) :
  JS.ascii_only (JS.toLowerCase s) = JS.ascii_only s.
Proof.
  unfold JS.ascii_only. induction s as [|c s IH]; [reflexivity|].
  cbn [JS.toLowerCase JS.all_chars]. rewrite is_ascii_lower, IH. reflexivity.
Qed.

Lemma alnum_is_ascii (c : ascii) : JS.is_alnum c = true -> JS.is_ascii c = true.
Proof.
  destruct c as [[] [] [] [] [] [] [] []]; intros H;
    solve [reflexivity | discriminate H].
Qed.

Lemma decimal_is_ascii (c : ascii) :
  (JS.is_digit c || Ascii.eqb c ".")%bool = true -> JS.is_ascii c = true.
Proof.
  destruct c as [[] [] [] [] [] [] [] []]; intros H;
    solve [reflexivity | discriminate H].
Qed.

(** An address in lower case is ASCII when its lower case is the one of an
    address of letters and digits. *)
Lemma claimed_is_ascii (address claimed : string) :
  JS.all_chars JS.is_alnum address = true ->
  JS.toLowerCase claimed = JS.toLowerCase address ->
  JS.ascii_only claimed = true /\ JS.ascii_only address = true.
Proof.
  intros Haddr Hcase.
  assert (Ha : JS.ascii_only address = true)
    by exact (all_chars_impl _ _ alnum_is_ascii address Haddr).
  split; [|exact Ha].
  rewrite <- ascii_only_lower, Hcase, ascii_only_lower. exact Ha.
Qed.

Lemma reads_as_ascii (pattern u : string) :
  Messages.decimal pattern = true ->
  Messages.reads_as pattern u ->
  JS.ascii_only u = true.
Proof.
  unfold Messages.decimal, Messages.reads_as, JS.ascii_only.
  rewrite !RegexFacts.all_chars_forallb.
  generalize (list_ascii_of_string pattern) (list_ascii_of_string u).
  intros ps us Hd F. induction F as [|p c ps us Hpc F IH]; [reflexivity|].
  cbn [forallb] in Hd |- *. apply andb_true_iff in Hd. destruct Hd as [Hp Hps].
  rewrite (IH Hps), andb_true_r.
  destruct (Ascii.eqb p ".") eqn:Edot.
  - exact (proj1 Hpc).
  - subst c. apply decimal_is_ascii. rewrite Edot. exact Hp.
Qed.

Lemma search_skips (ci : bool) (r : list item) (prefix s : list ascii) :
  search ci r s = true -> search ci r (prefix ++ s) = true.
Proof.
  intros H. induction prefix as [|c prefix IH]; [exact H|].
  cbn [app search]. rewrite IH. apply orb_true_r.
Qed.

(** The items of a pattern, up to the text that follows the timestamp. *)
Lemma layout_matches (amount amt ts : list ascii) (mid : list item)
      (midc suffix : list ascii) :
  accepts true (map item_of amount) amt ->
  ts <> [] ->
  forallb (fun c => negb (is_line_terminator c)) ts = true ->
  accepts true mid midc ->
  match_here true
    (head ++ map item_of amount
          ++ map item_of (list_ascii_of_string " USDT at ")
          ++ (Dot, Plus) :: mid)
    (map JS.lower_char (list_ascii_of_string "I request cashout ")
         ++ amt
         ++ map JS.lower_char (list_ascii_of_string " USDT at ")
         ++ map JS.lower_char ts ++ midc ++ suffix)
  = true.
Proof.
  intros Ha Hne Hline Hmid. unfold head.
  rewrite (RegexFacts.match_here_accepts
             true _ _ (RegexFacts.accepts_lower
                         (list_ascii_of_string "I request cashout ") eq_refl)).
  rewrite (RegexFacts.match_here_accepts true _ _ Ha).
  rewrite (RegexFacts.match_here_accepts
             true _ _ (RegexFacts.accepts_lower
                         (list_ascii_of_string " USDT at ") eq_refl)).
  destruct ts as [|c ts]; [contradiction|].
  cbn [forallb] in Hline. apply andb_true_iff in Hline. destruct Hline as [Hc Hts].
  apply negb_true_iff in Hc.
  cbn [app map match_here match_one].
  rewrite (RegexFacts.lower_keeps_line c Hc). cbn [andb].
  apply RegexFacts.match_star_absorbs.
  - apply Forall_forall. intros x Hx. apply in_map_iff in Hx.
    destruct Hx as (y & <- & Hy). apply RegexFacts.lower_keeps_line.
    apply negb_true_iff. rewrite forallb_forall in Hts. exact (Hts y Hy).
  - pose proof (RegexFacts.match_here_accepts true _ _ Hmid [] suffix) as H.
    rewrite app_nil_r in H. rewrite H. reflexivity.
Qed.

(** The amount of the message read against the pattern of the request. *)
Lemma reads_as_accepts (pattern u : string) :
  Messages.decimal pattern = true ->
  Messages.reads_as pattern u ->
  accepts true (map item_of (list_ascii_of_string pattern))
          (map JS.lower_char (list_ascii_of_string u)).
Proof.
  unfold Messages.decimal, Messages.reads_as. rewrite RegexFacts.all_chars_forallb.
  generalize (list_ascii_of_string pattern) (list_ascii_of_string u).
  intros ps us Hd F. induction F as [|p c ps us Hpc F IH]; [constructor|].
  cbn [forallb] in Hd. apply andb_true_iff in Hd. destruct Hd as [Hp Hps].
  cbn [map]. constructor; [|exact (IH Hps)].
  split; [reflexivity|].
  pose proof (RegexFacts.digit_or_dot_plain p Hp) as Hplain.
  destruct (Ascii.eqb p ".") eqn:Edot.
  - apply Ascii.eqb_eq in Edot. subst p.
    exact (RegexFacts.lower_keeps_line c (proj2 Hpc)).
  - subst c. exact (RegexFacts.plain_accepts_lower p Hplain).
Qed.

Lemma reads_as_itself (amount : string) :
  Messages.decimal amount = true -> Messages.reads_as amount amount.
Proof.
  unfold Messages.decimal, Messages.reads_as.
  rewrite RegexFacts.all_chars_forallb.
  induction (list_ascii_of_string amount) as [|c l IH]; intros Hd; constructor.
  - destruct (Ascii.eqb c ".") eqn:E; [|reflexivity].
    apply Ascii.eqb_eq in E. subst c. split; reflexivity.
  - cbn [forallb] in Hd. apply andb_true_iff in Hd. exact (IH (proj2 Hd)).
Qed.

Lemma accepts_app (its1 its2 : list item) (u1 u2 : list ascii) :
  accepts true its1 u1 -> accepts true its2 u2 ->
  accepts true (its1 ++ its2) (u1 ++ u2).
Proof. unfold accepts. apply Forall2_app. Qed.

Lemma one_line_parts (timestamp : string) :
  Messages.one_line timestamp = true ->
  list_ascii_of_string timestamp <> []
  /\ forallb (fun c => negb (is_line_terminator c)) (list_ascii_of_string timestamp)
     = true
  /\ JS.ascii_only timestamp = true.
Proof.
  unfold Messages.one_line. intros H. apply andb_true_iff in H.
  destruct H as [Hne Hall]. split; [|split].
  - destruct timestamp; [discriminate Hne | discriminate].
  - rewrite <- RegexFacts.all_chars_forallb.
    apply (all_chars_impl _ _ (fun c Hc => proj2 (proj1 (andb_true_iff _ _) Hc))
                          timestamp Hall).
  - apply (all_chars_impl _ _ (fun c Hc => proj1 (proj1 (andb_true_iff _ _) Hc))
                          timestamp Hall).
Qed.

(** The general form of an accepted message: ASCII text that holds, after
    any text and before any text, the request in one of the three
    layouts, its amount read against the amount of the request. *)
Lemma accepted (engine : Signature.Engine)
      (prefix suffix separator address claimed amount written timestamp
       : string) :
  JS.ascii_only prefix = true ->
  JS.ascii_only suffix = true ->
  JS.all_chars JS.is_alnum address = true ->
  JS.toLowerCase claimed = JS.toLowerCase address ->
  Messages.decimal amount = true ->
  Messages.reads_as amount written ->
  Messages.one_line timestamp = true ->
  separator = (Signature.nl ++ Signature.nl)%string
  \/ separator = Signature.nl \/ separator = " " ->
  Signature.validateCashoutMessage
    engine
    (prefix ++ Messages.layout separator address written timestamp ++ suffix)
    claimed amount
  = inr true.
Proof.
  intros Hprefix Hsuffix Haddr Hcase Hdec Hreads Htime Hsep.
  pose proof (reads_as_accepts _ _ Hdec Hreads) as Hamt.
  pose proof (reads_as_ascii _ _ Hdec Hreads) as Hwritten.
  destruct (claimed_is_ascii _ _ Haddr Hcase) as [Hclaimed Haddress].
  destruct (one_line_parts _ Htime) as (Hts & Hline & Hascii).
  assert (Hamount : JS.ascii_only amount = true)
    by exact (all_chars_impl _ _ decimal_is_ascii amount Hdec).
  assert (Hseparator : JS.ascii_only separator = true)
    by (destruct Hsep as [->|[->| ->]]; reflexivity).
  unfold Messages.decimal in Hdec.
  rewrite RegexFacts.all_chars_forallb in Haddr, Hdec.
  assert (Ha : forallb plain (list_ascii_of_string amount) = true).
  { rewrite forallb_forall in *. intros c Hc. apply RegexFacts.digit_or_dot_plain.
    exact (Hdec c Hc). }
  destruct (RegexFacts.accepts_lowered_alnum _ Haddr) as [Hacc Hplain].
  rewrite <- RegexFacts.list_ascii_lower in Hacc, Hplain.
  unfold Signature.validateCashoutMessage.
  assert (Hfragment :
            Signature.ascii_arguments
              (prefix ++ Messages.layout separator address written timestamp
                      ++ suffix) claimed amount = true).
  { unfold Signature.ascii_arguments, Messages.layout.
    rewrite !ascii_only_app, Hprefix, Hsuffix, Hwritten, Hascii, Hseparator,
      Haddress, Hclaimed, Hamount. reflexivity. }
  rewrite Hfragment, Hcase.
  rewrite (RegexFacts.compile_pattern1 _ _ Ha Hplain),
    (RegexFacts.compile_pattern2 _ _ Ha Hplain),
    (RegexFacts.compile_pattern3 _ _ Ha Hplain).
  f_equal. unfold Regex.test. cbn [Regex.items Regex.ignoreCase].
  unfold Messages.layout.
  assert (Hla : map JS.lower_char (list_ascii_of_string address)
                = list_ascii_of_string (JS.toLowerCase address))
    by (symmetry; apply RegexFacts.list_ascii_lower).
  set (la := list_ascii_of_string (JS.toLowerCase address)) in *.
  rewrite RegexFacts.list_ascii_lower. repeat rewrite RegexFacts.list_ascii_app.
  rewrite !map_app, Hla.
  assert (Haddressline :
            accepts true
                    (map item_of (list_ascii_of_string "Address: ")
                         ++ map item_of la)
                    (map JS.lower_char (list_ascii_of_string "Address: ") ++ la))
    by (apply accepts_app;
        [exact (RegexFacts.accepts_lower (list_ascii_of_string "Address: ") eq_refl)
        |exact Hacc]).
  destruct Hsep as [->|[->| ->]].
  - apply orb_true_iff. left. apply orb_true_iff. left.
    apply search_skips, RegexFacts.search_of_match_here.
    unfold tail1. rewrite <- !app_assoc.
    change (list_ascii_of_string (Signature.nl ++ Signature.nl))
      with [JS.LF; JS.LF].
    change (map JS.lower_char [JS.LF; JS.LF]) with [JS.LF; JS.LF].
    cbn [app].
    apply (layout_matches
             _ _ _
             ((Lit JS.LF, Once) :: (Lit JS.LF, Once)
                :: map item_of (list_ascii_of_string "Address: ") ++ map item_of la)
             (JS.LF :: JS.LF
                :: map JS.lower_char (list_ascii_of_string "Address: ") ++ la)
             _ Hamt Hts Hline).
    apply Forall2_cons; [split; reflexivity|].
    apply Forall2_cons; [split; reflexivity|]. exact Haddressline.
  - apply orb_true_iff. left. apply orb_true_iff. right.
    apply search_skips, RegexFacts.search_of_match_here.
    unfold tail2. rewrite <- !app_assoc.
    change (list_ascii_of_string Signature.nl) with [JS.LF].
    change (map JS.lower_char [JS.LF]) with [JS.LF].
    cbn [app].
    apply (layout_matches
             _ _ _
             ((Lit JS.LF, Once)
                :: map item_of (list_ascii_of_string "Address: ") ++ map item_of la)
             (JS.LF :: map JS.lower_char (list_ascii_of_string "Address: ") ++ la)
             _ Hamt Hts Hline).
    apply Forall2_cons; [split; reflexivity|]. exact Haddressline.
  - apply orb_true_iff. right.
    apply search_skips, RegexFacts.search_of_match_here.
    unfold tail3. rewrite <- !app_assoc.
    change (list_ascii_of_string " ") with [" "%char].
    change (map JS.lower_char [" "%char]) with [" "%char].
    cbn [app].
    apply (layout_matches
             _ _ _
             (map item_of (list_ascii_of_string " Address: ") ++ map item_of la)
             (" "%char :: map JS.lower_char (list_ascii_of_string "Address: ") ++ la)
             _ Hamt Hts Hline).
    change (" "%char :: map JS.lower_char (list_ascii_of_string "Address: ") ++ la)
      with (map JS.lower_char (list_ascii_of_string " Address: ") ++ la)%list.
    apply accepts_app;
      [exact (RegexFacts.accepts_lower (list_ascii_of_string " Address: ") eq_refl)
      |exact Hacc].
Qed.

Lemma append_empty (s : string) : (s ++ EmptyString)%string = s.
Proof. induction s as [|c s IH]; cbn; [reflexivity | now rewrite IH]. Qed.

End MessageFacts.

(** ** The transfer loop and the payment table *)

Module TransferFacts.

Lemma filter_length_snoc {A : Type} (p : A -> bool) (l : list A) (x : A) :
  List.length (filter p (l ++ [x]))
  = (List.length (filter p l) + if p x then 1 else 0)%nat.
Proof.
  rewrite filter_app, length_app. simpl. destruct (p x); reflexivity.
Qed.

Lemma transfers_sent_emit (e : effect) (st : State) :
  transfers_sent (emit e st)
  = (transfers_sent st + if is_broadcast e then 1 else 0)%nat.
Proof. apply filter_length_snoc. Qed.

Lemma attempts_made_emit (e : effect) (st : State) :
  attempts_made (emit e st)
  = (attempts_made st + if is_attempt e then 1 else 0)%nat.
Proof. apply filter_length_snoc. Qed.

(** The tables are not touched by the transfer loop, which sends one
    transfer exactly when it returns a transaction, and makes at most
    [remaining] attempts. *)
Lemma transfer_loop_effects (w : World) (custody to : string) (amount : JS.text)
      (maxRetries : nat) :
  forall remaining attempt lastError st r st',
    Blockchain.transfer_loop w custody to amount maxRetries remaining attempt
                             lastError st
    = (r, st') ->
    payments st' = payments st
    /\ cashouts st' = cashouts st
    /\ payrolls st' = payrolls st
    /\ next_id st' = next_id st
    /\ transfers_sent st'
       = (transfers_sent st + match r with inr _ => 1 | inl _ => 0 end)%nat
    /\ (attempts_made st' <= attempts_made st + remaining)%nat.
Proof.
  induction remaining as [|n IH]; intros attempt lastError st r st' H; simpl in H.
  - inversion H; subst. repeat split; lia.
  - destruct (Blockchain.transfer_attempt w custody attempt to amount) as [e|tx].
    + destruct (Blockchain.isRetryableError e && (attempt <? maxRetries)%nat).
      * apply IH in H as (H1 & H2 & H3 & H4 & H5 & H6).
        rewrite !transfers_sent_emit in H5. rewrite !attempts_made_emit in H6.
        simpl in *. repeat split; try assumption; lia.
      * inversion H; subst. rewrite transfers_sent_emit, attempts_made_emit.
        simpl. repeat split; lia.
    + inversion H; subst. rewrite !transfers_sent_emit, !attempts_made_emit.
      simpl. repeat split; lia.
Qed.

Lemma find_map_same_key {A K : Type} (key : A -> K) (eqb : K -> K -> bool)
      (k : K) (f : A -> A) (rows : list A) :
  (forall a, key (f a) = key a) ->
  find (fun a => eqb (key a) k) (map f rows)
  = option_map f (find (fun a => eqb (key a) k) rows).
Proof.
  intros Hf. induction rows as [|a rows IH]; simpl; [reflexivity|].
  rewrite Hf. destruct (eqb (key a) k); [reflexivity | exact IH].
Qed.

(** The row of a payment reference after an update that names a field. *)
Lemma getPayment_after_update (now : Z) (paymentId : nat)
      (u : PaymentService.Updates) (pid : string) (rows : list Payment.Payment) :
  PaymentService.no_fields u = false ->
  PaymentService.getPaymentByPaymentIntentId
    pid (snd (PaymentService.updatePayment now paymentId u rows))
  = option_map (fun p => if Nat.eqb (Payment.id p) paymentId
                         then PaymentService.apply_updates now u p else p)
               (PaymentService.getPaymentByPaymentIntentId pid rows).
Proof.
  intros Hu.
  unfold PaymentService.getPaymentByPaymentIntentId, PaymentService.updatePayment.
  rewrite Hu. cbn [snd].
  apply (find_map_same_key Payment.payment_intent_id String.eqb).
  intros p. destruct (Nat.eqb (Payment.id p) paymentId); reflexivity.
Qed.

Lemma transferUSDTFromOfframp_effects (w : World) (to : string) (amount : JS.text)
      (maxRetries : nat) (st : State) r st' :
  Blockchain.transferUSDTFromOfframp w to amount maxRetries st = (r, st') ->
  payments st' = payments st
  /\ cashouts st' = cashouts st
  /\ payrolls st' = payrolls st
  /\ next_id st' = next_id st
  /\ transfers_sent st'
     = (transfers_sent st + match r with inr _ => 1 | inl _ => 0 end)%nat
  /\ (attempts_made st' <= attempts_made st + maxRetries)%nat.
Proof.
  unfold Blockchain.transferUSDTFromOfframp.
  destruct (offrampWallet w).
  - apply transfer_loop_effects.
  - intros H. inversion H; subst. repeat split; lia.
Qed.

Lemma waitForTransaction_effects (w : World) (txHash : string) (st : State) r st' :
  Blockchain.waitForTransaction w txHash st = (r, st') ->
  st' = emit (WaitForTransaction txHash) st.
Proof.
  unfold Blockchain.waitForTransaction.
  destruct (provider_waitForTransaction w txHash); intros H; inversion H; reflexivity.
Qed.

Lemma truthy_opt_some (h : string) :
  h <> EmptyString -> JS.truthy_opt (Some h) = true.
Proof. destruct h; [contradiction | reflexivity]. Qed.

End TransferFacts.

(** ** The cashout table *)

Module CashoutFacts.

Import TransferFacts CashoutController.

Lemma filter_map_same {A : Type} (p : A -> bool) (f : A -> A) (l : list A) :
  (forall a, p (f a) = p a) ->
  filter p (map f l) = map f (filter p l).
Proof.
  intros H. induction l as [|a l IH]; simpl; [reflexivity|].
  rewrite H. destruct (p a); simpl; now rewrite IH.
Qed.

Lemma rows_for_updateCashout (now : Z) (cashoutId : nat) (u : Cashout.Updates)
      (txHash : string) (rows : list Cashout.Cashout) :
  List.length (rows_for txHash (Cashout.updateCashout now cashoutId u rows))
  = List.length (rows_for txHash rows).
Proof.
  unfold Cashout.updateCashout. destruct (Cashout.no_fields u); [reflexivity|].
  unfold rows_for. rewrite filter_map_same.
  - apply length_map.
  - intros c. destruct (Nat.eqb (Cashout.id c) cashoutId); reflexivity.
Qed.

Lemma find_none_filter {A : Type} (p : A -> bool) (l : list A) :
  find p l = None -> filter p l = [].
Proof.
  induction l as [|a l IH]; simpl; [reflexivity|].
  destruct (p a); [discriminate | exact IH].
Qed.

Lemma find_some_filter {A : Type} (p : A -> bool) (l : list A) :
  filter p l <> [] -> exists a, find p l = Some a.
Proof.
  induction l as [|a l IH]; simpl; [contradiction|].
  destruct (p a); [eexists; reflexivity | exact IH].
Qed.

Lemma create_payout_tables (w : World) (req : Request) (fiatAmount : float)
      (st : State) r st' :
  create_payout w req fiatAmount st = (r, st') ->
  cashouts st' = cashouts st.
Proof.
  unfold create_payout.
  destruct (JS.truthy (connectedAccountId req)).
  - destruct (transferToConnectedAccount w _ _ _); intros H; inversion H; reflexivity.
  - intros H; inversion H; reflexivity.
Qed.

(** What [settle] leaves in the cashout table: the old rows and one new row
    for the submitted hash, up to an update that keeps the hashes. *)
Lemma settle_rows_for (w : World) (req : Request) (st : State) (h : string) :
  List.length (rows_for h (cashouts (snd (settle w req st))))
  = (List.length (rows_for h (cashouts st))
     + if String.eqb (txHash req) h then 1 else 0)%nat.
Proof.
  unfold settle. cbn [insert_cashout].
  match goal with
  | |- context [create_payout ?w ?r ?f ?s] =>
    destruct (create_payout w r f s) as [[e|payoutId] st'] eqn:E;
      apply create_payout_tables in E
  end;
    cbn [snd cashouts with_cashouts]; rewrite rows_for_updateCashout, E;
    cbn [cashouts]; unfold rows_for; rewrite filter_app, length_app;
    cbn [filter Cashout.tx_hash_onchain Cashout.createCashout];
    destruct (String.eqb (txHash req) h); reflexivity.
Qed.

Lemma verify_on_chain_state (w : World) (req : Request) (st : State) :
  snd (verify_on_chain w req st) = st
  \/ snd (verify_on_chain w req st) = emit (ChainLookup (txHash req)) st.
Proof.
  unfold verify_on_chain.
  destruct (Blockchain.getOfframpAddress w); [left; reflexivity|].
  right.
  destruct (Blockchain.verifyTransferTransaction w (txHash req)) as [e|info].
  - destruct (JS.message e); [|reflexivity].
    match goal with |- context [if ?b then _ else _] => destruct b end; reflexivity.
  - repeat match goal with |- context [if ?b then _ else _] => destruct b end;
      reflexivity.
Qed.

Lemma checks_state (w : World) (req : Request) (st : State) :
  snd (checks w req st) = st
  \/ snd (checks w req st) = emit (ChainLookup (txHash req)) st.
Proof.
  unfold checks.
  destruct (validate w req); [left; reflexivity|].
  destruct (authenticate w req); [left; reflexivity|].
  apply verify_on_chain_state.
Qed.

Lemma checks_tables (w : World) (req : Request) (st : State) :
  cashouts (snd (checks w req st)) = cashouts st
  /\ fiat_movements (snd (checks w req st)) = fiat_movements st.
Proof.
  destruct (checks_state w req st) as [-> | ->]; split; try reflexivity.
  unfold fiat_movements. cbn [log emit]. rewrite filter_length_snoc. cbn. lia.
Qed.

Lemma checks_result_any_state (w : World) (req : Request) (st st' : State) :
  fst (checks w req st) = fst (checks w req st').
Proof.
  unfold checks.
  destruct (validate w req); [reflexivity|].
  destruct (authenticate w req); [reflexivity|].
  unfold verify_on_chain.
  destruct (Blockchain.getOfframpAddress w); [reflexivity|].
  destruct (Blockchain.verifyTransferTransaction w (txHash req)) as [e|info].
  - destruct (JS.message e); [|reflexivity].
    match goal with |- context [if ?b then _ else _] => destruct b end; reflexivity.
  - repeat match goal with |- context [if ?b then _ else _] => destruct b end;
      reflexivity.
Qed.

(** One request adds a row for a hash only when there was none. *)
Lemma requestCashout_rows_for (w : World) (req : Request) (st : State) (h : string) :
  (List.length (rows_for h (cashouts (snd (requestCashout w req st))))
   = List.length (rows_for h (cashouts st)))
  \/ (rows_for h (cashouts st) = []
      /\ List.length (rows_for h (cashouts (snd (requestCashout w req st)))) = 1%nat).
Proof.
  unfold requestCashout.
  destruct (checks w req st) as [[r|] st0] eqn:E.
  - left. cbn [snd]. replace st0 with (snd (checks w req st)) by now rewrite E.
    now rewrite (proj1 (checks_tables w req st)).
  - assert (Hc : cashouts st0 = cashouts st).
    { replace st0 with (snd (checks w req st)) by now rewrite E.
      apply checks_tables. }
    destruct (Cashout.getCashoutByTxHash (txHash req) (cashouts st0)) eqn:F.
    + left. cbn [snd]. now rewrite Hc.
    + rewrite settle_rows_for, Hc.
      destruct (String.eqb (txHash req) h) eqn:Eh.
      * right. apply String.eqb_eq in Eh. subst h.
        apply find_none_filter in F. rewrite Hc in F.
        unfold rows_for. rewrite F. split; reflexivity.
      * left. lia.
Qed.

Lemma requestCashout_preserves_uniqueness (w : World) (req : Request) (st : State) :
  at_most_one_per_hash (cashouts st) ->
  at_most_one_per_hash (cashouts (snd (requestCashout w req st))).
Proof.
  intros H h. destruct (requestCashout_rows_for w req st h) as [-> | [_ ->]].
  - apply H.
  - lia.
Qed.

(** After a request that passed the checks there is a row for its hash. *)
Lemma requestCashout_records_hash (w : World) (req : Request) (st : State) :
  fst (checks w req st) = None ->
  rows_for (txHash req) (cashouts (snd (requestCashout w req st))) <> [].
Proof.
  intros Hpass. unfold requestCashout.
  destruct (checks w req st) as [[r|] st0] eqn:E; [discriminate|].
  destruct (Cashout.getCashoutByTxHash (txHash req) (cashouts st0)) eqn:F.
  - cbn [snd]. unfold Cashout.getCashoutByTxHash in F.
    intros Hnil. unfold rows_for in Hnil.
    apply find_some in F as [Hin Hp].
    assert (Hin' : In c (filter (fun c => String.eqb (Cashout.tx_hash_onchain c)
                                                    (txHash req)) (cashouts st0))).
    { apply filter_In. split; assumption. }
    rewrite Hnil in Hin'. contradiction.
  - intros Hnil. apply (f_equal (@List.length _)) in Hnil.
    rewrite settle_rows_for, String.eqb_refl in Hnil. simpl in Hnil. lia.
Qed.

End CashoutFacts.

(** ** The reconciliation loop *)

Module PayrollFacts.

Import CashoutFacts PayrollController.

Lemma reconcile_step (expected : StringMap) (t : Transfer) (rest : list Transfer)
      (received : list string) :
  reconcile expected (t :: rest) received
  = match expected_amount expected t with
    | Some a =>
      if JS.exceeds_tolerance (JS.parseFloat (amount t)) (JS.parseFloat a)
      then inl (t, a)
      else reconcile expected rest (set_add (JS.toLowerCase (to t)) received)
    | None => reconcile expected rest received
    end.
Proof.
  unfold expected_amount. simpl.
  destruct (map_get (JS.toLowerCase (to t)) expected) as [a|]; [|reflexivity].
  destruct (JS.truthy a); reflexivity.
Qed.

Lemma reconcile_without_mismatch (expected : StringMap) (transfers : list Transfer) :
  existsb (amount_differs expected) transfers = false ->
  forall received,
    reconcile expected transfers received
    = inr (fold_left (receive expected) transfers received).
Proof.
  induction transfers as [|t rest IH]; intros H received; [reflexivity|].
  simpl in H. apply orb_false_iff in H as [Ht Hrest].
  rewrite reconcile_step. cbn [fold_left]. unfold receive at 2.
  unfold amount_differs in Ht.
  destruct (expected_amount expected t) as [a|].
  - rewrite Ht. now apply IH.
  - now apply IH.
Qed.

Lemma reconcile_with_mismatch (expected : StringMap) (transfers : list Transfer) :
  existsb (amount_differs expected) transfers = true ->
  forall received,
    exists t a,
      In t transfers
      /\ expected_amount expected t = Some a
      /\ JS.exceeds_tolerance (JS.parseFloat (amount t)) (JS.parseFloat a) = true
      /\ reconcile expected transfers received = inl (t, a).
Proof.
  induction transfers as [|t rest IH]; intros H received; [discriminate|].
  rewrite reconcile_step. simpl in H. unfold amount_differs in H at 1.
  destruct (expected_amount expected t) as [a|] eqn:Ea.
  - destruct (JS.exceeds_tolerance (JS.parseFloat (amount t)) (JS.parseFloat a)) eqn:Ex.
    + exists t, a. repeat split; try assumption. now left.
    + simpl in H. destruct (IH H (set_add (JS.toLowerCase (to t)) received))
        as (t' & a' & Hin & He & Hx & Hr).
      exists t', a'. repeat split; try assumption. now right.
  - simpl in H. destruct (IH H received) as (t' & a' & Hin & He & Hx & Hr).
    exists t', a'. repeat split; try assumption. now right.
Qed.

Lemma set_has_In (k : string) (s : list string) :
  set_has k s = true <-> In k s.
Proof.
  unfold set_has. rewrite existsb_exists. split.
  - intros [x [Hin Hx]]. apply String.eqb_eq in Hx. now subst.
  - intros Hin. exists k. split; [assumption | apply String.eqb_refl].
Qed.

Lemma set_add_spec (k a : string) (s : list string) :
  In a (set_add k s) <-> a = k \/ In a s.
Proof.
  unfold set_add. destruct (set_has k s) eqn:E.
  - apply set_has_In in E. split; [now right | intros [-> | H]; assumption].
  - rewrite in_app_iff. simpl. split; intros H.
    + destruct H as [H | [H | []]]; [now right | now left].
    + destruct H as [H | H]; [right; now left | now left].
Qed.

Lemma set_add_NoDup (k : string) (s : list string) :
  NoDup s -> NoDup (set_add k s).
Proof.
  intros H. unfold set_add. destruct (set_has k s) eqn:E; [assumption|].
  apply NoDup_app; [assumption | repeat constructor; simpl; tauto |].
  intros x Hx [<- | []]. apply set_has_In in Hx. congruence.
Qed.

Lemma map_get_In (k v : string) (m : StringMap) :
  map_get k m = Some v -> In k (map_keys m).
Proof.
  unfold map_get, map_keys.
  destruct (find (fun kv => String.eqb (fst kv) k) m) as [kv|] eqn:E; [|discriminate].
  intros _. apply find_some in E as [Hin Hk]. apply String.eqb_eq in Hk. subst k.
  now apply in_map.
Qed.

(** What the loop has received at its end. *)
Lemma received_spec (expected : StringMap) (transfers : list Transfer) :
  forall received,
    let r := fold_left (receive expected) transfers received in
    (forall a, In a r <-> In a received \/ satisfied expected transfers a = true)
    /\ (NoDup received -> NoDup r)
    /\ (incl received (map_keys expected) -> incl r (map_keys expected)).
Proof.
  induction transfers as [|t rest IH]; intros received; cbn [fold_left].
  - split; [|split; trivial]. intros a. simpl. split; [tauto | intros [H|H]; [assumption | discriminate]].
  - destruct (IH (receive expected received t)) as (H1 & H2 & H3).
    split; [|split].
    + intros a. rewrite H1. unfold receive, satisfied. cbn [existsb].
      destruct (expected_amount expected t) as [x|] eqn:E; cbn [Cashout.is_some].
      * rewrite set_add_spec, andb_true_r, orb_true_iff, String.eqb_eq.
        split; [intros [[-> | H] | H] | intros [H | [<- | H]]]; tauto.
      * rewrite andb_false_r. cbn [orb]. tauto.
    + intros Hnd. apply H2. unfold receive.
      destruct (expected_amount expected t); [now apply set_add_NoDup | assumption].
    + intros Hincl. apply H3. unfold receive.
      destruct (expected_amount expected t) as [x|] eqn:E; [|assumption].
      intros a Ha. apply set_add_spec in Ha as [-> | Ha]; [|now apply Hincl].
      unfold expected_amount in E.
      destruct (map_get (JS.toLowerCase (to t)) expected) as [v|] eqn:Eg; [|discriminate].
      now apply map_get_In in Eg.
Qed.

Lemma map_set_keys (k v : string) (m : StringMap) :
  map_keys (map_set k v m)
  = if existsb (String.eqb k) (map_keys m) then map_keys m
    else (map_keys m ++ [k])%list.
Proof.
  induction m as [|[k' v'] m IH]; [reflexivity|].
  cbn [map_set map_keys map fst existsb].
  rewrite (String.eqb_sym k k').
  destruct (String.eqb k' k); [reflexivity|].
  cbn [map_keys map fst orb]. fold (map_keys (map_set k v m)). rewrite IH.
  fold (map_keys m). destruct (existsb (String.eqb k) (map_keys m)); reflexivity.
Qed.

Lemma map_set_NoDup (k v : string) (m : StringMap) :
  NoDup (map_keys m) -> NoDup (map_keys (map_set k v m)).
Proof.
  intros H. rewrite map_set_keys.
  destruct (existsb (String.eqb k) (map_keys m)) eqn:E; [assumption|].
  apply NoDup_app; [assumption | repeat constructor; simpl; tauto |].
  intros x Hx [<- | []].
  assert (existsb (String.eqb k) (map_keys m) = true); [|congruence].
  apply existsb_exists. exists k. split; [assumption | apply String.eqb_refl].
Qed.

Lemma expected_of_NoDup (payrolls : list Payroll.Payroll) :
  NoDup (map_keys (expected_of payrolls)).
Proof.
  unfold expected_of.
  assert (H : forall m, NoDup (map_keys m) ->
                        NoDup (map_keys
                                 (fold_left
                                    (fun m payroll =>
                                       map_set (JS.toLowerCase (Payroll.employee_address payroll))
                                               (Payroll.amount_usdt payroll) m)
                                    payrolls m))).
  { induction payrolls as [|p ps IH]; intros m Hm; [assumption|].
    cbn [fold_left]. apply IH. now apply map_set_NoDup. }
  apply H. constructor.
Qed.

(** The test on the sizes: every expected recipient has been received. *)
Lemma sizes_agree_iff (expected : StringMap) (transfers : list Transfer) :
  NoDup (map_keys expected) ->
  Nat.eqb (List.length (fold_left (receive expected) transfers []))
          (List.length expected)
  = forallb (satisfied expected transfers) (map_keys expected).
Proof.
  intros Hkeys.
  destruct (received_spec expected transfers []) as (Hin & Hnd & Hincl).
  specialize (Hnd (NoDup_nil _)). specialize (Hincl (incl_nil_l _)).
  set (r := fold_left (receive expected) transfers []) in *.
  assert (Hlen : List.length expected = List.length (map_keys expected))
    by (unfold map_keys; now rewrite length_map).
  rewrite Hlen.
  apply eq_true_iff_eq. rewrite Nat.eqb_eq, forallb_forall. split.
  - intros Heq a Ha.
    assert (Hall : incl (map_keys expected) r).
    { apply NoDup_length_incl; [assumption | lia | assumption]. }
    apply Hall in Ha. apply Hin in Ha as [[] | Ha]. exact Ha.
  - intros Hall.
    assert (Hincl' : incl (map_keys expected) r).
    { intros a Ha. apply Hin. right. now apply Hall. }
    apply Nat.le_antisymm; now apply NoDup_incl_length.
Qed.

Lemma missing_are_unsatisfied (expected : StringMap) (transfers : list Transfer) :
  filter (fun addr => negb (set_has addr (fold_left (receive expected) transfers [])))
         (map_keys expected)
  = filter (fun addr => negb (satisfied expected transfers addr)) (map_keys expected).
Proof.
  apply filter_ext. intros a. f_equal.
  destruct (received_spec expected transfers []) as (Hin & _ & _).
  apply eq_true_iff_eq. rewrite set_has_In, Hin. simpl. tauto.
Qed.

Lemma in_batch_idempotent (payrollId txHash : string) (status : Payroll.Status)
      (blockNumber : option Z) (p : Payroll.Payroll) :
  in_batch payrollId (mark status txHash blockNumber)
           (in_batch payrollId (mark status txHash blockNumber) p)
  = in_batch payrollId (mark status txHash blockNumber) p.
Proof.
  unfold in_batch. destruct (String.eqb (Payroll.payroll_id p) payrollId) eqn:E.
  - cbn [Payroll.apply_updates Payroll.payroll_id]. rewrite E.
    unfold Payroll.apply_updates, mark. cbn. destruct blockNumber; reflexivity.
  - rewrite E. reflexivity.
Qed.

Lemma update_all_batch (payrollId txHash : string) (status : Payroll.Status)
      (blockNumber : option Z) (batch : list Payroll.Payroll) :
  (forall p, In p batch -> Payroll.payroll_id p = payrollId) ->
  batch <> [] ->
  forall rows,
    update_all batch (mark status txHash blockNumber) rows
    = map (in_batch payrollId (mark status txHash blockNumber)) rows.
Proof.
  intros Hid Hne rows. unfold update_all.
  assert (Hstep : forall p rows, In p batch ->
              Payroll.updatePayroll (Payroll.payroll_id p)
                                    (mark status txHash blockNumber) rows
              = map (in_batch payrollId (mark status txHash blockNumber)) rows).
  { intros p rs Hp. rewrite (Hid p Hp). reflexivity. }
  assert (Hfix : forall l, (forall p, In p l -> In p batch) -> forall rs,
              fold_left (fun rows payroll =>
                           Payroll.updatePayroll (Payroll.payroll_id payroll)
                                                 (mark status txHash blockNumber) rows)
                        l (map (in_batch payrollId (mark status txHash blockNumber)) rs)
              = map (in_batch payrollId (mark status txHash blockNumber)) rs).
  { induction l as [|p l IH]; intros Hl rs; [reflexivity|].
    cbn [fold_left]. rewrite (Hstep p) by (apply Hl; now left).
    rewrite map_map.
    rewrite (map_ext _ _ (in_batch_idempotent payrollId txHash status blockNumber)).
    apply IH. intros q Hq. apply Hl. now right. }
  destruct batch as [|p l]; [contradiction|].
  cbn [fold_left]. rewrite (Hstep p) by now left.
  apply Hfix. intros q Hq. now right.
Qed.

Lemma batch_ids (payrollId : string) (rows : list Payroll.Payroll) (p : Payroll.Payroll) :
  In p (Payroll.getPayrollsByPayrollId payrollId rows) ->
  Payroll.payroll_id p = payrollId.
Proof.
  unfold Payroll.getPayrollsByPayrollId. intros H.
  apply filter_In in H as [_ H]. now apply String.eqb_eq.
Qed.

Lemma batch_size_after_mark (payrollId : string) (u : Payroll.Updates)
      (rows : list Payroll.Payroll) :
  List.length (Payroll.getPayrollsByPayrollId payrollId (map (in_batch payrollId u) rows))
  = List.length (Payroll.getPayrollsByPayrollId payrollId rows).
Proof.
  unfold Payroll.getPayrollsByPayrollId. rewrite filter_map_same.
  - apply length_map.
  - intros p. unfold in_batch.
    destruct (String.eqb (Payroll.payroll_id p) payrollId) eqn:E; [|now rewrite E].
    cbn [Payroll.apply_updates Payroll.payroll_id]. now rewrite E.
Qed.

Section Execute.

Variables (w : World) (req : Request) (st : State).
Variables (first : Payroll.Payroll) (rest : list Payroll.Payroll).
Variables (transfers : list Transfer) (verifiedBlockNumber : Z).

Hypothesis Hid : JS.truthy (payrollId req) = true.
Hypothesis Htx : JS.truthy (txHash req) = true.
Hypothesis Hbatch :
  Payroll.getPayrollsByPayrollId (payrollId req) (payrolls st) = first :: rest.
Hypothesis Hverified :
  Blockchain.verifyPayrollTransaction w (txHash req)
                                      (Payroll.employer_address first)
  = inr (transfers, verifiedBlockNumber).

Let expected := expected_of (first :: rest).
Let run := executePayroll w req st.

Lemma executePayroll_mismatch :
  existsb (amount_differs expected) transfers = true ->
  snd run = emit (ChainLookup (txHash req)) st
  /\ exists t a,
      In t transfers
      /\ expected_amount expected t = Some a
      /\ JS.exceeds_tolerance (JS.parseFloat (amount t)) (JS.parseFloat a) = true
      /\ fst run = mkResponse 400 (amount_mismatch (to t) a (amount t)).
Proof.
  intros H. subst run. unfold executePayroll.
  rewrite Hid, Htx, Hbatch. cbn [negb]. rewrite Hverified.
  destruct (reconcile_with_mismatch expected transfers H [])
    as (t & a & Hin & He & Hx & Hr).
  fold expected. rewrite Hr. cbn [fst snd]. split; [reflexivity|].
  exists t, a. repeat split; assumption.
Qed.

Lemma executePayroll_missing :
  existsb (amount_differs expected) transfers = false ->
  forallb (satisfied expected transfers) (map_keys expected) = false ->
  snd run = emit (ChainLookup (txHash req)) st
  /\ fst run
     = mkResponse 400
         (not_all_received
            (filter (fun addr => negb (satisfied expected transfers addr))
                    (map_keys expected)))
  /\ filter (fun addr => negb (satisfied expected transfers addr))
            (map_keys expected) <> [].
Proof.
  intros Hno Hall. subst run. unfold executePayroll.
  rewrite Hid, Htx, Hbatch. cbn [negb]. rewrite Hverified.
  fold expected. rewrite (reconcile_without_mismatch expected transfers Hno).
  rewrite sizes_agree_iff by apply expected_of_NoDup.
  rewrite Hall. cbn [negb fst snd]. rewrite missing_are_unsatisfied.
  split; [reflexivity|]. split; [reflexivity|].
  intros Hnil.
  assert (Hex : exists a, In a (map_keys expected)
                          /\ satisfied expected transfers a = false).
  { clear - Hall. induction (map_keys expected) as [|a l IH]; [discriminate|].
    simpl in Hall. destruct (satisfied expected transfers a) eqn:E.
    - destruct (IH Hall) as [b [Hb1 Hb2]]. exists b. split; [now right | assumption].
    - exists a. split; [now left | assumption]. }
  destruct Hex as [a [Ha1 Ha2]].
  assert (Hin : In a (filter (fun addr => negb (satisfied expected transfers addr))
                             (map_keys expected))).
  { apply filter_In. split; [assumption | now rewrite Ha2]. }
  rewrite Hnil in Hin. contradiction.
Qed.

Lemma executePayroll_complete :
  existsb (amount_differs expected) transfers = false ->
  forallb (satisfied expected transfers) (map_keys expected) = true ->
  fst run
  = mkResponse 200
      (success (payrollId req) (txHash req) verifiedBlockNumber
               (List.length (first :: rest)) (List.length transfers))
  /\ payrolls (snd run)
     = map (in_batch (payrollId req)
                     (mark Payroll.completed (txHash req) (Some verifiedBlockNumber)))
           (payrolls st).
Proof.
  intros Hno Hall. subst run. unfold executePayroll.
  rewrite Hid, Htx, Hbatch. cbn [negb]. rewrite Hverified.
  fold expected. rewrite (reconcile_without_mismatch expected transfers Hno).
  rewrite sizes_agree_iff by apply expected_of_NoDup.
  rewrite Hall. cbn [negb fst snd payrolls with_payrolls emit].
  fold (mark Payroll.completed (txHash req) (Some verifiedBlockNumber)).
  rewrite (update_all_batch (payrollId req)).
  - rewrite batch_size_after_mark, Hbatch. split; reflexivity.
  - intros p Hp. rewrite <- Hbatch in Hp. now apply batch_ids in Hp.
  - discriminate.
Qed.

End Execute.

End PayrollFacts.

Import FloatFacts RegexFacts TransferFacts CashoutFacts PayrollFacts.

(** ** The cashout message format *)




(** ** The transfer retry *)

(** The transfer loop with the default of three attempts: the result and
    the calls made, for every sequence of outcomes of the passes. *)
Lemma transfer_outcomes
      (w : World) (custody to : string) (amount : JS.text) (st : State) :
  offrampWallet w = Some custody ->
  let run := Blockchain.transferUSDTFromOfframp
               w to amount Blockchain.default_maxRetries st in
  let outcome n := Blockchain.transfer_attempt w custody n to amount in
  let attempt n := TransferAttempt n to amount in
  let sent tx := TransferBroadcast to amount (hash tx) in
  (attempts_made (snd run) <= attempts_made st + 3)%nat
  /\ (forall tx, outcome 1 = inr tx ->
        run = (inr tx, emit_all [attempt 1; sent tx] st))
  /\ (forall e1, outcome 1 = inl e1 ->
        Blockchain.isRetryableError e1 = false ->
        run = (inl (Blockchain.not_retried e1), emit_all [attempt 1] st))
  /\ (forall e1 tx, outcome 1 = inl e1 ->
        Blockchain.isRetryableError e1 = true ->
        outcome 2 = inr tx ->
        run = (inr tx,
               emit_all [attempt 1; Sleep 2000; attempt 2; sent tx] st))
  /\ (forall e1 e2, outcome 1 = inl e1 ->
        Blockchain.isRetryableError e1 = true ->
        outcome 2 = inl e2 ->
        Blockchain.isRetryableError e2 = false ->
        run = (inl (Blockchain.not_retried e2),
               emit_all [attempt 1; Sleep 2000; attempt 2] st))
  /\ (forall e1 e2 tx, outcome 1 = inl e1 ->
        Blockchain.isRetryableError e1 = true ->
        outcome 2 = inl e2 ->
        Blockchain.isRetryableError e2 = true ->
        outcome 3 = inr tx ->
        run = (inr tx,
               emit_all [attempt 1; Sleep 2000; attempt 2; Sleep 4000;
                         attempt 3; sent tx] st))
  /\ (forall e1 e2 e3, outcome 1 = inl e1 ->
        Blockchain.isRetryableError e1 = true ->
        outcome 2 = inl e2 ->
        Blockchain.isRetryableError e2 = true ->
        outcome 3 = inl e3 ->
        run = (inl (Blockchain.not_retried e3),
               emit_all [attempt 1; Sleep 2000; attempt 2; Sleep 4000;
                         attempt 3] st)).
Proof.
  intros Hw run outcome attempt sent. subst run outcome attempt sent.
  unfold Blockchain.transferUSDTFromOfframp, Blockchain.default_maxRetries.
  rewrite Hw.
  split.
  { destruct (Blockchain.transfer_loop w custody to amount 3 3 1 None st)
      as [r st'] eqn:E.
    apply transfer_loop_effects in E. simpl. lia. }
  simpl.
  repeat split; intros.
  all: repeat match goal with
              | H : Blockchain.transfer_attempt _ _ _ _ _ = _ |- _ =>
                rewrite H; clear H
              | H : Blockchain.isRetryableError _ = _ |- _ => rewrite H; clear H
              end; simpl; try reflexivity.
  rewrite andb_false_r. reflexivity.
Qed.

(** The classification of an error made with [new Error(text)] reads the
    text only. *)
Lemma classified_by_text (text : string) :
  Blockchain.isRetryableError (JS.Error text) = Retry.looks_transient text.
Proof.
  unfold Blockchain.isRetryableError, Blockchain.message_includes,
    Blockchain.code_is, Retry.looks_transient, Retry.markers.
  cbn [JS.message JS.code JS.Error existsb].
  rewrite !orb_false_r, !orb_assoc. reflexivity.
Qed.

(** One pass of the loop when the custody balance is short. *)
Lemma short_balance_attempt
      (w : World) (custody to : string) (amount : JS.text) (n decimals : nat)
      (amountWei balance : N) :
  Sys.decimals w = inr decimals ->
  parseUnits w amount decimals = inr amountWei ->
  balanceOf w custody = inr balance ->
  (balance < amountWei)%N ->
  Blockchain.transfer_attempt w custody n to amount
  = inl (Blockchain.insufficient_balance w amountWei balance decimals).
Proof.
  intros Hd Hp Hb Hlt. unfold Blockchain.transfer_attempt.
  rewrite Hd, Hp, Hb. apply N.ltb_lt in Hlt. rewrite Hlt. reflexivity.
Qed.

(** C7.  The retry of the on-ramp transfer when the custody balance is
    short of the amount, with the default of three attempts.  At most three
    passes are made.  The error of the short balance is classified by its
    text, which shows the two amounts: when the text holds none of the
    markers of a transient failure it is thrown at once, wrapped, after one
    pass; when it holds one (an amount such as 1.503 holds ["503"]) the
    permanent failure is retried as a transient one, with pauses of 2000 ms
    and 4000 ms, and thrown after the third pass. *)
Theorem a_short_balance_is_classified_by_its_text
        (w : World) (custody to : string) (amount : JS.text) (st : State)
        (decimals : nat) (amountWei balance : N) :
  offrampWallet w = Some custody ->
  Sys.decimals w = inr decimals ->
  parseUnits w amount decimals = inr amountWei ->
  balanceOf w custody = inr balance ->
  (balance < amountWei)%N ->
  let run := Blockchain.transferUSDTFromOfframp
               w to amount Blockchain.default_maxRetries st in
  let text := Blockchain.insufficient_balance_text w amountWei balance decimals in
  let attempt n := TransferAttempt n to amount in
  (attempts_made (snd run) <= attempts_made st + 3)%nat
  /\ transfers_sent (snd run) = transfers_sent st
  /\ (Retry.looks_transient text = false ->
      run = (inl (Blockchain.not_retried (JS.Error text)),
             emit_all [attempt 1] st))
  /\ (Retry.looks_transient text = true ->
      run = (inl (Blockchain.not_retried (JS.Error text)),
             emit_all [attempt 1; Sleep 2000; attempt 2; Sleep 4000; attempt 3]
                      st)).
Proof.
  intros Hw Hd Hp Hb Hlt run text attempt.
  destruct (transfer_outcomes w custody to amount st Hw)
    as (Hbound & _ & Honce & _ & _ & _ & Hthrice).
  assert (Hpass : forall n,
             Blockchain.transfer_attempt w custody n to amount
             = inl (JS.Error text))
    by (intros n; exact (short_balance_attempt w custody to amount n decimals
                                               amountWei balance Hd Hp Hb Hlt)).
  assert (Hcases : Retry.looks_transient text = false
                   \/ Retry.looks_transient text = true)
    by (destruct (Retry.looks_transient text); [right | left]; reflexivity).
  assert (Hsent : transfers_sent (snd run) = transfers_sent st).
  { destruct Hcases as [Hno | Hyes].
    - subst run. rewrite (Honce (JS.Error text) (Hpass 1)).
      + cbn [snd emit_all fold_left]. rewrite !transfers_sent_emit. cbn. lia.
      + rewrite classified_by_text. exact Hno.
    - subst run.
      rewrite (Hthrice (JS.Error text) (JS.Error text) (JS.Error text)
                       (Hpass 1)); try exact (Hpass _);
        try (rewrite classified_by_text; exact Hyes).
      cbn [snd emit_all fold_left]. rewrite !transfers_sent_emit. cbn. lia. }
  split; [exact Hbound|]. split; [exact Hsent|]. split.
  - intros Hno. apply (Honce (JS.Error text) (Hpass 1)).
    rewrite classified_by_text. exact Hno.
  - intros Hyes.
    apply (Hthrice (JS.Error text) (JS.Error text) (JS.Error text) (Hpass 1));
      try exact (Hpass _); rewrite classified_by_text; exact Hyes.
Qed.

(** 1.503 tokens asked of a custody wallet that holds one: three passes. *)
Lemma a_transfer_of_1503_thousandths_is_tried_three_times :
  Blockchain.transferUSDTFromOfframp custody_short alice (JS.Str "1.503")
                                     Blockchain.default_maxRetries empty
  = (inl (Blockchain.not_retried
            (JS.Error "Insufficient balance in offramp wallet. Required: 1.503 USDT, Available: 1.0 USDT")),
     emit_all [TransferAttempt 1 alice (JS.Str "1.503"); Sleep 2000;
               TransferAttempt 2 alice (JS.Str "1.503"); Sleep 4000;
               TransferAttempt 3 alice (JS.Str "1.503")] empty).
Proof.
  destruct (a_short_balance_is_classified_by_its_text
              custody_short custody alice (JS.Str "1.503") empty 18
              (thousandths 1503) (tokens 1) eq_refl eq_refl eq_refl eq_refl
              eq_refl) as (_ & _ & _ & H).
  apply H. vm_compute. reflexivity.
Defined.

(** One gateway error: a pause of two seconds, then the transfer is sent;
    and the same amount asked of a wallet that shows no such digits is
    refused at the first pass. *)
Example retries_and_refusals :
  Blockchain.transferUSDTFromOfframp flaky alice (JS.Str "3")
                                     Blockchain.default_maxRetries empty
  = (inr (mkTx settlement),
     emit_all [TransferAttempt 1 alice (JS.Str "3"); Sleep 2000;
               TransferAttempt 2 alice (JS.Str "3");
               TransferBroadcast alice (JS.Str "3") settlement] empty)
  /\ Blockchain.transferUSDTFromOfframp custody_short alice (JS.Str "1.5")
                                        Blockchain.default_maxRetries empty
     = (inl (Blockchain.not_retried
               (JS.Error "Insufficient balance in offramp wallet. Required: 1.5 USDT, Available: 1.0 USDT")),
        emit_all [TransferAttempt 1 alice (JS.Str "1.5")] empty).
Proof. split; vm_compute; reflexivity. Qed.


(** ** The webhook controller *)

Section WebhookProperties.

Import WebhookController.

(** C1.  The idempotency gate of the on-ramp.  For a Payment row found by
    the payment reference: if the row is already [completed] or carries a
    transaction hash, handling the charge-confirmed event returns without
    any effect (no transfer, no update: the state is the same); and when a
    first delivery settles a row that was not settled, that is, returns
    without throwing, a second delivery, in any world, sends nothing more
    and changes nothing, so that exactly one transfer has been sent and the
    row is [completed]. *)
Theorem charge_confirmed_is_idempotent
        (w w' : World) (paymentIntent : PaymentIntent) (st : State)
        (payment : Payment.Payment) :
  PaymentService.getPaymentByPaymentIntentId (intent_id paymentIntent) (payments st)
  = Some payment ->
  ((Payment.status payment = Payment.completed
    \/ (exists h, Payment.tx_hash payment = Some h /\ h <> EmptyString)) ->
   handlePaymentIntentSucceeded w paymentIntent st = (inr tt, st))
  /\
  (forall st1,
      already_processed payment = false ->
      handlePaymentIntentSucceeded w paymentIntent st = (inr tt, st1) ->
      transfers_sent st1 = (transfers_sent st + 1)%nat
      /\ (exists settled,
             PaymentService.getPaymentByPaymentIntentId (intent_id paymentIntent)
                                                 (payments st1) = Some settled
             /\ Payment.status settled = Payment.completed
             /\ Payment.tx_hash settled <> None)
      /\ handlePaymentIntentSucceeded w' paymentIntent st1 = (inr tt, st1)
      /\ transfers_sent
           (snd (handlePaymentIntentSucceeded w' paymentIntent st1))
         = (transfers_sent st + 1)%nat).
Proof.
  intros Hfind. split.
  - intros Hgate.
    assert (Hp : already_processed payment = true).
    { unfold already_processed. destruct Hgate as [Hs | [h [Hh Hne]]].
      - rewrite Hs. reflexivity.
      - rewrite Hh, (truthy_opt_some h Hne). apply orb_true_r. }
    unfold handlePaymentIntentSucceeded, settle_payment_intent.
    rewrite Hfind, Hp. reflexivity.
  - intros st1 Hnot Hrun.
    unfold handlePaymentIntentSucceeded in Hrun.
    destruct (settle_payment_intent w paymentIntent st) as [[e|[]] st0] eqn:Hs;
      [discriminate|].
    inversion Hrun; subst st0; clear Hrun.
    unfold settle_payment_intent in Hs. rewrite Hfind, Hnot in Hs.
    match type of Hs with
    | (if negb (JS.truthy ?a) then _ else _) = _ =>
      destruct (negb (JS.truthy a)); [discriminate|]
    end.
    match type of Hs with
    | match Blockchain.transferUSDTFromOfframp ?w ?t ?a ?m ?s with _ => _ end = _ =>
      destruct (Blockchain.transferUSDTFromOfframp w t a m s) as [[e|tx] st2] eqn:Ht;
        [discriminate|];
        apply transferUSDTFromOfframp_effects in Ht
          as (Hp2 & _ & _ & _ & Hsent & _)
    end.
    unfold update_payment, transfers_sent in Hp2, Hsent.
    cbn [payments log with_payments] in Hp2, Hsent.
    fold (transfers_sent st2) in Hsent. fold (transfers_sent st) in Hsent.
    destruct (Blockchain.waitForTransaction w (hash tx) st2) as [[e|receipt] st3] eqn:Hw;
      [discriminate|].
    apply waitForTransaction_effects in Hw. subst st3.
    destruct receipt as [r|]; [|discriminate].
    destruct (receipt_status r) as [[|[|n]]|]; try discriminate.
    inversion Hs; subst st1; clear Hs.
    assert (Hfound :
              exists settled,
                PaymentService.getPaymentByPaymentIntentId
                  (intent_id paymentIntent)
                  (payments
                     (update_payment w (Payment.id payment)
                        (settled_by (receipt_hash r) (blockNumber r) (now w))
                        (emit (WaitForTransaction (hash tx)) st2)))
                = Some settled
                /\ Payment.status settled = Payment.completed
                /\ Payment.tx_hash settled <> None).
    { unfold update_payment. cbn [payments with_payments emit].
      rewrite getPayment_after_update by reflexivity. rewrite Hp2.
      rewrite getPayment_after_update by reflexivity.
      rewrite Hfind. cbn [option_map].
      rewrite Nat.eqb_refl. cbn [PaymentService.apply_updates Payment.id].
      rewrite Nat.eqb_refl.
      eexists. split; [reflexivity|]. split; [reflexivity|]. discriminate. }
    assert (Hcount :
              transfers_sent
                (update_payment w (Payment.id payment)
                   (settled_by (receipt_hash r) (blockNumber r) (now w))
                   (emit (WaitForTransaction (hash tx)) st2))
              = (transfers_sent st + 1)%nat).
    { unfold update_payment, with_payments, transfers_sent. cbn [log emit].
      change (transfers_sent (emit (WaitForTransaction (hash tx)) st2)
              = (transfers_sent st + 1)%nat).
      rewrite transfers_sent_emit, Hsent. cbn. lia. }
    assert (Hagain :
              handlePaymentIntentSucceeded w' paymentIntent
                (update_payment w (Payment.id payment)
                   (settled_by (receipt_hash r) (blockNumber r) (now w))
                   (emit (WaitForTransaction (hash tx)) st2))
              = (inr tt,
                 update_payment w (Payment.id payment)
                   (settled_by (receipt_hash r) (blockNumber r) (now w))
                   (emit (WaitForTransaction (hash tx)) st2))).
    { destruct Hfound as [settled [Hf [Hst _]]].
      unfold handlePaymentIntentSucceeded, settle_payment_intent.
      rewrite Hf. unfold already_processed. rewrite Hst. reflexivity. }
    split; [exact Hcount|]. split; [exact Hfound|]. split; [exact Hagain|].
    rewrite Hagain. exact Hcount.
Qed.

(** The charge of a pending payment confirmed twice: one transfer. *)
Lemma charge_confirmed_twice_transfers_once :
  transfers_sent
    (snd (WebhookController.handlePaymentIntentSucceeded
            world charge_confirmed
            (snd (WebhookController.handlePaymentIntentSucceeded
                    world charge_confirmed awaiting_charge))))
  = 1.
Proof.
  destruct (charge_confirmed_is_idempotent
              world world charge_confirmed awaiting_charge pending_payment eq_refl)
    as [_ H].
  destruct (H (snd (WebhookController.handlePaymentIntentSucceeded
                      world charge_confirmed awaiting_charge))
              eq_refl eq_refl) as (_ & _ & _ & H4).
  exact H4.
Defined.

(** The charge of a pending payment confirmed twice, the first delivery
    failing.  With an empty custody wallet no transfer is sent and the row
    is [failed]: a failed row is open to the next delivery, which fails
    the same way.  With a node that times out on the confirmation of the
    first delivery, the transfer has been sent and the row is [failed]
    without a transaction hash: the second delivery sends the transfer
    again. *)
Lemma two_deliveries_need_not_transfer_once :
  (transfers_sent
     (snd (WebhookController.handlePaymentIntentSucceeded
             custody_empty charge_confirmed
             (snd (WebhookController.handlePaymentIntentSucceeded
                     custody_empty charge_confirmed awaiting_charge))))
   = 0%nat
   /\ map Payment.status
          (payments
             (snd (WebhookController.handlePaymentIntentSucceeded
                     custody_empty charge_confirmed
                     (snd (WebhookController.handlePaymentIntentSucceeded
                             custody_empty charge_confirmed awaiting_charge)))))
      = [Payment.failed])
  /\ (map (fun p => (Payment.status p, Payment.tx_hash p))
          (payments
             (snd (WebhookController.handlePaymentIntentSucceeded
                     Cases.unconfirmed charge_confirmed awaiting_charge)))
      = [(Payment.failed, None)]
      /\ transfers_sent
           (snd (WebhookController.handlePaymentIntentSucceeded
                   world charge_confirmed
                   (snd (WebhookController.handlePaymentIntentSucceeded
                           Cases.unconfirmed charge_confirmed awaiting_charge))))
         = 2%nat).
Proof. vm_compute. repeat split; reflexivity. Qed.

(** A request without the signature header is rejected. *)
Lemma missing_signature_is_rejected (w : World) (payload : string) (st : State) :
  handleStripeWebhook w (mkRequest EmptyString payload) st
  = (mkResponse 400 missing_signature_header, st).
Proof. reflexivity. Qed.

(** An authenticated event whose processing throws is acknowledged, with
    the message of the error. *)
Lemma processing_failure_is_acknowledged
      (w : World) (req : Request) (st st' : State) (event : Event) (e : JS.error) :
  JS.truthy (stripe_signature req) = true ->
  constructEvent w (payload req) (stripe_signature req) (stripeWebhookSecret w)
  = inr event ->
  dispatch w event st = (inl e, st') ->
  handleStripeWebhook w req st = (mkResponse 200 (received (JS.message e)), st').
Proof.
  intros Hsig Hverify Hdispatch. unfold handleStripeWebhook.
  rewrite Hsig. cbn [negb]. unfold Stripe.verifyWebhookSignature.
  rewrite Hverify, Hdispatch. reflexivity.
Qed.

(** C6.  What the webhook handler does with a request whose signature the
    processor's library rejects: no handler is dispatched and the state is
    unchanged, but the response is the acknowledgment 200 with
    [received: true] and the error text, the one an authenticated event
    whose processing failed receives; it is not rejected. *)
Theorem unverifiable_webhook_is_acknowledged
        (w : World) (req : Request) (st : State) (e : JS.error) :
  JS.truthy (stripe_signature req) = true ->
  constructEvent w (payload req) (stripe_signature req) (stripeWebhookSecret w)
  = inl e ->
  exists detail,
    handleStripeWebhook w req st = (mkResponse 200 (received (Some detail)), st).
Proof.
  intros Hsig Hverify. unfold handleStripeWebhook. rewrite Hsig. cbn [negb].
  unfold Stripe.verifyWebhookSignature. rewrite Hverify.
  destruct (JS.etype e) as [t|]; [destruct (JS.truthy t && String.prefix "Stripe" t)|];
    eexists; reflexivity.
Qed.

(** A webhook with a rejected signature, acknowledged with 200. *)
Lemma forged_webhook_is_acknowledged :
  exists detail,
    WebhookController.handleStripeWebhook rejecting forged_webhook awaiting_charge
    = (WebhookController.mkResponse 200 (WebhookController.received (Some detail)),
       awaiting_charge).
Proof.
  apply (unverifiable_webhook_is_acknowledged
           rejecting forged_webhook awaiting_charge signature_rejected);
    reflexivity.
Defined.

End WebhookProperties.


(** ** The cashout controller *)

Section CashoutProperties.

Import CashoutController.

(** C5.  The signature check precedes the chain lookup.  When the signature
    does not recover to the claimed source wallet (another address, or no
    address at all), [requestCashout] leaves the state as it was: the chain
    verification is not invoked and no cashout row is created or modified.
    The response is 401 "Invalid signature" when the fields of the request
    are valid, and the 400 of the field validation otherwise. *)
Theorem signature_check_precedes_chain_lookup
        (w : World) (req : Request) (st : State) :
  (forall recovered,
      verifyMessage w (message req) (signature req) = Some recovered ->
      JS.toLowerCase recovered <> JS.toLowerCase (claimed_address req)) ->
  snd (requestCashout w req st) = st
  /\ chain_lookups (snd (requestCashout w req st)) = chain_lookups st
  /\ cashouts (snd (requestCashout w req st)) = cashouts st
  /\ (validate w req = None ->
      fst (requestCashout w req st) = mkResponse 401 (error "Invalid signature"))
  /\ (validate w req <> None ->
      status (fst (requestCashout w req st)) = 400).
Proof.
  intros Hsig.
  assert (Hv : Signature.verifySignature (verifyMessage w) (message req)
                 (signature req) (claimed_address req) = false).
  { unfold Signature.verifySignature.
    destruct (verifyMessage w (message req) (signature req)) as [r|] eqn:E;
      [|reflexivity].
    apply String.eqb_neq. now apply Hsig. }
  assert (Hrun : snd (requestCashout w req st) = st
                 /\ (validate w req = None ->
                     fst (requestCashout w req st)
                     = mkResponse 401 (error "Invalid signature"))
                 /\ (validate w req <> None ->
                     status (fst (requestCashout w req st)) = 400)).
  { unfold requestCashout, checks, authenticate. rewrite Hv. cbn [negb].
    destruct (validate w req) as [r|] eqn:Ev.
    - cbn [fst snd]. split; [reflexivity|]. split; [discriminate|]. intros _.
      unfold validate in Ev.
      repeat match type of Ev with
             | (if ?b then _ else _) = _ => destruct b
             end; inversion Ev; reflexivity.
    - cbn [fst snd]. split; [reflexivity|]. split; [reflexivity|].
      intros H; contradiction. }
  destruct Hrun as (H1 & H2 & H3). rewrite H1. repeat split; assumption.
Qed.

(** A request of alice signed by mallory: 401, and nothing happened. *)
Lemma a_signature_of_mallory_is_refused :
  CashoutController.requestCashout
    (with_verifyMessage (fun _ _ => Some mallory) world) cashout_request empty
  = (CashoutController.mkResponse 401 (CashoutController.error "Invalid signature"),
     empty).
Proof.
  destruct (signature_check_precedes_chain_lookup
              (with_verifyMessage (fun _ _ => Some mallory) world)
              cashout_request empty) as (H1 & _ & _ & H4 & _).
  - intros recovered H. inversion H. vm_compute. discriminate.
  - rewrite (surjective_pairing (CashoutController.requestCashout _ _ _)).
    rewrite H1, H4; reflexivity.
Defined.

(** C2.  Duplicate cashout submission.  For two successive requests that
    pass validation and on-chain verification with the same transaction
    hash, from a table in which the hash is unique: the hash stays unique
    after each request; the second request leaves the cashout table as the
    first one left it and makes no payout or platform transfer; there is
    exactly one row for the hash; and the second response is the success
    200 carrying the status of the existing row. *)
Theorem duplicate_cashout_creates_no_second_row
        (w1 w2 : World) (r1 r2 : Request) (st : State) :
  at_most_one_per_hash (cashouts st) ->
  txHash r1 = txHash r2 ->
  fst (checks w1 r1 st) = None ->
  fst (checks w2 r2 (snd (requestCashout w1 r1 st))) = None ->
  let st1 := snd (requestCashout w1 r1 st) in
  let response2 := fst (requestCashout w2 r2 st1) in
  let st2 := snd (requestCashout w2 r2 st1) in
  at_most_one_per_hash (cashouts st1)
  /\ at_most_one_per_hash (cashouts st2)
  /\ cashouts st2 = cashouts st1
  /\ fiat_movements st2 = fiat_movements st1
  /\ List.length (rows_for (txHash r2) (cashouts st2)) = 1%nat
  /\ exists c,
      Cashout.getCashoutByTxHash (txHash r2) (cashouts st1) = Some c
      /\ response2
         = mkResponse 200
             (existing (Cashout.id c) (Cashout.status c)
                       (Cashout.string_or_null (Cashout.payout_id_stripe c))
                       (Cashout.fiat_amount c) (Cashout.fiat_currency c)
                       (txHash r2)).
Proof.
  intros Hinv Hhash Hpass1 Hpass2 st1 response2 st2.
  change (fst (checks w2 r2 st1) = None) in Hpass2.
  assert (Hinv1 : at_most_one_per_hash (cashouts st1))
    by now apply requestCashout_preserves_uniqueness.
  assert (Hrec : rows_for (txHash r2) (cashouts st1) <> []).
  { rewrite <- Hhash. now apply requestCashout_records_hash. }
  destruct (find_some_filter _ _ Hrec) as [c Hc].
  assert (Hrun : cashouts st2 = cashouts st1
                 /\ fiat_movements st2 = fiat_movements st1
                 /\ response2
                    = mkResponse 200
                        (existing (Cashout.id c) (Cashout.status c)
                           (Cashout.string_or_null (Cashout.payout_id_stripe c))
                           (Cashout.fiat_amount c) (Cashout.fiat_currency c)
                           (txHash r2))).
  { subst response2 st2. unfold requestCashout.
    destruct (checks w2 r2 st1) as [[r|] st0] eqn:E; [discriminate|].
    assert (Hst0 : st0 = snd (checks w2 r2 st1)) by now rewrite E.
    destruct (checks_tables w2 r2 st1) as [Hc0 Hf0]. rewrite <- Hst0 in Hc0, Hf0.
    unfold Cashout.getCashoutByTxHash. rewrite Hc0, Hc. cbn [fst snd].
    repeat split; assumption. }
  destruct Hrun as (Hsame & Hfiat & Hresp).
  split; [exact Hinv1|]. split; [now rewrite Hsame|]. split; [exact Hsame|].
  split; [exact Hfiat|]. split.
  - rewrite Hsame. specialize (Hinv1 (txHash r2)).
    destruct (rows_for (txHash r2) (cashouts st1)) as [|x [|y l]];
      [contradiction | reflexivity | simpl in Hinv1; lia].
  - exists c. split; [exact Hc | exact Hresp].
Qed.

(** The same deposit submitted twice: one cashout row. *)
Lemma the_same_deposit_submitted_twice :
  List.length
    (rows_for deposit
       (cashouts
          (snd (CashoutController.requestCashout
                  world cashout_request
                  (snd (CashoutController.requestCashout
                          world cashout_request empty))))))
  = 1.
Proof.
  destruct (duplicate_cashout_creates_no_second_row
              world world cashout_request cashout_request empty)
    as (_ & _ & _ & _ & H & _).
  - intros h. simpl. lia.
  - reflexivity.
  - vm_compute. reflexivity.
  - vm_compute. reflexivity.
  - exact H.
Defined.

End CashoutProperties.


(** ** The payroll controller *)

(** C3, as amended.  Batch reconciliation is all or nothing.  For a batch
    and a verified transfer set: if a transfer to an expected recipient is
    off by more than the tolerance, no payroll row is changed and the
    response is the amount mismatch of such a transfer, with the expected
    and the received amount; otherwise, if some expected recipient is not
    satisfied, no payroll row is changed and the response lists the missing
    recipients; otherwise every row of the batch is [completed] with the
    submitted transaction hash and the verified block number. *)
Theorem batch_reconciliation_is_all_or_nothing
        (w : World) (req : PayrollController.Request) (st : State)
        (first : Payroll.Payroll) (rest : list Payroll.Payroll)
        (transfers : list Transfer) (verifiedBlockNumber : Z) :
  JS.truthy (PayrollController.payrollId req) = true ->
  JS.truthy (PayrollController.txHash req) = true ->
  Payroll.getPayrollsByPayrollId (PayrollController.payrollId req) (payrolls st)
  = first :: rest ->
  Blockchain.verifyPayrollTransaction w (PayrollController.txHash req)
                                      (Payroll.employer_address first)
  = inr (transfers, verifiedBlockNumber) ->
  let expected := PayrollController.expected_of (first :: rest) in
  let run := PayrollController.executePayroll w req st in
  let missing :=
    filter (fun addr => negb (satisfied expected transfers addr))
           (PayrollController.map_keys expected) in
  (existsb (amount_differs expected) transfers = true ->
   payrolls (snd run) = payrolls st
   /\ exists t a,
       In t transfers
       /\ expected_amount expected t = Some a
       /\ JS.exceeds_tolerance (JS.parseFloat (amount t)) (JS.parseFloat a) = true
       /\ fst run
          = PayrollController.mkResponse
              400 (PayrollController.amount_mismatch (to t) a (amount t)))
  /\ (existsb (amount_differs expected) transfers = false ->
      missing <> [] ->
      payrolls (snd run) = payrolls st
      /\ fst run
         = PayrollController.mkResponse
             400 (PayrollController.not_all_received missing))
  /\ (existsb (amount_differs expected) transfers = false ->
      missing = [] ->
      PayrollController.status (fst run) = 200
      /\ forall p,
          In p (payrolls (snd run)) ->
          Payroll.payroll_id p = PayrollController.payrollId req ->
          Payroll.status p = Payroll.completed
          /\ Payroll.tx_hash p = Some (PayrollController.txHash req)
          /\ Payroll.block_number p = Some verifiedBlockNumber).
Proof.
  intros Hid Htx Hbatch Hverified expected run missing.
  assert (Hall : forallb (satisfied expected transfers)
                         (PayrollController.map_keys expected) = true
                 <-> missing = []).
  { subst missing. induction (PayrollController.map_keys expected) as [|a l IH];
      simpl; [tauto|].
    destruct (satisfied expected transfers a); simpl; [exact IH|].
    split; discriminate. }
  split; [|split].
  - intros Hdiff.
    destruct (executePayroll_mismatch w req st first rest transfers
                verifiedBlockNumber Hid Htx Hbatch Hverified Hdiff) as [Hst Hresp].
    split; [|exact Hresp]. subst run. rewrite Hst. reflexivity.
  - intros Hno Hmiss.
    assert (Hnot : forallb (satisfied expected transfers)
                           (PayrollController.map_keys expected) = false).
    { destruct (forallb (satisfied expected transfers)
                        (PayrollController.map_keys expected)) eqn:E;
        [|reflexivity]. exfalso. apply Hmiss. now apply Hall. }
    destruct (executePayroll_missing w req st first rest transfers
                verifiedBlockNumber Hid Htx Hbatch Hverified Hno Hnot)
      as (Hst & Hresp & _).
    split; [|exact Hresp]. subst run. rewrite Hst. reflexivity.
  - intros Hno Hmiss. apply Hall in Hmiss.
    destruct (executePayroll_complete w req st first rest transfers
                verifiedBlockNumber Hid Htx Hbatch Hverified Hno Hmiss)
      as (Hresp & Hrows).
    split; [subst run; now rewrite Hresp|].
    intros p Hp Hpid. subst run. rewrite Hrows in Hp.
    apply in_map_iff in Hp as [q [<- Hq]].
    unfold in_batch in *.
    destruct (String.eqb (Payroll.payroll_id q) (PayrollController.payrollId req)) eqn:E.
    + repeat split.
    + apply String.eqb_neq in E. contradiction.
Qed.

(** The batch alice: 10, bob: 20 paid to alice only: bob is missing. *)
Lemma a_batch_that_pays_alice_only_reports_bob :
  PayrollController.executePayroll (pays_alice (tokens 10)) execute_batch batch_prepared
  = (PayrollController.mkResponse
       400 (PayrollController.not_all_received [JS.toLowerCase bob]),
     emit (ChainLookup settlement) batch_prepared).
Proof.
  destruct (batch_reconciliation_is_all_or_nothing
              (pays_alice (tokens 10)) execute_batch batch_prepared
              (Payroll.mkPayroll 1 "batch-1" employer alice "10" None None Payroll.pending)
              [Payroll.mkPayroll 2 "batch-1" employer bob "20" None None Payroll.pending]
              [mkTransfer employer alice "10.0"] 42%Z
              eq_refl eq_refl eq_refl eq_refl) as (_ & H & _).
  vm_compute. reflexivity.
Defined.

(** C3, as stated, fails: the batch expects alice: 10 and bob: 20, the
    transaction pays alice 15.  Bob is not matched by any transfer and the
    amount of alice differs, yet the response is the amount mismatch of
    alice and carries no list of missing recipients. *)
Lemma a_mismatch_hides_the_missing_recipient :
  satisfied (PayrollController.expected_of batch)
            [mkTransfer employer alice "15.0"] (JS.toLowerCase bob) = false
  /\ amount_differs (PayrollController.expected_of batch)
                    (mkTransfer employer alice "15.0") = true
  /\ fst (PayrollController.executePayroll (pays_alice (tokens 15)) execute_batch
                                           batch_prepared)
     = PayrollController.mkResponse
         400 (PayrollController.amount_mismatch alice "10" "15.0")
  /\ (forall missing,
         PayrollController.body
           (fst (PayrollController.executePayroll (pays_alice (tokens 15)) execute_batch
                                                  batch_prepared))
         <> PayrollController.not_all_received missing).
Proof.
  split; [vm_compute; reflexivity|]. split; [vm_compute; reflexivity|].
  split; [vm_compute; reflexivity|].
  intros missing. vm_compute. discriminate.
Defined.


(** ** The amount tolerance *)

(** C4.  The amount tolerance.  The tolerance is the number 0.01; a
    transfer of 100.004 against 100.00 is within it and one of 100.02 is
    not.  In [requestCashout], once the parties match, the response is the
    amount mismatch carrying the requested and the transferred amount
    exactly when they differ by more than the tolerance, and the checks
    pass otherwise.  In [executePayroll] the response is an amount mismatch
    carrying the expected and the received amount exactly when some
    transfer to an expected recipient differs by more than the tolerance. *)
Theorem amount_tolerance_boundary :
  JS.tolerance = JS.parseFloat "0.01"
  /\ JS.exceeds_tolerance (JS.parseFloat "100.004") (JS.parseFloat "100.00") = false
  /\ JS.exceeds_tolerance (JS.parseFloat "100.02") (JS.parseFloat "100.00") = true
  /\ (forall (w : World) (req : CashoutController.Request) (st : State)
             (offrampAddress : string) (transferInfo : Transfer),
         CashoutController.validate w req = None ->
         CashoutController.authenticate w req = None ->
         offrampWallet w = Some offrampAddress ->
         Blockchain.verifyTransferTransaction w (CashoutController.txHash req)
         = inr transferInfo ->
         JS.toLowerCase (from transferInfo)
         = JS.toLowerCase (CashoutController.claimed_address req) ->
         JS.toLowerCase (to transferInfo) = JS.toLowerCase offrampAddress ->
         let transferred := JS.parseFloat (amount transferInfo) in
         let requested := JS.parseFloat (CashoutController.amount req) in
         (JS.exceeds_tolerance transferred requested = true ->
          CashoutController.requestCashout w req st
          = (CashoutController.mkResponse
               400 (CashoutController.amount_mismatch requested transferred),
             emit (ChainLookup (CashoutController.txHash req)) st))
         /\ (JS.exceeds_tolerance transferred requested = false ->
             fst (CashoutController.checks w req st) = None))
  /\ (forall (w : World) (req : PayrollController.Request) (st : State)
             (first : Payroll.Payroll) (rest : list Payroll.Payroll)
             (transfers : list Transfer) (verifiedBlockNumber : Z),
         JS.truthy (PayrollController.payrollId req) = true ->
         JS.truthy (PayrollController.txHash req) = true ->
         Payroll.getPayrollsByPayrollId (PayrollController.payrollId req)
                                        (payrolls st) = first :: rest ->
         Blockchain.verifyPayrollTransaction w (PayrollController.txHash req)
                                             (Payroll.employer_address first)
         = inr (transfers, verifiedBlockNumber) ->
         let expected := PayrollController.expected_of (first :: rest) in
         let response := fst (PayrollController.executePayroll w req st) in
         (existsb (amount_differs expected) transfers = true ->
          exists t a,
            In t transfers
            /\ expected_amount expected t = Some a
            /\ JS.exceeds_tolerance (JS.parseFloat (amount t)) (JS.parseFloat a) = true
            /\ response
               = PayrollController.mkResponse
                   400 (PayrollController.amount_mismatch (to t) a (amount t)))
         /\ (existsb (amount_differs expected) transfers = false ->
             forall employee e r,
               PayrollController.body response
               <> PayrollController.amount_mismatch employee e r)).
Proof.
  split; [vm_compute; reflexivity|].
  split; [vm_compute; reflexivity|].
  split; [vm_compute; reflexivity|].
  split.
  - intros w req st offrampAddress transferInfo Hv Ha Hw Ht Hfrom Hto
           transferred requested.
    assert (Hrun : CashoutController.verify_on_chain w req st
                   = (if JS.exceeds_tolerance transferred requested
                      then Some (CashoutController.mkResponse
                                   400 (CashoutController.amount_mismatch
                                          requested transferred))
                      else None,
                      emit (ChainLookup (CashoutController.txHash req)) st)).
    { unfold CashoutController.verify_on_chain, Blockchain.getOfframpAddress.
      rewrite Hw, Ht, Hfrom, Hto, !String.eqb_refl. cbn [negb].
      fold transferred requested.
      destruct (JS.exceeds_tolerance transferred requested); reflexivity. }
    split; intros Hx.
    + unfold CashoutController.requestCashout, CashoutController.checks.
      rewrite Hv, Ha, Hrun, Hx. reflexivity.
    + unfold CashoutController.checks. rewrite Hv, Ha, Hrun, Hx. reflexivity.
  - intros w req st first rest transfers verifiedBlockNumber Hid Htx Hbatch
           Hverified expected response.
    split.
    + intros Hdiff.
      destruct (executePayroll_mismatch w req st first rest transfers
                  verifiedBlockNumber Hid Htx Hbatch Hverified Hdiff)
        as [_ Hresp]. exact Hresp.
    + intros Hno employee e r. subst response.
      destruct (forallb (satisfied expected transfers)
                        (PayrollController.map_keys expected)) eqn:Hall.
      * destruct (executePayroll_complete w req st first rest transfers
                    verifiedBlockNumber Hid Htx Hbatch Hverified Hno Hall)
          as [-> _]. discriminate.
      * destruct (executePayroll_missing w req st first rest transfers
                    verifiedBlockNumber Hid Htx Hbatch Hverified Hno Hall)
          as (_ & -> & _). discriminate.
Qed.


(** ** The payment controller *)

Section OnRamp.

Import PaymentController.

Lemma check_balance_tables (w : World) (amountUSDT : float) (st : State) :
  payments (snd (check_balance w amountUSDT st)) = payments st
  /\ next_id (snd (check_balance w amountUSDT st)) = next_id st.
Proof.
  unfold check_balance, Blockchain.getOfframpBalance.
  destruct (offrampWallet w) as [a|]; [|split; reflexivity].
  destruct (Blockchain.getUSDTBalance w a) as [e|b]; [split; reflexivity|].
  destruct (JS.lt (JS.parseFloat b) amountUSDT); split; reflexivity.
Qed.

(** C8.  The cap of 5 tokens is enforced before the charge.  When the
    computed token amount exceeds 5, the handler answers 400 and the state
    is unchanged: no payment intent is created at the processor and no
    Payment row is persisted; when the fields are valid the body is the
    maximum-purchase-limit error. *)
Theorem token_cap_is_enforced_before_the_charge
        (w : World) (req : Request) (st : State) :
  JS.gt (amount_usdt w req) 5 = true ->
  let run := createPaymentIntentHandler w req st in
  snd run = st
  /\ charges_created (snd run) = charges_created st
  /\ payments (snd run) = payments st
  /\ status (fst run) = 400
  /\ (validate w req = None ->
      fst run = mkResponse 400 (maximum_purchase_limit
                                  "5" (JS.NumToFixed 6 (amount_usdt w req)))).
Proof.
  intros Hcap run.
  assert (H : snd run = st /\ status (fst run) = 400
              /\ (validate w req = None ->
                  fst run = mkResponse 400 (maximum_purchase_limit
                                              "5" (JS.NumToFixed 6 (amount_usdt w req))))).
  { subst run. unfold createPaymentIntentHandler.
    destruct (validate w req) as [r|] eqn:Ev.
    - cbn [fst snd]. split; [reflexivity|]. split; [|discriminate].
      unfold validate in Ev.
      repeat match type of Ev with
             | (if ?b then _ else _) = _ => destruct b
             end; inversion Ev; reflexivity.
    - rewrite Hcap. cbn [fst snd]. repeat split. }
  destruct H as (H1 & H2 & H3). rewrite H1. repeat split; assumption.
Qed.

(** Six tokens at rate 1: refused with the limit error, state unchanged. *)
Lemma six_tokens_are_refused_before_the_charge :
  PaymentController.createPaymentIntentHandler world (buy "6") empty
  = (PaymentController.mkResponse
       400 (PaymentController.maximum_purchase_limit
              "5" (JS.NumToFixed 6 (JS.parseFloat "6"))),
     empty).
Proof.
  destruct (token_cap_is_enforced_before_the_charge world (buy "6") empty)
    as (H1 & _ & _ & _ & H5).
  - vm_compute. reflexivity.
  - rewrite (surjective_pairing (PaymentController.createPaymentIntentHandler _ _ _)).
    rewrite H1, H5; [|reflexivity].
    vm_compute. reflexivity.
Defined.

(** C9.  Exchange-rate fallback.  When the rate lookup throws, the rate
    used is 1.0 and the token amount is the fiat amount; the handler
    behaves as it does in a world whose rate service answers 1 (the error is
    not propagated); a Payment row it persists is the row [createPayment]
    inserts, the wallet address in lower case, and records the rate 1 and
    the fiat amount as token amount; and it does persist that row, answering
    200, when the request is valid, within the cap and the balance, the
    processor creates the charge and no row has the payment reference of
    the charge yet. *)
Theorem exchange_rate_lookup_failure_falls_back_to_one
        (w : World) (req : Request) (st : State) (e : JS.error) :
  getExchangeRate w "usdt" (JS.toLowerCase (currency req)) = inl e ->
  let run := createPaymentIntentHandler w req st in
  let persisted paymentIntent :=
    PaymentService.inserted
      (now w) (next_id st)
      (PaymentService.mkPaymentData
         (intent_id paymentIntent) (walletAddress req) (amount req)
         (JS.toLowerCase (currency req))
         (JS.NumToFixed 6 (JS.parseFloat (amount req))) (JS.NumToString 1)
         Payment.pending None) in
  exchange_rate w req = 1%float
  /\ amount_usdt w req = JS.parseFloat (amount req)
  /\ run = createPaymentIntentHandler (with_rate 1 w) req st
  /\ (payments (snd run) = payments st
      \/ exists paymentIntent,
          payments (snd run) = (payments st ++ [persisted paymentIntent])%list)
  /\ (forall paymentIntent,
         Payment.exchange_rate (persisted paymentIntent) = JS.NumToString 1
         /\ Payment.amount_usdt (persisted paymentIntent)
            = JS.NumToFixed 6 (JS.parseFloat (amount req))
         /\ Payment.wallet_address (persisted paymentIntent)
            = JS.toLowerCase (walletAddress req))
  /\ (forall paymentIntent,
         validate w req = None ->
         JS.gt (JS.parseFloat (amount req)) 5 = false ->
         fst (check_balance w (JS.parseFloat (amount req)) st) = None ->
         createPaymentIntent w (JS.parseFloat (amount req))
                             (JS.toLowerCase (currency req)) (walletAddress req)
         = inr paymentIntent ->
         PaymentService.getPaymentByPaymentIntentId
           (intent_id paymentIntent) (payments st) = None ->
         status (fst run) = 200
         /\ payments (snd run) = (payments st ++ [persisted paymentIntent])%list).
Proof.
  intros Hrate run persisted.
  assert (Hone : exchange_rate w req = 1%float)
    by (unfold exchange_rate; now rewrite Hrate).
  assert (Hamt : amount_usdt w req = JS.parseFloat (amount req))
    by (unfold amount_usdt; rewrite Hone; apply mul_one).
  assert (Hone' : exchange_rate (with_rate 1 w) req = 1%float) by reflexivity.
  assert (Hamt' : amount_usdt (with_rate 1 w) req = JS.parseFloat (amount req))
    by (unfold amount_usdt; rewrite Hone'; apply mul_one).
  split; [exact Hone|]. split; [exact Hamt|]. split.
  { subst run. unfold createPaymentIntentHandler, payment_data.
    rewrite Hone, Hamt, Hone', Hamt'. reflexivity. }
  subst run. unfold createPaymentIntentHandler, payment_data.
  rewrite Hone, Hamt.
  destruct (check_balance_tables w (JS.parseFloat (amount req)) st) as [Hp Hn].
  split; [|split].
  - destruct (validate w req); [now left|].
    destruct (JS.gt (JS.parseFloat (amount req)) 5); [now left|].
    destruct (check_balance w (JS.parseFloat (amount req)) st) as [[r|] st0];
      cbn [snd] in *; [left; exact Hp|].
    destruct (createPaymentIntent w (JS.parseFloat (amount req))
                                  (JS.toLowerCase (currency req)) (walletAddress req))
      as [err|paymentIntent]; [left; exact Hp|].
    unfold PaymentService.createPayment.
    cbn [payments emit next_id PaymentService.payment_intent_id].
    destruct (PaymentService.getPaymentByPaymentIntentId
                (intent_id paymentIntent) (payments st0));
      [left; exact Hp|].
    right. exists paymentIntent. subst persisted.
    cbn [snd inserted_payment payments]. now rewrite Hp, Hn.
  - intros paymentIntent. repeat split.
  - intros paymentIntent Hv Hcap Hbal Hcreate Hfresh. rewrite Hv, Hcap.
    destruct (check_balance w (JS.parseFloat (amount req)) st) as [[r|] st0];
      cbn [fst snd] in *; [discriminate|].
    rewrite Hcreate. unfold PaymentService.createPayment.
    cbn [payments emit next_id PaymentService.payment_intent_id].
    rewrite Hp, Hfresh. subst persisted.
    cbn [fst snd inserted_payment payments status].
    now rewrite Hn.
Qed.

(** Three dollars to the wallet of alice while the rate service is down:
    the row records the rate 1, three tokens and the address in lower
    case. *)
Lemma a_purchase_without_rate_service_records_one :
  List.map (fun p => (Payment.exchange_rate p, Payment.amount_usdt p,
                      Payment.wallet_address p))
           (payments
              (snd (PaymentController.createPaymentIntentHandler
                      rate_service_down (buy "3") empty)))
  = [(JS.NumToString 1, JS.NumToFixed 6 3, JS.toLowerCase alice)].
Proof.
  destruct (exchange_rate_lookup_failure_falls_back_to_one
              rate_service_down (buy "3") empty
              (JS.Error "rate service unreachable") eq_refl)
    as (_ & _ & _ & _ & _ & H).
  destruct (H (mkPaymentIntent "pi_1" "pi_1_secret" None None))
    as [_ Hrows]; [vm_compute; reflexivity ..|].
  rewrite Hrows. vm_compute. reflexivity.
Defined.

End OnRamp.

(* ================================================================== *)
(** * Further properties of the code *)
(* ================================================================== *)

Module TextFacts.

Lemma lower_idempotent (s : string) :
  JS.toLowerCase (JS.toLowerCase s) = JS.toLowerCase s.
Proof.
  induction s as [|c s IH]; [reflexivity|]. cbn [JS.toLowerCase]. rewrite IH.
  f_equal. unfold JS.lower_char at 1.
  destruct (JS.is_upper (JS.lower_char c)) eqn:E; [|reflexivity].
  exfalso. revert E. unfold JS.lower_char.
  destruct (JS.is_upper c) eqn:Eu; [|congruence].
  unfold JS.is_upper in *.
  apply andb_true_iff in Eu. destruct Eu as [H1 H2].
  apply N.leb_le in H1. apply N.leb_le in H2.
  rewrite N_ascii_embedding by lia.
  intros E. apply andb_true_iff in E. destruct E as [_ E].
  apply N.leb_le in E. lia.
Qed.


End TextFacts.

(* ================================================================== *)
(** * The payment service *)
(* ================================================================== *)

Module PaymentServiceFacts.

Lemma find_map_pid (f : Payment.Payment -> Payment.Payment) (pid : string)
      (rows : list Payment.Payment) :
  (forall p, Payment.payment_intent_id (f p) = Payment.payment_intent_id p) ->
  PaymentService.getPaymentByPaymentIntentId pid (map f rows)
  = option_map f (PaymentService.getPaymentByPaymentIntentId pid rows).
Proof.
  intros Hf. unfold PaymentService.getPaymentByPaymentIntentId.
  induction rows as [|p rows IH]; [reflexivity|].
  cbn [map find]. rewrite Hf.
  destruct (String.eqb (Payment.payment_intent_id p) pid); [reflexivity|exact IH].
Qed.

Lemma find_pid_app (pid : string) (rows more : list Payment.Payment) :
  PaymentService.getPaymentByPaymentIntentId pid (rows ++ more)
  = match PaymentService.getPaymentByPaymentIntentId pid rows with
    | Some p => Some p
    | None => PaymentService.getPaymentByPaymentIntentId pid more
    end.
Proof.
  unfold PaymentService.getPaymentByPaymentIntentId.
  induction rows as [|p rows IH]; [reflexivity|].
  cbn [app find]. destruct (String.eqb (Payment.payment_intent_id p) pid);
    [reflexivity|exact IH].
Qed.

Lemma find_pid_none_not_in (pid : string) (rows : list Payment.Payment) :
  PaymentService.getPaymentByPaymentIntentId pid rows = None ->
  ~ In pid (map Payment.payment_intent_id rows).
Proof.
  unfold PaymentService.getPaymentByPaymentIntentId.
  induction rows as [|p rows IH]; cbn [find map In]; [tauto|].
  destruct (String.eqb (Payment.payment_intent_id p) pid) eqn:E; [discriminate|].
  intros H [Hp|Hin]; [|exact (IH H Hin)].
  apply String.eqb_neq in E. congruence.
Qed.

Lemma apply_updates_keeps (now : Z) (u : PaymentService.Updates)
      (p : Payment.Payment) :
  let p' := PaymentService.apply_updates now u p in
  Payment.id p' = Payment.id p
  /\ Payment.payment_intent_id p' = Payment.payment_intent_id p
  /\ Payment.wallet_address p' = Payment.wallet_address p
  /\ Payment.created_at p' = Payment.created_at p.
Proof. repeat split; reflexivity. Qed.

End PaymentServiceFacts.

(** X2.  [createPayment] keeps the payment reference unique and stores the
    wallet address in lower case: a reference already in the table is
    refused with the duplicate error and the table is left alone;
    otherwise one row is appended, the lookup by the reference finds it,
    and references that were distinct stay distinct. *)
Theorem createPayment_keeps_the_reference_unique
        (isSQLite : bool) (now : Z) (fresh : nat)
        (d : PaymentService.PaymentData) (rows : list Payment.Payment) :
  let run := PaymentService.createPayment isSQLite now fresh d rows in
  let pid := PaymentService.payment_intent_id d in
  (forall existing,
      PaymentService.getPaymentByPaymentIntentId pid rows = Some existing ->
      run = (inl (JS.Error "Payment with this payment intent ID already exists"),
             rows))
  /\ (PaymentService.getPaymentByPaymentIntentId pid rows = None ->
      (exists row, fst run = inr row /\ Payment.id row = fresh)
      /\ snd run = (rows ++ [PaymentService.inserted now fresh d])%list
      /\ PaymentService.getPaymentByPaymentIntentId pid (snd run)
         = Some (PaymentService.inserted now fresh d)
      /\ Payment.wallet_address (PaymentService.inserted now fresh d)
         = JS.toLowerCase (PaymentService.wallet_address d))
  /\ (NoDup (map Payment.payment_intent_id rows) ->
      NoDup (map Payment.payment_intent_id (snd run))).
Proof.
  cbv zeta. unfold PaymentService.createPayment.
  destruct (PaymentService.getPaymentByPaymentIntentId
              (PaymentService.payment_intent_id d) rows) as [p|] eqn:E.
  - split; [intros; reflexivity|]. split; [discriminate|]. intros H; exact H.
  - split; [discriminate|]. cbn [fst snd]. split.
    + intros _. split.
      * exists (if isSQLite then PaymentService.echoed now fresh d
                else PaymentService.inserted now fresh d).
        split; [reflexivity|]. destruct isSQLite; reflexivity.
      * split; [reflexivity|]. split; [|reflexivity].
        rewrite PaymentServiceFacts.find_pid_app, E.
        unfold PaymentService.getPaymentByPaymentIntentId, PaymentService.inserted.
        cbn [find Payment.payment_intent_id]. rewrite String.eqb_refl. reflexivity.
    + intros Hnd. rewrite map_app. cbn [map PaymentService.inserted
                                         Payment.payment_intent_id].
      apply NoDup_app; [exact Hnd | repeat constructor; intros [] |].
      intros x Hin [<-|[]].
      exact (PaymentServiceFacts.find_pid_none_not_in _ _ E Hin).
Qed.

(** X3.  [updatePayment] keeps the identity of every row (id, payment
    reference, wallet address, creation time, and the number of rows), and
    a row it leaves completed has a completion time whenever the completed
    rows had one before. *)
Theorem updatePayment_keeps_identity_and_completion_time
        (now : Z) (paymentId : nat) (u : PaymentService.Updates)
        (rows : list Payment.Payment) :
  let rows' := snd (PaymentService.updatePayment now paymentId u rows) in
  let stamped p :=
    Payment.status p = Payment.completed -> Payment.completed_at p <> None in
  map Payment.id rows' = map Payment.id rows
  /\ map Payment.payment_intent_id rows' = map Payment.payment_intent_id rows
  /\ map Payment.wallet_address rows' = map Payment.wallet_address rows
  /\ map Payment.created_at rows' = map Payment.created_at rows
  /\ (Forall stamped rows -> Forall stamped rows').
Proof.
  cbv zeta. unfold PaymentService.updatePayment.
  destruct (PaymentService.no_fields u); cbn [snd];
    [repeat split; try reflexivity; intros H; exact H|].
  repeat split.
  1-4: rewrite map_map; apply map_ext; intros p;
       destruct (Nat.eqb (Payment.id p) paymentId); reflexivity.
  intros H. apply Forall_map. revert H. apply Forall_impl. intros p Hp.
  destruct (Nat.eqb (Payment.id p) paymentId); [|exact Hp].
  unfold PaymentService.apply_updates. cbn [Payment.status Payment.completed_at].
  unfold PaymentService.stamps_completion, PaymentService.or_old.
  destruct (PaymentService.set_completed_at u) as [t|]; cbn;
    [intros _; discriminate|].
  destruct (PaymentService.set_status u) as [[]|]; cbn;
    try discriminate; try exact Hp.
Qed.

(* ================================================================== *)
(** * Status polling *)
(* ================================================================== *)

Module PollingFacts.

Import PaymentStatus Columns.

Lemma poll_cases (w : World) (getPaymentIntent : string -> JS.error + string)
      (pid : string) (st : State) :
  snd (getPaymentStatus w getPaymentIntent pid st) = st
  \/ exists row s,
      PaymentService.getPaymentByPaymentIntentId pid (payments st) = Some row
      /\ getPaymentIntent pid = inr s
      /\ String.eqb s (status_name (Payment.status row)) = false
      /\ Payment.Status_eqb (newStatus s row) (Payment.status row) = false
      /\ getPaymentStatus w getPaymentIntent pid st
         = (mkResponse 200 (payment (with_status (newStatus s row) row)),
            with_payments
              (map (fun p => if Nat.eqb (Payment.id p) (Payment.id row)
                             then PaymentService.apply_updates
                                    (now w) (only_status (newStatus s row)) p
                             else p) (payments st)) st).
Proof.
  unfold getPaymentStatus.
  destruct (JS.truthy pid); cbn [negb]; [|left; reflexivity].
  destruct (PaymentService.getPaymentByPaymentIntentId pid (payments st))
    as [row|] eqn:Erow; [|left; reflexivity].
  destruct (getPaymentIntent pid) as [e|s] eqn:Es; [left; reflexivity|].
  destruct (String.eqb s (status_name (Payment.status row))) eqn:Esame;
    cbn [negb]; [left; reflexivity|].
  destruct (Payment.Status_eqb (newStatus s row) (Payment.status row)) eqn:Enew;
    cbn [negb]; [left; reflexivity|].
  right. exists row, s. repeat split; assumption.
Qed.

Lemma Status_eqb_refl (s : Payment.Status) : Payment.Status_eqb s s = true.
Proof. destruct s; reflexivity. Qed.

Lemma Status_eqb_eq (a b : Payment.Status) :
  Payment.Status_eqb a b = true -> a = b.
Proof. destruct a, b; cbn; congruence. Qed.

Lemma find_pid_found (pid : string) (rows : list Payment.Payment)
      (row : Payment.Payment) :
  PaymentService.getPaymentByPaymentIntentId pid rows = Some row ->
  Payment.payment_intent_id row = pid.
Proof.
  unfold PaymentService.getPaymentByPaymentIntentId. intros H.
  apply find_some in H. destruct H as [_ H]. apply String.eqb_eq in H. exact H.
Qed.

End PollingFacts.

(** X4.  Polling the status of a payment never settles anything: whatever
    the processor answers, [getPaymentStatus] makes no external call that
    moves value, leaves the cashout and payroll tables alone, and changes
    no column of a payment row other than the status and the two dates it
    stamps (in particular no transaction hash and no amount). *)
Theorem polling_changes_nothing_but_the_status
        (w : World) (getPaymentIntent : string -> JS.error + string)
        (paymentIntentId : string) (st : State) :
  let st' := snd (PaymentStatus.getPaymentStatus w getPaymentIntent
                                                 paymentIntentId st) in
  log st' = log st
  /\ cashouts st' = cashouts st
  /\ payrolls st' = payrolls st
  /\ map Columns.settlement_columns (payments st')
     = map Columns.settlement_columns (payments st).
Proof.
  cbv zeta.
  destruct (PollingFacts.poll_cases w getPaymentIntent paymentIntentId st)
    as [->|(row & s & _ & _ & _ & _ & ->)]; [repeat split; reflexivity|].
  cbn [snd with_payments log cashouts payrolls payments].
  repeat split; try reflexivity.
  rewrite map_map. apply map_ext. intros p.
  destruct (Nat.eqb (Payment.id p) (Payment.id row)); reflexivity.
Qed.

(** X5.  Polling is idempotent: a second poll that gets the same answer
    from the processor leaves the state as the first poll left it. *)
Theorem polling_twice_is_polling_once
        (w w' : World) (getPaymentIntent : string -> JS.error + string)
        (paymentIntentId : string) (st : State) :
  let st1 := snd (PaymentStatus.getPaymentStatus w getPaymentIntent
                                                 paymentIntentId st) in
  snd (PaymentStatus.getPaymentStatus w' getPaymentIntent paymentIntentId st1)
  = st1.
Proof.
  cbv zeta.
  destruct (PollingFacts.poll_cases w getPaymentIntent paymentIntentId st)
    as [E|(row & s & Hrow & Hs & Hsame & Hnew & E)].
  - rewrite E.
    destruct (PollingFacts.poll_cases w' getPaymentIntent paymentIntentId st)
      as [E'|(row & s & Hrow & Hs & Hsame & Hnew & E')]; [exact E'|].
    exfalso.
    (* the first poll would have updated the row as well *)
    unfold PaymentStatus.getPaymentStatus in E.
    destruct (JS.truthy paymentIntentId) eqn:Ht; cbn [negb] in E.
    + rewrite Hrow, Hs, Hsame, Hnew in E. cbn [negb snd] in E.
      unfold PaymentService.updatePayment in E.
      replace (PaymentService.no_fields
                 (PaymentStatus.only_status (PaymentStatus.newStatus s row)))
        with false in E by reflexivity.
      cbn [snd] in E.
      assert (Hp : PaymentService.getPaymentByPaymentIntentId
                     paymentIntentId (payments st) = Some row) by exact Hrow.
      rewrite <- E in Hp at 1. cbn [with_payments payments] in Hp.
      rewrite PaymentServiceFacts.find_map_pid in Hp
        by (intros p; destruct (Nat.eqb (Payment.id p) (Payment.id row));
            reflexivity).
      rewrite Hrow in Hp. cbn [option_map] in Hp. rewrite Nat.eqb_refl in Hp.
      injection Hp as Hp.
      apply (f_equal Payment.status) in Hp. cbn in Hp.
      rewrite Hp, PollingFacts.Status_eqb_refl in Hnew. discriminate.
    + unfold PaymentStatus.getPaymentStatus in E'. rewrite Ht in E'.
      cbn [negb] in E'. discriminate.
  - rewrite E. cbn [snd].
    set (st1 := with_payments _ st).
    destruct (PollingFacts.poll_cases w' getPaymentIntent paymentIntentId st1)
      as [E1|(row1 & s1 & Hrow1 & Hs1 & Hsame1 & Hnew1 & _)]; [exact E1|].
    exfalso. rewrite Hs in Hs1. injection Hs1 as <-.
    subst st1. cbn [with_payments payments] in Hrow1.
    rewrite PaymentServiceFacts.find_map_pid in Hrow1
      by (intros p; destruct (Nat.eqb (Payment.id p) (Payment.id row));
          reflexivity).
    rewrite Hrow in Hrow1. cbn [option_map] in Hrow1.
    rewrite Nat.eqb_refl in Hrow1. injection Hrow1 as <-.
    cbn [PaymentService.apply_updates Payment.status PaymentStatus.only_status
         PaymentService.set_status PaymentService.or_old] in Hnew1.
    replace (PaymentStatus.newStatus
               s (PaymentService.apply_updates
                    (now w) (PaymentStatus.only_status
                               (PaymentStatus.newStatus s row)) row))
      with (PaymentStatus.newStatus s row) in Hnew1 by reflexivity.
    rewrite PollingFacts.Status_eqb_refl in Hnew1. discriminate.
Qed.

(** X6.  What a poll does with an intent the processor reports as
    succeeded, for a row that is not yet completed: a row that carries a
    transaction hash becomes completed, and is given the time of the poll
    as completion time; a row without one becomes, or stays, [processing]
    -- a row marked [failed] by a settlement that did not go through is
    taken back to [processing] -- and is still open to settlement by the
    charge-confirmed event. *)
Theorem polling_a_succeeded_intent
        (w : World) (getPaymentIntent : string -> JS.error + string)
        (paymentIntentId : string) (st : State) (row : Payment.Payment) :
  JS.truthy paymentIntentId = true ->
  PaymentService.getPaymentByPaymentIntentId paymentIntentId (payments st)
  = Some row ->
  getPaymentIntent paymentIntentId = inr "succeeded" ->
  Payment.status row <> Payment.completed ->
  let st' := snd (PaymentStatus.getPaymentStatus w getPaymentIntent
                                                 paymentIntentId st) in
  exists row',
    PaymentService.getPaymentByPaymentIntentId paymentIntentId (payments st')
    = Some row'
    /\ Payment.tx_hash row' = Payment.tx_hash row
    /\ (JS.truthy_opt (Payment.tx_hash row) = true ->
        Payment.status row' = Payment.completed
        /\ Payment.completed_at row' = Some (now w))
    /\ (JS.truthy_opt (Payment.tx_hash row) = false ->
        Payment.status row' = Payment.processing
        /\ WebhookController.already_processed row' = false).
Proof.
  intros Ht Hrow Hs Hnc. cbv zeta.
  unfold PaymentStatus.getPaymentStatus. rewrite Ht, Hrow, Hs. cbn [negb].
  assert (Hname : String.eqb "succeeded"
                             (PaymentStatus.status_name (Payment.status row))
                  = false)
    by (destruct (Payment.status row); reflexivity).
  rewrite Hname. cbn [negb].
  unfold PaymentStatus.newStatus. cbn [String.eqb Ascii.eqb Bool.eqb].
  change (String.eqb "succeeded" "succeeded") with true. cbn iota.
  destruct (JS.truthy_opt (Payment.tx_hash row)) eqn:Eh.
  - assert (Hne : Payment.Status_eqb Payment.completed (Payment.status row) = false)
      by (destruct (Payment.status row); try reflexivity; congruence).
    rewrite Hne. cbn [negb snd with_payments payments].
    unfold PaymentService.updatePayment.
    replace (PaymentService.no_fields
               (PaymentStatus.only_status Payment.completed)) with false
      by reflexivity.
    cbn [snd].
    rewrite PaymentServiceFacts.find_map_pid
      by (intros p; destruct (Nat.eqb (Payment.id p) (Payment.id row));
          reflexivity).
    rewrite Hrow. cbn [option_map]. rewrite Nat.eqb_refl.
    eexists. split; [reflexivity|]. split; [reflexivity|].
    split; [intros _; split; reflexivity | discriminate].
  - destruct (Payment.Status_eqb Payment.processing (Payment.status row)) eqn:Ep;
      cbn [negb snd].
    + apply PollingFacts.Status_eqb_eq in Ep.
      exists row. split; [exact Hrow|]. split; [reflexivity|].
      split; [discriminate|]. intros _. split; [congruence|].
      unfold WebhookController.already_processed. rewrite <- Ep, Eh. reflexivity.
    + cbn [with_payments payments]. unfold PaymentService.updatePayment.
      replace (PaymentService.no_fields
                 (PaymentStatus.only_status Payment.processing)) with false
        by reflexivity.
      cbn [snd].
      rewrite PaymentServiceFacts.find_map_pid
        by (intros p; destruct (Nat.eqb (Payment.id p) (Payment.id row));
            reflexivity).
      rewrite Hrow. cbn [option_map]. rewrite Nat.eqb_refl.
      eexists. split; [reflexivity|]. split; [reflexivity|].
      split; [discriminate|]. intros _. split; [reflexivity|].
      unfold WebhookController.already_processed.
      cbn [PaymentService.apply_updates Payment.status Payment.tx_hash
           PaymentStatus.only_status PaymentService.set_status
           PaymentService.set_tx_hash PaymentService.or_old Payment.override
           Payment.Status_eqb].
      rewrite Eh. reflexivity.
Qed.

(** The charge of alice is paid and not yet settled: polling marks it
    processing. *)
Lemma polling_before_the_transfer_marks_processing :
  exists row',
    PaymentService.getPaymentByPaymentIntentId
      "pi_1"
      (payments (snd (PaymentStatus.getPaymentStatus world Cases.paid "pi_1"
                                                     awaiting_charge)))
    = Some row'
    /\ Payment.status row' = Payment.processing.
Proof.
  destruct (polling_a_succeeded_intent
              world Cases.paid "pi_1" awaiting_charge pending_payment
              eq_refl eq_refl eq_refl) as (row' & Hrow & _ & _ & H).
  - discriminate.
  - exists row'. split; [exact Hrow | apply H; reflexivity].
Defined.

(* ================================================================== *)
(** * The rate service *)
(* ================================================================== *)

Module RateFacts.

Import ExchangeRateService.

(** A number that is neither [NaN] nor at most zero is greater than zero. *)
Lemma valid_rate_is_positive (x : float) :
  invalid_rate x = false -> JS.gt x 0 = true.
Proof.
  unfold invalid_rate, JS.gt, JS.le. intros H.
  apply orb_false_elim in H. destruct H as [Hn H].
  apply orb_false_elim in Hn. destruct Hn as [_ Hn].
  unfold PrimFloat.is_nan in Hn. apply negb_false_iff in Hn.
  rewrite eqb_spec in Hn.
  rewrite leb_spec in H. rewrite ltb_spec.
  change (Prim2SF 0) with (S754_zero false) in *.
  destruct (Prim2SF x) as [[]|[]| |[] m e]; cbn in *; try discriminate;
    try reflexivity.
Qed.

Lemma latest_from_some (rows : list ExchangeRate) (b : ExchangeRate) :
  fold_left (fun best r =>
               match best with
               | None => Some r
               | Some b => if (timestamp b <? timestamp r)%Z then Some r else best
               end) rows (Some b) <> None.
Proof.
  revert b. induction rows as [|r rows IH]; intros b; cbn [fold_left];
    [discriminate|].
  destruct (timestamp b <? timestamp r)%Z; apply IH.
Qed.

Lemma latest_none (rows : list ExchangeRate) : latest rows = None -> rows = [].
Proof.
  destruct rows as [|r rows]; [reflexivity|]. unfold latest. cbn [fold_left].
  intros H. exfalso. exact (latest_from_some _ _ H).
Qed.

Lemma latest_in (rows : list ExchangeRate) (c : ExchangeRate) :
  latest rows = Some c -> In c rows.
Proof.
  unfold latest.
  assert (G : forall best,
             fold_left (fun best r =>
                          match best with
                          | None => Some r
                          | Some b =>
                            if (timestamp b <? timestamp r)%Z then Some r else best
                          end) rows best = Some c ->
             best = Some c \/ In c rows).
  { induction rows as [|r rows IH]; intros best; cbn [fold_left];
      [intros H; left; exact H|].
    intros H. apply IH in H. destruct H as [H|H]; [|right; right; exact H].
    destruct best as [b|].
    - destruct (timestamp b <? timestamp r)%Z.
      + injection H as <-. right; left; reflexivity.
      + left; exact H.
    - injection H as <-. right; left; reflexivity. }
  intros H. destruct (G None H) as [E|E]; [discriminate|exact E].
Qed.

Lemma cached_in_table (now : Z) (from to : string) (table : list ExchangeRate)
      (c : ExchangeRate) :
  getCachedRate now from to table = Some c ->
  In c table /\ fresh_for now from to c = true.
Proof.
  unfold getCachedRate. intros H. apply latest_in in H.
  apply filter_In in H. exact H.
Qed.

End RateFacts.

(** X7.  The rate service never uses a cached rate older than ten minutes:
    the result of [getExchangeRate] is the one it gives on the table
    without the expired rows.  In particular, when there is no fresh rate,
    the price lookup fails and the pair is not the token against the
    dollar, the call throws, whatever expired rates the table holds. *)
Theorem expired_rates_are_never_used
        (fetch : ExchangeRateService.Fetch) (now : Z) (from to : string)
        (table : list ExchangeRateService.ExchangeRate) :
  let fresh r :=
    (now - ExchangeRateService.CACHE_DURATION_MS
     <? ExchangeRateService.timestamp r)%Z in
  fst (ExchangeRateService.getExchangeRate fetch now from to table)
  = fst (ExchangeRateService.getExchangeRate fetch now from to (filter fresh table))
  /\ (forall e,
         filter fresh table = [] ->
         ExchangeRateService.fetch_rate fetch from to = inl e ->
         (String.eqb (JS.toLowerCase from) "usdt"
          && String.eqb (JS.toLowerCase to) "usd")%bool = false ->
         ExchangeRateService.getExchangeRate fetch now from to table
         = (inl (JS.Error ("Failed to get exchange rate for " ++ from
                             ++ ExchangeRateService.arrow ++ to ++ ": "
                             ++ JS.show_message e)), table)).
Proof.
  cbv zeta.
  assert (Hc : forall f t,
             ExchangeRateService.getCachedRate now f t
               (filter (fun r => (now - ExchangeRateService.CACHE_DURATION_MS
                                  <? ExchangeRateService.timestamp r)%Z) table)
             = ExchangeRateService.getCachedRate now f t table).
  { intros f t. unfold ExchangeRateService.getCachedRate. f_equal.
    induction table as [|r table IH]; [reflexivity|]. cbn [filter].
    unfold ExchangeRateService.fresh_for at 2 4.
    destruct (now - ExchangeRateService.CACHE_DURATION_MS
              <? ExchangeRateService.timestamp r)%Z eqn:E.
    - cbn [filter]. unfold ExchangeRateService.fresh_for at 1. rewrite E.
      rewrite IH. reflexivity.
    - rewrite andb_false_r. exact IH. }
  split.
  - unfold ExchangeRateService.getExchangeRate. rewrite Hc.
    destruct (ExchangeRateService.getCachedRate
                now (JS.toLowerCase from) (JS.toLowerCase to) table);
      [reflexivity|].
    destruct (ExchangeRateService.fetch_rate fetch from to); [|reflexivity].
    destruct (String.eqb (JS.toLowerCase from) "usdt"
              && String.eqb (JS.toLowerCase to) "usd")%bool; reflexivity.
  - intros e Hnone Hfetch Hpair.
    unfold ExchangeRateService.getExchangeRate. rewrite <- Hc, Hnone.
    cbn [ExchangeRateService.getCachedRate filter ExchangeRateService.latest
         fold_left].
    rewrite Hfetch, Hpair. reflexivity.
Qed.

(** X8.  The rates the service hands out are positive: when every cached
    rate is greater than zero, a rate returned by [getExchangeRate] is
    greater than zero and so is every rate of the table it leaves; and for
    the token against the dollar, in any letter case, it always returns a
    rate (it does not throw). *)
Theorem rates_are_positive
        (fetch : ExchangeRateService.Fetch) (now : Z) (from to : string)
        (table : list ExchangeRateService.ExchangeRate) :
  let positive r := JS.gt (ExchangeRateService.rate r) 0 = true in
  let run := ExchangeRateService.getExchangeRate fetch now from to table in
  (Forall positive table ->
   Forall positive (snd run)
   /\ forall rate, fst run = inr rate -> JS.gt rate 0 = true)
  /\ (JS.toLowerCase from = "usdt" -> JS.toLowerCase to = "usd" ->
      exists rate, fst run = inr rate).
Proof.
  cbv zeta. unfold ExchangeRateService.getExchangeRate. split.
  - intros Hpos.
    destruct (ExchangeRateService.getCachedRate
                now (JS.toLowerCase from) (JS.toLowerCase to) table)
      as [c|] eqn:Ec.
    + cbn [fst snd]. split; [exact Hpos|]. intros rate [= <-].
      apply RateFacts.cached_in_table in Ec. destruct Ec as [Hin _].
      rewrite Forall_forall in Hpos. exact (Hpos c Hin).
    + destruct (ExchangeRateService.fetch_rate fetch from to) as [e|fetched] eqn:Ef.
      * destruct (String.eqb (JS.toLowerCase from) "usdt"
                  && String.eqb (JS.toLowerCase to) "usd")%bool; cbn [fst snd].
        -- split; [exact Hpos|]. intros rate [= <-]. reflexivity.
        -- split; [exact Hpos|]. discriminate.
      * cbn [fst snd].
        assert (Hf : JS.gt fetched 0 = true).
        { revert Ef. unfold ExchangeRateService.fetch_rate,
            ExchangeRateService.fetchUSDTtoVND, ExchangeRateService.fetchUSDTtoUSD,
            ExchangeRateService.fetchUSDTtoEUR.
          assert (G : forall cur,
                     ExchangeRateService.fetch_price fetch cur = inr fetched ->
                     JS.gt fetched 0 = true).
          { intros cur. unfold ExchangeRateService.fetch_price.
            destruct (fetch (ExchangeRateService.price_url cur)) as [e|r];
              [discriminate|].
            destruct (ExchangeRateService.ok r); cbn [negb]; [|discriminate].
            destruct (ExchangeRateService.tether r) as [e|[x|]];
              try discriminate.
            destruct (ExchangeRateService.invalid_rate x) eqn:Ex; [discriminate|].
            intros [= <-]. exact (RateFacts.valid_rate_is_positive x Ex). }
          destruct (String.eqb (JS.toLowerCase from) "usdt"); [|discriminate].
          destruct (String.eqb (JS.toLowerCase to) "vnd"); [apply G|].
          destruct (String.eqb (JS.toLowerCase to) "usd"); [apply G|].
          destruct (String.eqb (JS.toLowerCase to) "eur"); [apply G|discriminate]. }
        split; [|intros rate [= <-]; exact Hf].
        unfold ExchangeRateService.saveRate. apply Forall_app. split; [exact Hpos|].
        constructor; [exact Hf|constructor].
  - intros Hfrom Hto. rewrite Hfrom, Hto.
    destruct (ExchangeRateService.getCachedRate now "usdt" "usd" table);
      [eexists; reflexivity|].
    destruct (ExchangeRateService.fetch_rate fetch from to);
      cbn; eexists; reflexivity.
Qed.

(** X9.  A fetched rate is served from the cache for ten minutes: when no
    fresh rate is cached and the price lookup succeeds, the rate is saved,
    and every call for the same pair (in any letter case) less than ten
    minutes later returns that rate without consulting the price service
    and without writing to the table. *)
Theorem a_fetched_rate_is_cached_for_ten_minutes
        (fetch fetch' : ExchangeRateService.Fetch) (now later : Z)
        (from to from' to' : string)
        (table : list ExchangeRateService.ExchangeRate) (fetched : float) :
  ExchangeRateService.getCachedRate now (JS.toLowerCase from) (JS.toLowerCase to)
                                    table = None ->
  ExchangeRateService.fetch_rate fetch from to = inr fetched ->
  JS.toLowerCase from' = JS.toLowerCase from ->
  JS.toLowerCase to' = JS.toLowerCase to ->
  (now <= later < now + ExchangeRateService.CACHE_DURATION_MS)%Z ->
  let first := ExchangeRateService.getExchangeRate fetch now from to table in
  fst first = inr fetched
  /\ ExchangeRateService.getExchangeRate fetch' later from' to' (snd first)
     = (inr fetched, snd first).
Proof.
  intros Hnone Hfetch Hfrom Hto Htime. cbv zeta.
  assert (Hfirst : ExchangeRateService.getExchangeRate fetch now from to table
                   = (inr fetched,
                      ExchangeRateService.saveRate
                        now (JS.toLowerCase from) (JS.toLowerCase to) fetched
                        "coingecko" table)).
  { unfold ExchangeRateService.getExchangeRate. rewrite Hnone, Hfetch.
    reflexivity. }
  rewrite Hfirst. cbn [fst snd]. split; [reflexivity|].
  unfold ExchangeRateService.getExchangeRate. rewrite Hfrom, Hto.
  set (saved := ExchangeRateService.saveRate _ _ _ _ _ _).
  assert (Hc : ExchangeRateService.getCachedRate
                 later (JS.toLowerCase from) (JS.toLowerCase to) saved
               = Some (ExchangeRateService.mkExchangeRate
                         (JS.toLowerCase (JS.toLowerCase from))
                         (JS.toLowerCase (JS.toLowerCase to))
                         fetched "coingecko" now)).
  { subst saved. unfold ExchangeRateService.getCachedRate,
      ExchangeRateService.saveRate.
    rewrite filter_app.
    assert (Hold : filter (ExchangeRateService.fresh_for
                             later (JS.toLowerCase from) (JS.toLowerCase to))
                          table = []).
    { clear Hfirst. apply RateFacts.latest_none in Hnone.
      induction table as [|r table IH]; [reflexivity|].
      cbn [filter] in Hnone |- *.
      destruct (ExchangeRateService.fresh_for
                  now (JS.toLowerCase from) (JS.toLowerCase to) r) eqn:E;
        [discriminate|].
      rewrite (IH Hnone).
      unfold ExchangeRateService.fresh_for in E |- *.
      destruct (String.eqb (ExchangeRateService.from_currency r)
                           (JS.toLowerCase (JS.toLowerCase from))
                && String.eqb (ExchangeRateService.to_currency r)
                              (JS.toLowerCase (JS.toLowerCase to)))%bool;
        [|reflexivity].
      cbn [andb] in E |- *. apply Z.ltb_ge in E.
      replace (later - ExchangeRateService.CACHE_DURATION_MS
               <? ExchangeRateService.timestamp r)%Z with false; [reflexivity|].
      symmetry. apply Z.ltb_ge. lia. }
    rewrite Hold. cbn [app filter].
    unfold ExchangeRateService.fresh_for.
    cbn [ExchangeRateService.from_currency ExchangeRateService.to_currency
         ExchangeRateService.timestamp].
    rewrite !TextFacts.lower_idempotent, !String.eqb_refl. cbn [andb].
    replace (later - ExchangeRateService.CACHE_DURATION_MS <? now)%Z with true;
      [reflexivity|].
    symmetry. apply Z.ltb_lt. lia. }
  rewrite Hc. reflexivity.
Qed.

(** A rate fetched at noon is served one millisecond before ten past, with
    the price service down. *)
Lemma a_fetched_rate_is_served_while_the_service_is_down :
  fst (ExchangeRateService.getExchangeRate
         Cases.price_service_down 1714558199999 "usdt" "vnd"
         (snd (ExchangeRateService.getExchangeRate
                 (Cases.price_service 25000) 1714557600000 "USDT" "VND" [])))
  = inr 25000%float.
Proof.
  destruct (a_fetched_rate_is_cached_for_ten_minutes
              (Cases.price_service 25000) Cases.price_service_down
              1714557600000 1714558199999 "USDT" "VND" "usdt" "vnd" [] 25000
              eq_refl eq_refl eq_refl eq_refl) as [_ H].
  - unfold ExchangeRateService.CACHE_DURATION_MS. lia.
  - rewrite H. reflexivity.
Defined.

(* ================================================================== *)
(** * The employee registry *)
(* ================================================================== *)

Module EmployeeFacts.

Import EmployeeService.

Lemma find_address_app (a : string) (table more : list Employee) :
  getEmployeeByAddress a (table ++ more)
  = match getEmployeeByAddress a table with
    | Some e => Some e
    | None => getEmployeeByAddress a more
    end.
Proof.
  unfold getEmployeeByAddress.
  induction table as [|e table IH]; [reflexivity|]. cbn [app find].
  destruct (String.eqb (wallet_address e) (JS.toLowerCase a));
    [reflexivity|exact IH].
Qed.

Lemma find_address_none (a : string) (table : list Employee) :
  getEmployeeByAddress a table = None ->
  ~ In (JS.toLowerCase a) (map wallet_address table).
Proof.
  unfold getEmployeeByAddress.
  induction table as [|e table IH]; cbn [find map In]; [tauto|].
  destruct (String.eqb (wallet_address e) (JS.toLowerCase a)) eqn:E;
    [discriminate|].
  intros H [Hp|Hin]; [|exact (IH H Hin)].
  apply String.eqb_neq in E. congruence.
Qed.

Lemma find_address_filter (a b : string) (table : list Employee) :
  getEmployeeByAddress
    b (filter (fun e => negb (String.eqb (wallet_address e) (JS.toLowerCase a)))
              table)
  = if String.eqb (JS.toLowerCase b) (JS.toLowerCase a) then None
    else getEmployeeByAddress b table.
Proof.
  unfold getEmployeeByAddress.
  induction table as [|e table IH].
  - cbn. destruct (String.eqb (JS.toLowerCase b) (JS.toLowerCase a)); reflexivity.
  - cbn [filter find].
    destruct (String.eqb (wallet_address e) (JS.toLowerCase a)) eqn:Ea;
      cbn [negb].
    + rewrite IH.
      destruct (String.eqb (JS.toLowerCase b) (JS.toLowerCase a)) eqn:Eb;
        [reflexivity|].
      destruct (String.eqb (wallet_address e) (JS.toLowerCase b)) eqn:Ee;
        [|reflexivity].
      apply String.eqb_eq in Ea. apply String.eqb_eq in Ee.
      apply String.eqb_neq in Eb. congruence.
    + cbn [find].
      destruct (String.eqb (wallet_address e) (JS.toLowerCase b)) eqn:Ee.
      * destruct (String.eqb (JS.toLowerCase b) (JS.toLowerCase a)) eqn:Eb;
          [|reflexivity].
        apply String.eqb_eq in Eb. apply String.eqb_eq in Ee.
        apply String.eqb_neq in Ea. congruence.
      * exact IH.
Qed.

End EmployeeFacts.

(** X10.  Registration is keyed by the wallet address without regard to
    letter case.  For a valid address that is not registered,
    [registerEmployee] answers 201 and appends one row holding the address
    in lower case; from then on the employee is found under the address in
    any letter case, and a second registration of that address, in any
    letter case, is refused with 400 and leaves the table alone. *)
Theorem registration_is_keyed_by_the_lowered_address
        (w : World) (isSQLite : bool) (fresh : nat)
        (d : EmployeeService.EmployeeData)
        (table : list EmployeeService.Employee) :
  JS.truthy (EmployeeService.data_wallet_address d) = true ->
  isAddress w (EmployeeService.data_wallet_address d) = true ->
  EmployeeService.getEmployeeByAddress (EmployeeService.data_wallet_address d)
                                       table = None ->
  let run := EmployeeController.registerEmployee w isSQLite fresh d table in
  let row := EmployeeService.inserted (now w) fresh d in
  EmployeeController.status (fst run) = 201
  /\ snd run = (table ++ [row])%list
  /\ (forall address,
         JS.toLowerCase address
         = JS.toLowerCase (EmployeeService.data_wallet_address d) ->
         EmployeeService.getEmployeeByAddress address (snd run) = Some row)
  /\ (forall w' isSQLite' fresh' d',
         JS.truthy (EmployeeService.data_wallet_address d') = true ->
         isAddress w' (EmployeeService.data_wallet_address d') = true ->
         JS.toLowerCase (EmployeeService.data_wallet_address d')
         = JS.toLowerCase (EmployeeService.data_wallet_address d) ->
         EmployeeController.registerEmployee w' isSQLite' fresh' d' (snd run)
         = (EmployeeController.mkResponse
              400 (EmployeeController.error "Employee already exists"),
            snd run)).
Proof.
  intros Ht Hv Hnew. cbv zeta.
  assert (Hrun : EmployeeController.registerEmployee w isSQLite fresh d table
                 = (EmployeeController.mkResponse
                      201 (EmployeeController.employee
                             (if isSQLite
                              then EmployeeService.echoed (now w) fresh d
                              else EmployeeService.inserted (now w) fresh d)),
                    (table ++ [EmployeeService.inserted (now w) fresh d])%list)).
  { unfold EmployeeController.registerEmployee, Blockchain.isValidAddress.
    rewrite Ht, Hv, Hnew. cbn [negb orb].
    unfold EmployeeService.createEmployee. rewrite Hnew. reflexivity. }
  rewrite Hrun. cbn [fst snd EmployeeController.status].
  assert (Hfound : forall address,
             JS.toLowerCase address
             = JS.toLowerCase (EmployeeService.data_wallet_address d) ->
             EmployeeService.getEmployeeByAddress
               address (table ++ [EmployeeService.inserted (now w) fresh d])
             = Some (EmployeeService.inserted (now w) fresh d)).
  { intros address Ha. rewrite EmployeeFacts.find_address_app.
    unfold EmployeeService.getEmployeeByAddress in Hnew |- *.
    rewrite Ha, Hnew. cbn [find EmployeeService.inserted
                             EmployeeService.wallet_address].
    rewrite String.eqb_refl. reflexivity. }
  split; [reflexivity|]. split; [reflexivity|]. split; [exact Hfound|].
  intros w' isSQLite' fresh' d' Ht' Hv' Hsame.
  unfold EmployeeController.registerEmployee, Blockchain.isValidAddress.
  rewrite Ht', Hv', (Hfound _ Hsame). reflexivity.
Qed.

(** Alice registers, and is found under her address in upper case. *)
Lemma alice_is_found_in_upper_case :
  EmployeeService.getEmployeeByAddress
    (JS.toUpperCase alice)
    (snd (EmployeeController.registerEmployee world false 1 Cases.alice_data []))
  = Some (EmployeeService.inserted (now world) 1 Cases.alice_data).
Proof.
  destruct (registration_is_keyed_by_the_lowered_address
              world false 1 Cases.alice_data [] eq_refl eq_refl eq_refl)
    as (_ & _ & H & _).
  apply H. reflexivity.
Defined.

(** X11.  Deletion removes the employee under every letter case of the
    address and nobody else: after [deleteEmployeeInfo] for a valid
    address, no employee is found under an address that lowers to the same
    string, every other lookup answers as before, and the response is 200
    exactly when a row was there to delete (404 otherwise, the table
    unchanged). *)
Theorem deletion_removes_the_employee_and_nobody_else
        (w : World) (address : string) (table : list EmployeeService.Employee) :
  JS.truthy address = true ->
  isAddress w address = true ->
  let run := EmployeeController.deleteEmployeeInfo w address table in
  (forall other,
      EmployeeService.getEmployeeByAddress other (snd run)
      = if String.eqb (JS.toLowerCase other) (JS.toLowerCase address) then None
        else EmployeeService.getEmployeeByAddress other table)
  /\ (EmployeeService.getEmployeeByAddress address table <> None ->
      EmployeeController.status (fst run) = 200)
  /\ (EmployeeService.getEmployeeByAddress address table = None ->
      fst run = EmployeeController.mkResponse
                  404 (EmployeeController.error "Employee not found")
      /\ snd run = table).
Proof.
  intros Ht Hv. cbv zeta.
  unfold EmployeeController.deleteEmployeeInfo, Blockchain.isValidAddress.
  rewrite Ht, Hv. cbn [negb orb]. unfold EmployeeService.deleteEmployee.
  assert (Hex : existsb (fun e => String.eqb (EmployeeService.wallet_address e)
                                             (JS.toLowerCase address)) table
                = match EmployeeService.getEmployeeByAddress address table with
                  | Some _ => true
                  | None => false
                  end).
  { unfold EmployeeService.getEmployeeByAddress.
    induction table as [|e table IH]; [reflexivity|]. cbn [existsb find].
    destruct (String.eqb (EmployeeService.wallet_address e)
                         (JS.toLowerCase address)); [reflexivity|exact IH]. }
  rewrite Hex.
  destruct (EmployeeService.getEmployeeByAddress address table) as [e|] eqn:E;
    cbn [fst snd EmployeeController.status].
  - split; [intros other; apply EmployeeFacts.find_address_filter|].
    split; [reflexivity|discriminate].
  - assert (Hsame : filter (fun e => negb (String.eqb
                                             (EmployeeService.wallet_address e)
                                             (JS.toLowerCase address))) table
                    = table).
    { clear Hex. unfold EmployeeService.getEmployeeByAddress in E.
      induction table as [|e table IH]; [reflexivity|].
      cbn [find filter] in E |- *.
      destruct (String.eqb (EmployeeService.wallet_address e)
                           (JS.toLowerCase address)); [discriminate|].
      cbn [negb]. rewrite (IH E). reflexivity. }
    split; [intros other; apply EmployeeFacts.find_address_filter|].
    split; [congruence|]. intros _. split; [reflexivity|exact Hsame].
Qed.

(** Alice is deleted under her address in upper case; bob stays. *)
Lemma deleting_alice_keeps_bob :
  EmployeeService.getEmployeeByAddress
    alice
    (snd (EmployeeController.deleteEmployeeInfo world (JS.toUpperCase alice)
                                                Cases.registry))
  = None
  /\ EmployeeService.getEmployeeByAddress
       bob
       (snd (EmployeeController.deleteEmployeeInfo world (JS.toUpperCase alice)
                                                   Cases.registry))
     = EmployeeService.getEmployeeByAddress bob Cases.registry.
Proof.
  destruct (deletion_removes_the_employee_and_nobody_else
              world (JS.toUpperCase alice) Cases.registry eq_refl eq_refl)
    as (H & _ & _).
  split; [exact (H alice) | exact (H bob)].
Defined.

(** X12.  The registry keeps the wallet addresses distinct and never
    rewrites one: when the addresses of the table are pairwise distinct,
    they are so after a registration, an update and a deletion; and an
    update changes neither the addresses nor the ids of the rows, nor their
    number. *)
Theorem the_registry_keeps_addresses_distinct
        (w : World) (isSQLite : bool) (fresh : nat)
        (d : EmployeeService.EmployeeData) (address : string)
        (u : EmployeeService.Updates) (table : list EmployeeService.Employee) :
  let addresses t := map EmployeeService.wallet_address t in
  let registered := snd (EmployeeController.registerEmployee w isSQLite fresh d table) in
  let updated := snd (EmployeeController.updateEmployeeInfo w address u table) in
  let removed := snd (EmployeeController.deleteEmployeeInfo w address table) in
  (NoDup (addresses table) ->
   NoDup (addresses registered) /\ NoDup (addresses updated)
   /\ NoDup (addresses removed))
  /\ addresses updated = addresses table
  /\ map EmployeeService.id updated = map EmployeeService.id table.
Proof.
  cbv zeta.
  assert (Hupd : snd (EmployeeController.updateEmployeeInfo w address u table)
                 = table
                 \/ snd (EmployeeController.updateEmployeeInfo w address u table)
                    = map (fun e => if String.eqb (EmployeeService.wallet_address e)
                                                  (JS.toLowerCase address)
                                    then EmployeeService.apply_updates (now w) u e
                                    else e) table).
  { unfold EmployeeController.updateEmployeeInfo.
    destruct (negb (JS.truthy address)
              || negb (Blockchain.isValidAddress w address))%bool;
      [left; reflexivity|].
    unfold EmployeeService.updateEmployee.
    destruct (EmployeeService.no_fields u).
    - left. destruct (EmployeeService.getEmployeeByAddress address table);
        reflexivity.
    - right.
      destruct (EmployeeService.getEmployeeByAddress
                  address
                  (map (fun e => if String.eqb (EmployeeService.wallet_address e)
                                               (JS.toLowerCase address)
                                 then EmployeeService.apply_updates (now w) u e
                                 else e) table)); reflexivity. }
  assert (Hkeys : map EmployeeService.wallet_address
                      (snd (EmployeeController.updateEmployeeInfo w address u table))
                  = map EmployeeService.wallet_address table
                  /\ map EmployeeService.id
                         (snd (EmployeeController.updateEmployeeInfo w address u table))
                     = map EmployeeService.id table).
  { destruct Hupd as [->| ->]; [split; reflexivity|].
    rewrite !map_map. split; apply map_ext; intros e;
      destruct (String.eqb (EmployeeService.wallet_address e)
                           (JS.toLowerCase address)); reflexivity. }
  split; [|exact Hkeys]. intros Hnd. split; [|split].
  - unfold EmployeeController.registerEmployee.
    destruct (negb (JS.truthy (EmployeeService.data_wallet_address d))
              || negb (Blockchain.isValidAddress
                         w (EmployeeService.data_wallet_address d)))%bool;
      [exact Hnd|].
    destruct (EmployeeService.getEmployeeByAddress
                (EmployeeService.data_wallet_address d) table) as [e|] eqn:E;
      [exact Hnd|].
    unfold EmployeeService.createEmployee. rewrite E. cbn [snd].
    rewrite map_app. apply NoDup_app; [exact Hnd|repeat constructor; intros []|].
    intros x Hin [<-|[]].
    exact (EmployeeFacts.find_address_none _ _ E Hin).
  - destruct Hkeys as [-> _]. exact Hnd.
  - unfold EmployeeController.deleteEmployeeInfo.
    destruct (negb (JS.truthy address)
              || negb (Blockchain.isValidAddress w address))%bool; [exact Hnd|].
    unfold EmployeeService.deleteEmployee.
    assert (Hf : NoDup (map EmployeeService.wallet_address
                            (filter (fun e => negb (String.eqb
                                                      (EmployeeService.wallet_address e)
                                                      (JS.toLowerCase address)))
                                    table))).
    { clear Hupd Hkeys. induction table as [|e table IH]; [constructor|].
      cbn [map] in Hnd. inversion Hnd as [|? ? Hnotin Hnd']; subst.
      cbn [filter].
      destruct (negb (String.eqb (EmployeeService.wallet_address e)
                                 (JS.toLowerCase address))); [|exact (IH Hnd')].
      cbn [map]. constructor; [|exact (IH Hnd')].
      intros Hin. apply Hnotin. apply in_map_iff in Hin.
      destruct Hin as (e' & He' & Hin'). apply filter_In in Hin'.
      apply in_map_iff. exists e'. tauto. }
    destruct (existsb _ table); exact Hf.
Qed.

(* ================================================================== *)
(** * Preparation of a payroll batch *)
(* ================================================================== *)

Module PrepareFacts.

Import PayrollPreparation Batches.

Lemma positive_amount (x : float) :
  JS.le x 0 = false -> PrimFloat.is_nan x = false -> JS.gt x 0 = true.
Proof.
  unfold JS.gt, JS.le, PrimFloat.is_nan. intros H Hn.
  apply negb_false_iff in Hn. rewrite eqb_spec in Hn.
  rewrite leb_spec in H. rewrite ltb_spec.
  change (Prim2SF 0) with (S754_zero false) in *.
  destruct (Prim2SF x) as [[]|[]| |[] m e]; cbn in *; try discriminate;
    try reflexivity.
Qed.

Lemma validate_accepts (w : World) (env : Env) (decimals : nat)
      (employer_address : string) (employees : list Employee) :
  forall seen total validated total' validated',
    validate w env decimals employer_address employees seen total validated
    = inr (total', validated') ->
    Forall (acceptable w employer_address) employees
    /\ (forall emp, In emp employees -> ~ In (lowered emp) seen)
    /\ NoDup (map lowered employees)
    /\ validated' = (validated ++ map (entry_of employer_address) employees)%list
    /\ exists sum,
        total_of env decimals employees = Some sum /\ total' = (total + sum)%N.
Proof.
  induction employees as [|emp rest IH]; intros seen total validated total' validated'.
  - cbn [validate]. intros [= <- <-].
    repeat split; try constructor; try (intros ? []).
    + rewrite app_nil_r. reflexivity.
    + exists 0%N. split; [reflexivity|]. rewrite N.add_0_r. reflexivity.
  - cbn [validate]. unfold Blockchain.isValidAddress.
    destruct (JS.truthy (address emp)) eqn:Ht; cbn [negb orb]; [|discriminate].
    destruct (isAddress w (address emp)) eqn:Hv; cbn [negb]; [|discriminate].
    destruct (PayrollController.set_has (JS.toLowerCase (address emp)) seen)
      eqn:Hseen; [discriminate|].
    destruct (String.eqb (JS.toLowerCase (address emp))
                         (JS.toLowerCase employer_address)) eqn:He;
      [discriminate|].
    destruct (JS.truthy (amount emp)) eqn:Ha; cbn [negb orb]; [|discriminate].
    destruct (JS.le (JS.parseFloat (amount emp)) 0) eqn:Hle; [discriminate|].
    destruct (PrimFloat.is_nan (JS.parseFloat (amount emp))) eqn:Hn;
      [discriminate|].
    destruct (parseUnits env (amount emp) decimals) as [e|wei] eqn:Hp;
      [discriminate|].
    intros H. apply IH in H.
    destruct H as (Hacc & Hnew & Hnd & Hval & sum & Hsum & Htot).
    assert (Hnotseen : ~ In (lowered emp) seen).
    { intros Hin. apply PayrollFacts.set_has_In in Hin.
      unfold lowered in Hin. congruence. }
    split; [|split; [|split; [|split]]].
    + constructor; [|exact Hacc].
      repeat split; try assumption.
      * apply String.eqb_neq. exact He.
      * apply positive_amount; assumption.
    + intros emp' [<-|Hin]; [exact Hnotseen|].
      intros Hs. apply (Hnew emp' Hin).
      apply PayrollFacts.set_add_spec. right. exact Hs.
    + cbn [map]. constructor; [|exact Hnd].
      intros Hin. apply in_map_iff in Hin. destruct Hin as (emp' & Heq & Hin).
      apply (Hnew emp' Hin). apply PayrollFacts.set_add_spec. left.
      exact Heq.
    + rewrite Hval, <- app_assoc. reflexivity.
    + exists (wei + sum)%N. cbn [total_of]. rewrite Hp, Hsum.
      split; [reflexivity|]. rewrite Htot. lia.
Qed.

Lemma rows_of_length (payrollId : string) (entries : list Entry) :
  forall fresh, List.length (rows_of payrollId fresh entries) = List.length entries.
Proof.
  induction entries as [|e entries IH]; intros fresh; [reflexivity|].
  cbn [rows_of List.length]. rewrite IH. reflexivity.
Qed.


Lemma entries_back (employer_address : string) (employees : list Employee) :
  map (fun entry => mkEmployee (entry_employee_address entry)
                               (entry_amount_usdt entry))
      (map (entry_of employer_address) employees)
  = employees.
Proof.
  rewrite map_map. rewrite <- (map_id employees) at 2. apply map_ext.
  intros []; reflexivity.
Qed.

(** The three ways a request ends. *)
Lemma prepare_cases (w : World) (env : Env) (req : Request) (st : State) :
  let run := preparePayroll w env req st in
  (status (fst run) <> 200 /\ snd run = st)
  \/ exists decimals total,
      isAddress w (employer_address req) = true
      /\ JS.truthy (employer_address req) = true
      /\ employees req <> []
      /\ Sys.decimals w = inr decimals
      /\ validate w env decimals (employer_address req) (employees req) [] 0%N []
         = inr (total, map (entry_of (employer_address req)) (employees req))
      /\ total_of env decimals (employees req) = Some total
      /\ run
         = (mkResponse 200
              (prepared (generatePayrollId env) (formatUnits w total decimals)
                        (List.length (employees req)) (employees req)),
            snd (createPayrolls env (map (entry_of (employer_address req))
                                         (employees req)) st)).
Proof.
  cbv zeta. unfold preparePayroll, Blockchain.isValidAddress.
  destruct (JS.truthy (employer_address req)) eqn:Ht; cbn [negb orb];
    [|left; split; [discriminate|reflexivity]].
  destruct (isAddress w (employer_address req)) eqn:Hv; cbn [negb];
    [|left; split; [discriminate|reflexivity]].
  destruct (employees req) as [|emp rest] eqn:Hemps;
    [left; split; [discriminate|reflexivity]|].
  destruct (Sys.decimals w) as [e|decimals] eqn:Hd;
    [left; split; [discriminate|reflexivity]|].
  destruct (validate w env decimals (employer_address req) (emp :: rest) [] 0%N [])
    as [response|[total validated]] eqn:Hval.
  - left. cbn [fst snd]. split; [|reflexivity].
    clear Hemps. revert Hval. generalize (@nil string) 0%N (@nil Entry).
    generalize (emp :: rest). intros emps.
    induction emps as [|emp' emps IH]; intros seen tot val; cbn [validate];
      [discriminate|].
    destruct (negb (JS.truthy (address emp'))
              || negb (Blockchain.isValidAddress w (address emp')))%bool;
      [intros [= <-]; discriminate|].
    destruct (PayrollController.set_has _ seen); [intros [= <-]; discriminate|].
    destruct (String.eqb _ _); [intros [= <-]; discriminate|].
    destruct (negb (JS.truthy (amount emp'))
              || JS.le (JS.parseFloat (amount emp')) 0)%bool;
      [intros [= <-]; discriminate|].
    destruct (PrimFloat.is_nan _); [intros [= <-]; discriminate|].
    destruct (parseUnits env (amount emp') decimals);
      [intros [= <-]; discriminate|].
    apply IH.
  - destruct (validate_accepts _ _ _ _ _ _ _ _ _ _ Hval)
      as (_ & _ & _ & Hvalidated & sum & Hsum & Htot).
    cbn [app] in Hvalidated. rewrite N.add_0_l in Htot. subst total validated.
    destruct (check_balance w (employer_address req) sum decimals)
      as [response|] eqn:Hb.
    + left. cbn [fst snd]. split; [|reflexivity].
      revert Hb. unfold check_balance.
      destruct (Blockchain.getUSDTBalance w (employer_address req));
        [discriminate|].
      destruct (JS.lt _ _); [intros [= <-]; discriminate|discriminate].
    + right. exists decimals, sum.
      split; [reflexivity|]. split; [reflexivity|]. split; [discriminate|].
      split; [reflexivity|]. split; [exact Hval|]. split; [exact Hsum|].
      unfold createPayrolls. cbn [negb JS.truthy generatePayrollId append].
      rewrite entries_back, length_map. reflexivity.
Qed.

End PrepareFacts.

(** X13.  A payroll batch is created only from a well-formed request: when
    [preparePayroll] answers 200, the employer address is valid, there is
    at least one employee, the employee addresses are valid, pairwise
    distinct without regard to letter case and different from the
    employer's, and every amount is a number greater than zero; and when it
    answers anything else, the state is unchanged (no row is created). *)
Theorem a_batch_is_prepared_only_from_a_well_formed_request
        (w : World) (env : PayrollPreparation.Env)
        (req : PayrollPreparation.Request) (st : State) :
  let run := PayrollPreparation.preparePayroll w env req st in
  (PayrollPreparation.status (fst run) = 200 ->
   isAddress w (PayrollPreparation.employer_address req) = true
   /\ PayrollPreparation.employees req <> []
   /\ NoDup (map Batches.lowered (PayrollPreparation.employees req))
   /\ Forall (Batches.acceptable w (PayrollPreparation.employer_address req))
             (PayrollPreparation.employees req))
  /\ (PayrollPreparation.status (fst run) <> 200 -> snd run = st).
Proof.
  cbv zeta.
  destruct (PrepareFacts.prepare_cases w env req st)
    as [[Hs Hst]|(decimals & total & Hv & _ & Hne & _ & Hval & _ & Hrun)].
  - split; [intros H; contradiction|intros _; exact Hst].
  - split.
    + intros _.
      destruct (PrepareFacts.validate_accepts _ _ _ _ _ _ _ _ _ _ Hval)
        as (Hacc & _ & Hnd & _).
      repeat split; assumption.
    + rewrite Hrun. cbn [fst PayrollPreparation.status]. intros H.
      contradiction.
Qed.

(** X14.  What a successful preparation writes: one pending row per
    employee, in the order of the request, all with the generated batch
    identifier and without transaction hash, holding the addresses in
    lower case (nothing is said of the amount column, whose content is the
    database's rendering of the amount written); the rows that were there
    are kept, and no other table and no external call that moves value is
    involved.  The response echoes the employees and carries the sum of
    their amounts. *)
Theorem a_prepared_batch_is_one_pending_row_per_employee
        (w : World) (env : PayrollPreparation.Env)
        (req : PayrollPreparation.Request) (st : State) :
  let run := PayrollPreparation.preparePayroll w env req st in
  let payrollId := PayrollPreparation.generatePayrollId env in
  PayrollPreparation.status (fst run) = 200 ->
  (exists decimals total,
      Sys.decimals w = inr decimals
      /\ Batches.total_of env decimals (PayrollPreparation.employees req)
         = Some total
      /\ fst run
         = PayrollPreparation.mkResponse
             200 (PayrollPreparation.prepared
                    payrollId (formatUnits w total decimals)
                    (List.length (PayrollPreparation.employees req))
                    (PayrollPreparation.employees req)))
  /\ (exists rows,
         payrolls (snd run) = (payrolls st ++ rows)%list
         /\ map Payroll.employee_address rows
            = map Batches.lowered (PayrollPreparation.employees req)
         /\ Forall (fun p =>
                      Payroll.payroll_id p = payrollId
                      /\ Payroll.status p = Payroll.pending
                      /\ Payroll.tx_hash p = None
                      /\ Payroll.employer_address p
                         = JS.toLowerCase (PayrollPreparation.employer_address req))
                   rows)
  /\ payments (snd run) = payments st
  /\ cashouts (snd run) = cashouts st
  /\ log (snd run) = log st.
Proof.
  cbv zeta. intros H200.
  destruct (PrepareFacts.prepare_cases w env req st)
    as [[Hs _]|(decimals & total & _ & _ & _ & Hd & _ & Htot & Hrun)];
    [contradiction|].
  rewrite Hrun. cbn [fst snd PayrollPreparation.createPayrolls payrolls payments
                     cashouts log].
  split; [exists decimals, total; repeat split; assumption|].
  split; [|repeat split; reflexivity].
  eexists. split; [reflexivity|].
  generalize (next_id st). generalize (PayrollPreparation.employees req).
  intros emps. induction emps as [|emp emps IH]; intros fresh.
  - repeat split; constructor.
  - cbn [map PayrollPreparation.rows_of]. destruct (IH (S fresh)) as (H1 & H3).
    split.
    + cbn [Payroll.employee_address Batches.entry_of
           PayrollPreparation.entry_employee_address]. rewrite H1. reflexivity.
    + constructor; [repeat split|exact H3].
Qed.

(** The batch of the office: two pending rows, for alice and bob. *)
Lemma the_batch_of_the_office_has_two_rows :
  exists rows,
    payrolls (snd (PayrollPreparation.preparePayroll world Cases.office
                                                     Cases.staff empty))
    = ([] ++ rows)%list
    /\ map Payroll.employee_address rows
       = [JS.toLowerCase alice; JS.toLowerCase bob]
    /\ Forall (fun p => Payroll.status p = Payroll.pending) rows.
Proof.
  destruct (a_prepared_batch_is_one_pending_row_per_employee
              world Cases.office Cases.staff empty eq_refl)
    as (_ & (rows & H1 & H2 & H3) & _).
  exists rows. split; [exact H1|]. split; [exact H2|].
  revert H3. apply Forall_impl. intros p (_ & Hp & _). exact Hp.
Defined.

(* ================================================================== *)
(** * Execution of a payroll batch: the other paths *)
(* ================================================================== *)

Module ExecuteFacts.

Import PayrollController.

(** The table after [executePayroll]: as it was, or every row of the batch
    updated in the same way. *)
Lemma executePayroll_tables (w : World) (req : Request) (st : State) :
  let st' := snd (executePayroll w req st) in
  payments st' = payments st
  /\ cashouts st' = cashouts st
  /\ (log st' = log st \/ log st' = (log st ++ [ChainLookup (txHash req)])%list)
  /\ (payrolls st' = payrolls st
      \/ exists status blockNumber,
          payrolls st'
          = map (in_batch (payrollId req) (mark status (txHash req) blockNumber))
                (payrolls st)).
Proof.
  cbv zeta. unfold executePayroll.
  destruct (JS.truthy (payrollId req)); cbn [negb];
    [|repeat split; left; reflexivity].
  destruct (JS.truthy (txHash req)); cbn [negb];
    [|repeat split; left; reflexivity].
  destruct (Payroll.getPayrollsByPayrollId (payrollId req) (payrolls st))
    as [|first rest] eqn:Hb; [repeat split; left; reflexivity|].
  assert (Hids : forall p, In p (first :: rest) ->
                           Payroll.payroll_id p = payrollId req)
    by (intros p Hp; rewrite <- Hb in Hp; exact (PayrollFacts.batch_ids _ _ _ Hp)).
  assert (Hne : first :: rest <> []) by discriminate.
  destruct (Blockchain.verifyPayrollTransaction w (txHash req)
                                                (Payroll.employer_address first))
    as [e|[transfers verifiedBlockNumber]].
  - cbn [snd with_payrolls emit payments cashouts log payrolls].
    repeat split; [right; reflexivity|].
    right. exists Payroll.failed, (blockNumber req).
    exact (PayrollFacts.update_all_batch _ _ _ _ _ Hids Hne _).
  - destruct (reconcile (expected_of (first :: rest)) transfers [])
      as [[t a]|received];
      [cbn; repeat split; [right; reflexivity|left; reflexivity]|].
    destruct (negb (Nat.eqb (List.length received)
                            (List.length (expected_of (first :: rest)))));
      [cbn; repeat split; [right; reflexivity|left; reflexivity]|].
    cbn [snd with_payrolls emit payments cashouts log payrolls].
    repeat split; [right; reflexivity|].
    right. exists Payroll.completed, (Some verifiedBlockNumber).
    exact (PayrollFacts.update_all_batch _ _ _ _ _ Hids Hne _).
Qed.

Lemma filter_other_batches (payrollId : string) (u : Payroll.Updates)
      (rows : list Payroll.Payroll) :
  filter (fun p => negb (String.eqb (Payroll.payroll_id p) payrollId))
         (map (in_batch payrollId u) rows)
  = filter (fun p => negb (String.eqb (Payroll.payroll_id p) payrollId)) rows.
Proof.
  induction rows as [|p rows IH]; [reflexivity|]. cbn [map filter].
  unfold in_batch at 1 2.
  destruct (String.eqb (Payroll.payroll_id p) payrollId) eqn:E.
  - cbn [Payroll.apply_updates Payroll.payroll_id]. rewrite E. cbn [negb].
    exact IH.
  - rewrite E. cbn [negb]. rewrite IH. reflexivity.
Qed.

End ExecuteFacts.

(** X15.  [executePayroll] touches one batch only: whatever the request and
    the outcome, the rows of the other batches are as they were, the
    payment and cashout tables are unchanged, and the only external call
    recorded is the chain lookup of the submitted transaction. *)
Theorem executePayroll_touches_one_batch_only
        (w : World) (req : PayrollController.Request) (st : State) :
  let st' := snd (PayrollController.executePayroll w req st) in
  let others rows :=
    filter (fun p => negb (String.eqb (Payroll.payroll_id p)
                                      (PayrollController.payrollId req))) rows in
  others (payrolls st') = others (payrolls st)
  /\ List.length (payrolls st') = List.length (payrolls st)
  /\ payments st' = payments st
  /\ cashouts st' = cashouts st
  /\ (log st' = log st
      \/ log st' = (log st ++ [ChainLookup (PayrollController.txHash req)])%list).
Proof.
  cbv zeta.
  destruct (ExecuteFacts.executePayroll_tables w req st)
    as (Hp & Hc & Hl & [->|(s & b & ->)]).
  - repeat split; assumption.
  - rewrite ExecuteFacts.filter_other_batches, length_map.
    repeat split; assumption.
Qed.

(** X16.  A transaction that cannot be verified marks the whole batch
    failed, whatever the rows held before: every row of the batch, a
    completed one included, gets the status [failed], the submitted hash
    and the block number of the request; the response is the 400 of the
    failed verification with the message of the error.  There is no check
    of the status of the batch before the update. *)
Theorem an_unverified_transaction_marks_the_batch_failed
        (w : World) (req : PayrollController.Request) (st : State)
        (first : Payroll.Payroll) (rest : list Payroll.Payroll) (e : JS.error) :
  JS.truthy (PayrollController.payrollId req) = true ->
  JS.truthy (PayrollController.txHash req) = true ->
  Payroll.getPayrollsByPayrollId (PayrollController.payrollId req) (payrolls st)
  = first :: rest ->
  Blockchain.verifyPayrollTransaction w (PayrollController.txHash req)
                                      (Payroll.employer_address first)
  = inl e ->
  let run := PayrollController.executePayroll w req st in
  fst run = PayrollController.mkResponse
              400 (PayrollController.verification_failed (JS.message e))
  /\ payrolls (snd run)
     = map (in_batch (PayrollController.payrollId req)
                     (mark Payroll.failed (PayrollController.txHash req)
                           (PayrollController.blockNumber req)))
           (payrolls st)
  /\ (forall p,
         In p (payrolls (snd run)) ->
         Payroll.payroll_id p = PayrollController.payrollId req ->
         Payroll.status p = Payroll.failed
         /\ Payroll.tx_hash p = Some (PayrollController.txHash req)).
Proof.
  intros Hid Htx Hb Hv. cbv zeta.
  assert (Hids : forall p, In p (first :: rest) ->
                           Payroll.payroll_id p = PayrollController.payrollId req)
    by (intros p Hp; rewrite <- Hb in Hp; exact (PayrollFacts.batch_ids _ _ _ Hp)).
  assert (Hne : first :: rest <> []) by discriminate.
  assert (Hrun : PayrollController.executePayroll w req st
                 = (PayrollController.mkResponse
                      400 (PayrollController.verification_failed (JS.message e)),
                    with_payrolls
                      (map (in_batch (PayrollController.payrollId req)
                                     (mark Payroll.failed
                                           (PayrollController.txHash req)
                                           (PayrollController.blockNumber req)))
                           (payrolls st))
                      (emit (ChainLookup (PayrollController.txHash req)) st))).
  { unfold PayrollController.executePayroll. rewrite Hid, Htx, Hb, Hv.
    cbn [negb]. f_equal. f_equal.
    exact (PayrollFacts.update_all_batch _ _ _ _ _ Hids Hne _). }
  rewrite Hrun. cbn [fst snd with_payrolls payrolls].
  split; [reflexivity|]. split; [reflexivity|].
  intros p Hin Hp. apply in_map_iff in Hin. destruct Hin as (p0 & <- & _).
  unfold in_batch in Hp |- *.
  destruct (String.eqb (Payroll.payroll_id p0) (PayrollController.payrollId req))
    eqn:E.
  - split; reflexivity.
  - apply String.eqb_neq in E. contradiction.
Qed.

(** A reverted transaction is submitted for the batch of alice and bob. *)
Lemma a_reverted_transaction_fails_the_batch :
  fst (PayrollController.executePayroll Cases.reverted_transaction
                                        execute_batch batch_prepared)
  = PayrollController.mkResponse
      400 (PayrollController.verification_failed
             (Some "Failed to verify payroll transaction: Transaction failed")).
Proof.
  destruct (an_unverified_transaction_marks_the_batch_failed
              Cases.reverted_transaction execute_batch batch_prepared
              (Payroll.mkPayroll 1 "batch-1" employer alice "10" None None
                                 Payroll.pending)
              [Payroll.mkPayroll 2 "batch-1" employer bob "20" None None
                                 Payroll.pending]
              (JS.Error "Failed to verify payroll transaction: Transaction failed")
              eq_refl eq_refl eq_refl eq_refl) as [H _].
  exact H.
Defined.

Module BatchFacts.

Import PayrollController Columns.




End BatchFacts.



(* ================================================================== *)
(** * The webhook handlers: what they change and what they leave *)
(* ================================================================== *)

Module SettlementFacts.

Import WebhookController.

Lemma fiat_movements_emit (e : effect) (st : State) :
  fiat_movements (emit e st)
  = (fiat_movements st + if is_fiat_movement e then 1 else 0)%nat.
Proof. unfold fiat_movements. cbn [emit log]. apply TransferFacts.filter_length_snoc. Qed.

Lemma transfer_loop_moves_no_fiat (w : World) (custody to : string)
      (amount : JS.text) (maxRetries : nat) :
  forall remaining attempt lastError st,
    fiat_movements
      (snd (Blockchain.transfer_loop w custody to amount maxRetries remaining
                                     attempt lastError st))
    = fiat_movements st.
Proof.
  induction remaining as [|n IH]; intros attempt lastError st;
    cbn [Blockchain.transfer_loop]; [reflexivity|].
  destruct (Blockchain.transfer_attempt w custody attempt to amount) as [e|tx].
  - destruct (Blockchain.isRetryableError e && (attempt <? maxRetries)%nat).
    + rewrite IH, !fiat_movements_emit. cbn. lia.
    + cbn [snd]. rewrite fiat_movements_emit. cbn. lia.
  - cbn [snd]. rewrite !fiat_movements_emit. cbn. lia.
Qed.

Lemma transfer_moves_no_fiat (w : World) (to : string) (amount : JS.text)
      (maxRetries : nat) (st : State) :
  fiat_movements (snd (Blockchain.transferUSDTFromOfframp w to amount maxRetries st))
  = fiat_movements st.
Proof.
  unfold Blockchain.transferUSDTFromOfframp.
  destruct (offrampWallet w); [apply transfer_loop_moves_no_fiat|reflexivity].
Qed.

(** What an update of the payment table leaves alone. *)
Lemma update_payment_frame (w : World) (paymentId : nat) (u : PaymentService.Updates)
      (st : State) :
  let st' := update_payment w paymentId u st in
  cashouts st' = cashouts st /\ payrolls st' = payrolls st
  /\ log st' = log st /\ next_id st' = next_id st.
Proof. repeat split; reflexivity. Qed.

(** The ledger after the charge-confirmed handler, whatever its outcome. *)
Lemma succeeded_frame (w : World) (paymentIntent : PaymentIntent) (st : State) :
  let st' := snd (handlePaymentIntentSucceeded w paymentIntent st) in
  cashouts st' = cashouts st
  /\ payrolls st' = payrolls st
  /\ fiat_movements st' = fiat_movements st
  /\ (transfers_sent st <= transfers_sent st' <= transfers_sent st + 1)%nat
  /\ (transfers_sent st' <> transfers_sent st ->
      exists payment,
        PaymentService.getPaymentByPaymentIntentId (intent_id paymentIntent) (payments st)
        = Some payment
        /\ already_processed payment = false).
Proof.
  cbv zeta. unfold handlePaymentIntentSucceeded, settle_payment_intent.
  destruct (PaymentService.getPaymentByPaymentIntentId (intent_id paymentIntent)
                                                (payments st)) as [payment|] eqn:Hf;
    [|cbn; repeat split; try lia; intros H; contradiction].
  destruct (already_processed payment) eqn:Hp;
    [cbn; repeat split; try lia; intros H; contradiction|].
  set (st1 := update_payment w (Payment.id payment) _ st).
  assert (H1 : cashouts st1 = cashouts st /\ payrolls st1 = payrolls st
               /\ log st1 = log st) by (repeat split; reflexivity).
  destruct H1 as (Hc1 & Hr1 & Hl1).
  assert (Hfm : forall s, log s = log st -> fiat_movements s = fiat_movements st
                                            /\ transfers_sent s = transfers_sent st).
  { intros s Hs. unfold fiat_movements, transfers_sent. rewrite Hs. split; reflexivity. }
  assert (Hfail : forall (e : JS.error) (s : State),
             cashouts s = cashouts st -> payrolls s = payrolls st ->
             fiat_movements s = fiat_movements st ->
             (transfers_sent st <= transfers_sent s <= transfers_sent st + 1)%nat ->
             let s' := match PaymentService.getPaymentByPaymentIntentId
                               (intent_id paymentIntent) (payments s) with
                       | Some payment0 =>
                         update_payment w (Payment.id payment0)
                           (status_and_error Payment.failed (JS.message_or e "Failed to transfer USDT"))
                           s
                       | None => s
                       end in
             cashouts s' = cashouts st /\ payrolls s' = payrolls st
             /\ fiat_movements s' = fiat_movements st
             /\ (transfers_sent st <= transfers_sent s' <= transfers_sent st + 1)%nat
             /\ (transfers_sent s' <> transfers_sent st ->
                 exists payment0,
                   Some payment = Some payment0
                   /\ already_processed payment0 = false)).
  { intros e s Hc Hr Hfi Ht. cbv zeta.
    assert (Hex : exists payment0,
               Some payment = Some payment0 /\ already_processed payment0 = false)
      by (exists payment; split; [reflexivity|exact Hp]).
    destruct (PaymentService.getPaymentByPaymentIntentId (intent_id paymentIntent)
                                                  (payments s)).
    - split; [exact Hc|]. split; [exact Hr|]. split; [exact Hfi|].
      split; [exact Ht|]. intros _. exact Hex.
    - split; [exact Hc|]. split; [exact Hr|]. split; [exact Hfi|].
      split; [exact Ht|]. intros _. exact Hex. }
  match goal with
  | |- context [negb (JS.truthy ?a)] => destruct (negb (JS.truthy a))
  end.
  { cbn [snd]. destruct (Hfm st1 Hl1) as [Hf1 Ht1].
    apply Hfail; try assumption. lia. }
  match goal with
  | |- context [Blockchain.transferUSDTFromOfframp ?w ?t ?a ?m ?s] =>
    pose proof (transfer_moves_no_fiat w t a m s) as Hfiat;
    destruct (Blockchain.transferUSDTFromOfframp w t a m s) as [[e|tx] st2] eqn:Ht;
    apply TransferFacts.transferUSDTFromOfframp_effects in Ht
      as (_ & Hc2 & Hr2 & _ & Hsent & _)
  end; cbn [snd] in Hfiat.
  - cbn [snd]. destruct (Hfm st1 Hl1) as [Hf1 Ht1].
    apply Hfail; try congruence. lia.
  - destruct (Hfm st1 Hl1) as [Hf1 Ht1].
    destruct (Blockchain.waitForTransaction w (hash tx) st2) as [[e|receipt] st3] eqn:Hw;
      apply TransferFacts.waitForTransaction_effects in Hw; subst st3.
    + cbn [snd]. apply Hfail; cbn [emit cashouts payrolls]; try congruence.
      * rewrite fiat_movements_emit. cbn. lia.
      * rewrite TransferFacts.transfers_sent_emit. cbn. lia.
    + assert (Hbad : forall e,
                 let s := emit (WaitForTransaction (hash tx)) st2 in
                 let s' := match PaymentService.getPaymentByPaymentIntentId
                                   (intent_id paymentIntent) (payments s) with
                           | Some payment0 =>
                             update_payment w (Payment.id payment0)
                               (status_and_error Payment.failed (JS.message_or e "Failed to transfer USDT")) s
                           | None => s
                           end in
                 cashouts s' = cashouts st /\ payrolls s' = payrolls st
                 /\ fiat_movements s' = fiat_movements st
                 /\ (transfers_sent st <= transfers_sent s' <= transfers_sent st + 1)%nat
                 /\ (transfers_sent s' <> transfers_sent st ->
                     exists payment0,
                       Some payment = Some payment0
                       /\ already_processed payment0 = false)).
      { intros e. apply Hfail; cbn [emit cashouts payrolls]; try congruence.
        - rewrite fiat_movements_emit. cbn. lia.
        - rewrite TransferFacts.transfers_sent_emit. cbn. lia. }
      destruct receipt as [r|]; [|cbn [snd]; apply Hbad].
      destruct (receipt_status r) as [[|[|n]]|]; try (cbn [snd]; apply Hbad).
      cbn [snd update_payment with_payments emit cashouts payrolls].
      split; [congruence|]. split; [congruence|].
      set (s := emit (WaitForTransaction (hash tx)) st2).
      set (sf := update_payment w (Payment.id payment) _ s).
      assert (Hsf : fiat_movements sf = fiat_movements s
                    /\ transfers_sent sf = transfers_sent s)
        by (split; reflexivity).
      destruct Hsf as [Hsf1 Hsf2]. rewrite Hsf1, Hsf2. subst s.
      rewrite fiat_movements_emit, TransferFacts.transfers_sent_emit.
      cbn [is_fiat_movement is_broadcast].
      split; [lia|]. split; [lia|].
      intros _. exists payment. split; [reflexivity|exact Hp].
Qed.

(** The handlers of the other events write to one table and make no call. *)
Lemma other_events_frame (w : World) (event : Event) (st : State) :
  (forall paymentIntent, event <> payment_intent_succeeded paymentIntent) ->
  let st' := snd (dispatch w event st) in
  log st' = log st /\ payrolls st' = payrolls st.
Proof.
  intros Hev. cbv zeta.
  destruct event as [p|p|p|intent|intent|intent|t]; cbn [dispatch].
  - unfold handlePayoutPaid.
    destruct (Cashout.getCashoutByPayoutId _ _); split; reflexivity.
  - unfold handlePayoutFailed.
    destruct (Cashout.getCashoutByPayoutId _ _); split; reflexivity.
  - unfold handlePayoutCanceled.
    destruct (Cashout.getCashoutByPayoutId _ _); split; reflexivity.
  - exfalso. exact (Hev intent eq_refl).
  - unfold handlePaymentIntentFailed.
    destruct (PaymentService.getPaymentByPaymentIntentId _ _); split; reflexivity.
  - unfold handlePaymentIntentCanceled.
    destruct (PaymentService.getPaymentByPaymentIntentId _ _); split; reflexivity.
  - split; reflexivity.
Qed.

End SettlementFacts.

(** X18.  The webhook endpoint sends tokens for one kind of event only.
    Whatever the request, [handleStripeWebhook] moves no fiat and leaves
    the payroll table alone; it sends at most one token transfer; and when
    it does send one, the request carried an authenticated
    charge-confirmed event whose payment row was not already processed. *)
Theorem tokens_move_only_for_a_confirmed_charge
        (w : World) (req : WebhookController.Request) (st : State) :
  let st' := snd (WebhookController.handleStripeWebhook w req st) in
  fiat_movements st' = fiat_movements st
  /\ payrolls st' = payrolls st
  /\ (transfers_sent st <= transfers_sent st' <= transfers_sent st + 1)%nat
  /\ (transfers_sent st' <> transfers_sent st ->
      exists paymentIntent payment,
        Stripe.verifyWebhookSignature
          w (WebhookController.payload req)
          (WebhookController.stripe_signature req) (stripeWebhookSecret w)
        = inr (payment_intent_succeeded paymentIntent)
        /\ PaymentService.getPaymentByPaymentIntentId (intent_id paymentIntent)
                                               (payments st) = Some payment
        /\ WebhookController.already_processed payment = false).
Proof.
  cbv zeta. unfold WebhookController.handleStripeWebhook.
  destruct (negb (JS.truthy (WebhookController.stripe_signature req)));
    [cbn; repeat split; try lia; intros H; contradiction|].
  destruct (Stripe.verifyWebhookSignature _ _ _ _) as [e|event];
    [cbn; repeat split; try lia; intros H; contradiction|].
  assert (Hsnd : snd (match WebhookController.dispatch w event st with
                      | (inr tt, st0) =>
                        (WebhookController.mkResponse
                           200 (WebhookController.received None), st0)
                      | (inl error, st0) =>
                        (WebhookController.mkResponse
                           200 (WebhookController.received (JS.message error)), st0)
                      end)
                 = snd (WebhookController.dispatch w event st))
    by (destruct (WebhookController.dispatch w event st) as [[e|[]] s]; reflexivity).
  rewrite Hsnd. clear Hsnd.
  destruct event as [p|p|p|intent|intent|intent|t];
    try (match goal with
         | |- context [WebhookController.dispatch w ?ev st] =>
           assert (Hev : forall paymentIntent,
                      ev <> payment_intent_succeeded paymentIntent)
             by (intros ? ?; discriminate);
           destruct (SettlementFacts.other_events_frame w ev st Hev) as [Hl Hr]
         end;
         unfold fiat_movements, transfers_sent; rewrite Hl;
         repeat split; try exact Hr; try lia; intros H; contradiction).
  cbn [WebhookController.dispatch].
  destruct (SettlementFacts.succeeded_frame w intent st) as (_ & Hr & Hf & Ht & Hwhy).
  repeat split; try assumption; try apply Ht.
  intros Hne. destruct (Hwhy Hne) as (payment & Hfound & Hp).
  exists intent, payment. repeat split; assumption.
Qed.

Module HashFacts.

Import WebhookController Deliveries Columns.

Lemma apply_keeps_keys (now : Z) (u : PaymentService.Updates) :
  keeps_keys (PaymentService.apply_updates now u).
Proof. intros p. split; reflexivity. Qed.

Lemma names_a_status (s : Payment.Status) (e : string) (h : string) (b t : Z) :
  PaymentService.no_fields (only_status s) = false
  /\ PaymentService.no_fields (status_and_error s e) = false
  /\ PaymentService.no_fields (settled_by h b t) = false.
Proof. repeat split. Qed.

(** The table after an update that names a field. *)
Lemma update_payment_rows (w : World) (i : nat) (u : PaymentService.Updates)
      (s : State) :
  PaymentService.no_fields u = false ->
  payments (update_payment w i u s)
  = map (at_id i (PaymentService.apply_updates (now w) u)) (payments s).
Proof.
  intros Hu. unfold update_payment, PaymentService.updatePayment.
  rewrite Hu. reflexivity.
Qed.

Lemma at_id_compose (i : nat) (f g : Payment.Payment -> Payment.Payment)
      (rows : list Payment.Payment) :
  keeps_keys f ->
  map (at_id i g) (map (at_id i f) rows) = map (at_id i (fun p => g (f p))) rows.
Proof.
  intros Hf. rewrite map_map. apply map_ext. intros p. unfold at_id.
  destruct (Nat.eqb (Payment.id p) i) eqn:E.
  - destruct (Hf p) as [-> _]. rewrite E. reflexivity.
  - rewrite E. reflexivity.
Qed.

Lemma found_at_id (pid : string) (i : nat) (f : Payment.Payment -> Payment.Payment)
      (rows : list Payment.Payment) :
  keeps_keys f ->
  PaymentService.getPaymentByPaymentIntentId pid (map (at_id i f) rows)
  = option_map (at_id i f) (PaymentService.getPaymentByPaymentIntentId pid rows).
Proof.
  intros Hf. unfold PaymentService.getPaymentByPaymentIntentId.
  apply TransferFacts.find_map_same_key.
  intros p. unfold at_id. destruct (Nat.eqb (Payment.id p) i); [|reflexivity].
  apply Hf.
Qed.

(** The payment table after one update of the row found, when the table
    is already an update of that row. *)
Lemma update_found (w : World) (pid : string) (u : PaymentService.Updates)
      (rows : list Payment.Payment) (payment : Payment.Payment)
      (f : Payment.Payment -> Payment.Payment) (s : State) :
  PaymentService.no_fields u = false ->
  PaymentService.getPaymentByPaymentIntentId pid rows = Some payment ->
  keeps_keys f ->
  payments s = map (at_id (Payment.id payment) f) rows ->
  payments (match PaymentService.getPaymentByPaymentIntentId pid (payments s) with
            | Some payment0 => update_payment w (Payment.id payment0) u s
            | None => s
            end)
  = map (at_id (Payment.id payment)
               (fun p => PaymentService.apply_updates (now w) u (f p))) rows.
Proof.
  intros Hu Hfound Hf Hs. rewrite Hs, found_at_id, Hfound by exact Hf.
  cbn [option_map]. unfold at_id at 1. rewrite Nat.eqb_refl.
  destruct (Hf payment) as [Hid _]. rewrite Hid.
  rewrite update_payment_rows by exact Hu. rewrite Hs.
  apply at_id_compose. exact Hf.
Qed.

(** The payment table after the charge-confirmed handler: as it was, or
    the row found, which was not processed, updated. *)
Lemma succeeded_payments (w : World) (paymentIntent : PaymentIntent) (st : State) :
  let st' := snd (handlePaymentIntentSucceeded w paymentIntent st) in
  payments st' = payments st
  \/ exists payment f,
      PaymentService.getPaymentByPaymentIntentId (intent_id paymentIntent) (payments st)
      = Some payment
      /\ already_processed payment = false
      /\ keeps_keys f
      /\ payments st' = map (at_id (Payment.id payment) f) (payments st).
Proof.
  cbv zeta. unfold handlePaymentIntentSucceeded, settle_payment_intent.
  destruct (PaymentService.getPaymentByPaymentIntentId (intent_id paymentIntent)
                                                (payments st)) as [payment|] eqn:Hf;
    [|left; reflexivity].
  destruct (already_processed payment) eqn:Hp; [left; reflexivity|].
  right. exists payment.
  set (u1 := only_status Payment.processing).
  set (st1 := update_payment w (Payment.id payment) u1 st).
  assert (H1 : payments st1
               = map (at_id (Payment.id payment)
                            (PaymentService.apply_updates (now w) u1))
                     (payments st)) by reflexivity.
  assert (Hcatch : forall (e : JS.error) (s : State),
             payments s = payments st1 ->
             exists f,
               Some payment = Some payment /\ already_processed payment = false
               /\ keeps_keys f
               /\ payments
                    (match PaymentService.getPaymentByPaymentIntentId
                             (intent_id paymentIntent) (payments s) with
                     | Some payment0 =>
                       update_payment w (Payment.id payment0)
                         (status_and_error Payment.failed (JS.message_or e "Failed to transfer USDT"))
                         s
                     | None => s
                     end)
                  = map (at_id (Payment.id payment) f) (payments st)).
  { intros e s Hs. eexists. split; [reflexivity|]. split; [exact Hp|].
    split; [|apply (update_found
                      w _ (status_and_error
                             Payment.failed
                             (JS.message_or e "Failed to transfer USDT"))
                      _ payment (PaymentService.apply_updates (now w) u1) s
                      (proj1 (proj2 (names_a_status
                                       Payment.failed _ EmptyString 0 0)))
                      Hf (apply_keeps_keys _ _));
             rewrite Hs; exact H1].
    intros p. split; reflexivity. }
  match goal with
  | |- context [negb (JS.truthy ?a)] => destruct (negb (JS.truthy a))
  end.
  { cbn [snd]. apply Hcatch. reflexivity. }
  match goal with
  | |- context [Blockchain.transferUSDTFromOfframp ?w ?t ?a ?m ?s] =>
    destruct (Blockchain.transferUSDTFromOfframp w t a m s) as [[e|tx] st2] eqn:Ht;
    apply TransferFacts.transferUSDTFromOfframp_effects in Ht as (Hp2 & _)
  end.
  - cbn [snd]. apply Hcatch. exact Hp2.
  - destruct (Blockchain.waitForTransaction w (hash tx) st2) as [[e|receipt] st3] eqn:Hw;
      apply TransferFacts.waitForTransaction_effects in Hw; subst st3.
    + cbn [snd]. apply Hcatch. exact Hp2.
    + assert (Hbad : forall e,
                 exists f,
                   Some payment = Some payment /\ already_processed payment = false
               /\ keeps_keys f
                   /\ payments
                        (match PaymentService.getPaymentByPaymentIntentId
                                 (intent_id paymentIntent)
                                 (payments (emit (WaitForTransaction (hash tx)) st2))
                         with
                         | Some payment0 =>
                           update_payment w (Payment.id payment0)
                             (status_and_error Payment.failed (JS.message_or e "Failed to transfer USDT"))
                             (emit (WaitForTransaction (hash tx)) st2)
                         | None => emit (WaitForTransaction (hash tx)) st2
                         end)
                      = map (at_id (Payment.id payment) f) (payments st))
        by (intros e; apply Hcatch; exact Hp2).
      destruct receipt as [r|]; [|cbn [snd]; apply Hbad].
      destruct (receipt_status r) as [[|[|n]]|]; try (cbn [snd]; apply Hbad).
      cbn [snd]. eexists. split; [reflexivity|]. split; [exact Hp|].
      split; [|rewrite update_payment_rows
                 by exact (proj2 (proj2 (names_a_status
                                           Payment.failed EmptyString _ _ _)));
               cbn [payments emit]; rewrite Hp2, H1;
               apply at_id_compose; apply apply_keeps_keys].
      intros p. split; reflexivity.
Qed.

(** The payment table after any event: as it was, or one row updated; the
    update keeps the transaction hash unless the row was not processed. *)
Lemma dispatch_payments (w : World) (event : Event) (st : State) :
  let st' := snd (dispatch w event st) in
  payments st' = payments st
  \/ exists payment f,
      In payment (payments st)
      /\ keeps_keys f
      /\ payments st' = map (at_id (Payment.id payment) f) (payments st)
      /\ ((forall p, Payment.tx_hash (f p) = Payment.tx_hash p)
          \/ already_processed payment = false).
Proof.
  cbv zeta.
  assert (Hin : forall pid payment,
             PaymentService.getPaymentByPaymentIntentId pid (payments st) = Some payment ->
             In payment (payments st)).
  { intros pid payment H. unfold PaymentService.getPaymentByPaymentIntentId in H.
    apply find_some in H. tauto. }
  destruct event as [p|p|p|intent|intent|intent|t]; cbn [dispatch].
  - left. unfold handlePayoutPaid.
    destruct (Cashout.getCashoutByPayoutId _ _); reflexivity.
  - left. unfold handlePayoutFailed.
    destruct (Cashout.getCashoutByPayoutId _ _); reflexivity.
  - left. unfold handlePayoutCanceled.
    destruct (Cashout.getCashoutByPayoutId _ _); reflexivity.
  - destruct (succeeded_payments w intent st)
      as [H|(payment & f & Hfound & Hp & Hf & H)]; [left; exact H|].
    right. exists payment, f. split; [exact (Hin _ _ Hfound)|].
    split; [exact Hf|]. split; [exact H|]. right. exact Hp.
  - unfold handlePaymentIntentFailed.
    destruct (PaymentService.getPaymentByPaymentIntentId (intent_id intent) (payments st))
      as [payment|] eqn:Hfound; [|left; reflexivity].
    right. exists payment. eexists. split; [exact (Hin _ _ Hfound)|].
    split; [apply apply_keeps_keys|].
    split; [apply update_payment_rows;
            exact (proj1 (proj2 (names_a_status
                                   _ _ EmptyString 0 0)))|].
    left. intros p. reflexivity.
  - unfold handlePaymentIntentCanceled.
    destruct (PaymentService.getPaymentByPaymentIntentId (intent_id intent) (payments st))
      as [payment|] eqn:Hfound; [|left; reflexivity].
    right. exists payment. eexists. split; [exact (Hin _ _ Hfound)|].
    split; [apply apply_keeps_keys|].
    split; [apply update_payment_rows;
            exact (proj1 (proj2 (names_a_status
                                   _ _ EmptyString 0 0)))|].
    left. intros p. reflexivity.
  - left. reflexivity.
Qed.

Lemma same_id_same_row (rows : list Payment.Payment) (a b : Payment.Payment) :
  NoDup (map Payment.id rows) -> In a rows -> In b rows ->
  Payment.id a = Payment.id b -> a = b.
Proof.
  induction rows as [|p rows IH]; [intros _ []|].
  cbn [map]. intros Hnd Ha Hb Hid. inversion Hnd as [|? ? Hnotin Hnd']; subst.
  destruct Ha as [->|Ha], Hb as [->|Hb].
  - reflexivity.
  - exfalso. apply Hnotin. rewrite Hid. apply in_map. exact Hb.
  - exfalso. apply Hnotin. rewrite <- Hid. apply in_map. exact Ha.
  - exact (IH Hnd' Ha Hb Hid).
Qed.

(** One event keeps a recorded hash, and the ids distinct. *)
Lemma dispatch_keeps_the_hash (w : World) (event : Event) (st : State)
      (pid h : string) (row : Payment.Payment) :
  NoDup (map Payment.id (payments st)) ->
  PaymentService.getPaymentByPaymentIntentId pid (payments st) = Some row ->
  Payment.tx_hash row = Some h ->
  h <> EmptyString ->
  let st' := snd (dispatch w event st) in
  NoDup (map Payment.id (payments st'))
  /\ exists row',
      PaymentService.getPaymentByPaymentIntentId pid (payments st') = Some row'
      /\ Payment.tx_hash row' = Some h.
Proof.
  intros Hnd Hfound Hh Hne. cbv zeta.
  destruct (dispatch_payments w event st)
    as [->|(payment & f & Hin & Hf & -> & Hguard)].
  - split; [exact Hnd|]. exists row. split; assumption.
  - split.
    + rewrite map_map.
      replace (map (fun p => Payment.id (at_id (Payment.id payment) f p))
                   (payments st)) with (map Payment.id (payments st)); [exact Hnd|].
      apply map_ext. intros p. unfold at_id.
      destruct (Nat.eqb (Payment.id p) (Payment.id payment)); [|reflexivity].
      symmetry. apply Hf.
    + rewrite found_at_id, Hfound by exact Hf. cbn [option_map].
      eexists. split; [reflexivity|]. unfold at_id.
      destruct (Nat.eqb (Payment.id row) (Payment.id payment)) eqn:E;
        [|exact Hh].
      destruct Hguard as [Hkeep|Hnot]; [rewrite Hkeep; exact Hh|].
      exfalso. apply Nat.eqb_eq in E.
      assert (Hrow : In row (payments st)).
      { unfold PaymentService.getPaymentByPaymentIntentId in Hfound.
        apply find_some in Hfound. tauto. }
      rewrite <- (same_id_same_row _ _ _ Hnd Hrow Hin E) in Hnot.
      unfold already_processed in Hnot. rewrite Hh in Hnot.
      rewrite (TransferFacts.truthy_opt_some h Hne), orb_true_r in Hnot.
      discriminate.
Qed.

End HashFacts.

(** X19.  A recorded transaction hash is never replaced, and its payment is
    never paid again.  From a ledger whose payment ids are distinct, once
    the row of a payment reference carries a transaction hash, then after
    any sequence of webhook events, each arriving in any world, the row of
    that reference still carries that hash, and a charge-confirmed event
    for it is handled without any effect. *)
Theorem a_recorded_hash_is_never_replaced
        (events : list (World * Event)) (st : State)
        (paymentIntentId h : string) (row : Payment.Payment) :
  NoDup (map Payment.id (payments st)) ->
  PaymentService.getPaymentByPaymentIntentId paymentIntentId (payments st) = Some row ->
  Payment.tx_hash row = Some h ->
  h <> EmptyString ->
  let st' := Deliveries.deliver events st in
  (exists row',
      PaymentService.getPaymentByPaymentIntentId paymentIntentId (payments st')
      = Some row'
      /\ Payment.tx_hash row' = Some h)
  /\ (forall w paymentIntent,
         intent_id paymentIntent = paymentIntentId ->
         WebhookController.handlePaymentIntentSucceeded w paymentIntent st'
         = (inr tt, st')).
Proof.
  intros Hnd Hfound Hh Hne. cbv zeta.
  assert (G : NoDup (map Payment.id (payments (Deliveries.deliver events st)))
              /\ exists row',
                  PaymentService.getPaymentByPaymentIntentId
                    paymentIntentId (payments (Deliveries.deliver events st))
                  = Some row'
                  /\ Payment.tx_hash row' = Some h).
  { revert st row Hnd Hfound Hh. unfold Deliveries.deliver.
    induction events as [|[w event] events IH]; intros st row Hnd Hfound Hh.
    - cbn [fold_left]. split; [exact Hnd|]. exists row. split; assumption.
    - cbn [fold_left fst snd].
      destruct (HashFacts.dispatch_keeps_the_hash w event st _ _ _ Hnd Hfound Hh Hne)
        as (Hnd' & row' & Hfound' & Hh').
      exact (IH _ row' Hnd' Hfound' Hh'). }
  destruct G as (_ & row' & Hfound' & Hh').
  split; [exists row'; split; assumption|].
  intros w paymentIntent <-.
  unfold WebhookController.handlePaymentIntentSucceeded,
    WebhookController.settle_payment_intent.
  rewrite Hfound'. unfold WebhookController.already_processed.
  rewrite Hh', (TransferFacts.truthy_opt_some h Hne), orb_true_r. reflexivity.
Qed.

(** The settled charge of alice meets a failure, a cancellation and a
    second confirmation. *)
Lemma the_hash_of_alice_survives_later_events :
  exists row',
    PaymentService.getPaymentByPaymentIntentId
      "pi_1"
      (payments
         (Deliveries.deliver
            [(world, payment_intent_payment_failed charge_confirmed);
             (world, payment_intent_canceled charge_confirmed);
             (flaky, payment_intent_succeeded charge_confirmed)]
            Cases.settled))
    = Some row'
    /\ Payment.tx_hash row' = Some settlement.
Proof.
  assert (Hsettled :
            exists row,
              PaymentService.getPaymentByPaymentIntentId
                "pi_1" (payments Cases.settled) = Some row
              /\ Payment.tx_hash row = Some settlement
              /\ NoDup (map Payment.id (payments Cases.settled))).
  { vm_compute. eexists. split; [reflexivity|]. split; [reflexivity|].
    repeat constructor. intros []. }
  destruct Hsettled as (row & Hrow & Hh & Hnd).
  destruct (a_recorded_hash_is_never_replaced
              [(world, payment_intent_payment_failed charge_confirmed);
               (world, payment_intent_canceled charge_confirmed);
               (flaky, payment_intent_succeeded charge_confirmed)]
              Cases.settled "pi_1" settlement row Hnd Hrow Hh
              ltac:(discriminate)) as [H _].
  exact H.
Defined.

Module UnconfirmedFacts.

Import WebhookController Deliveries.

(** The handler up to the broadcast, when the first attempt is sent. *)
Lemma settle_after_broadcast (w : World) (paymentIntent : PaymentIntent)
      (st : State) (payment : Payment.Payment) (custody : string) (tx : Tx) :
  PaymentService.getPaymentByPaymentIntentId (intent_id paymentIntent) (payments st)
  = Some payment ->
  already_processed payment = false ->
  offrampWallet w = Some custody ->
  JS.truthy (recipient paymentIntent payment) = true ->
  Blockchain.transfer_attempt w custody 1 (recipient paymentIntent payment)
                              (Payment.amount_usdt payment) = inr tx ->
  let st1 :=
    update_payment w (Payment.id payment) (only_status Payment.processing) st in
  let st2 :=
    emit (WaitForTransaction (hash tx))
         (emit (TransferBroadcast (recipient paymentIntent payment)
                                  (Payment.amount_usdt payment) (hash tx))
               (emit (TransferAttempt 1 (recipient paymentIntent payment)
                                      (Payment.amount_usdt payment)) st1)) in
  settle_payment_intent w paymentIntent st
  = match provider_waitForTransaction w (hash tx) with
    | inl e =>
      (inl (JS.Error ("Failed to confirm transaction: "
                        ++ JS.show_message
                             (JS.Error ("Failed to wait for transaction: "
                                          ++ JS.show_error e)))), st2)
    | inr (Some r) =>
      match receipt_status r with
      | Some 1 =>
        (inr tt,
         update_payment w (Payment.id payment)
           (settled_by (receipt_hash r) (blockNumber r) (now w)) st2)
      | _ =>
        (inl (JS.Error ("Transaction failed on-chain. Status: "
                          ++ show_status (Some r))), st2)
      end
    | inr None =>
      (inl (JS.Error ("Transaction failed on-chain. Status: "
                        ++ show_status None)), st2)
    end.
Proof.
  intros Hfound Hp Hw Ht Hsent. cbv zeta.
  unfold settle_payment_intent. rewrite Hfound, Hp.
  fold (recipient paymentIntent payment). rewrite Ht. cbn [negb].
  unfold Blockchain.transferUSDTFromOfframp. rewrite Hw.
  unfold Blockchain.default_maxRetries. cbn [Blockchain.transfer_loop].
  rewrite Hsent. unfold Blockchain.waitForTransaction.
  destruct (provider_waitForTransaction w (hash tx)) as [e|[r|]]; reflexivity.
Qed.

Lemma sent_once (w : World) (paymentId : nat) (u : PaymentService.Updates) (e1 e2 e3 : effect)
      (st : State) :
  is_broadcast e1 = false -> is_broadcast e2 = true -> is_broadcast e3 = false ->
  transfers_sent (emit e3 (emit e2 (emit e1 (update_payment w paymentId u st))))
  = (transfers_sent st + 1)%nat.
Proof.
  intros H1 H2 H3. rewrite !TransferFacts.transfers_sent_emit, H1, H2, H3.
  unfold transfers_sent. cbn [update_payment with_payments log]. lia.
Qed.

End UnconfirmedFacts.

(** X20.  A transfer that was sent but could not be confirmed is sent
    again by the next charge-confirmed event.  When the transfer of a
    payment that is not yet processed is sent at the first attempt and
    waiting for its confirmation throws, the handler throws, one transfer
    has been sent, and the row is marked [failed] without any transaction
    hash being recorded: the idempotency gate stays open, and a second
    charge-confirmed event whose first attempt is sent makes a second
    transfer. *)
Theorem an_unconfirmed_transfer_is_sent_again
        (w w' : World) (paymentIntent : PaymentIntent) (st : State)
        (payment : Payment.Payment) (custody custody' : string) (tx tx' : Tx)
        (e : JS.error) :
  PaymentService.getPaymentByPaymentIntentId (intent_id paymentIntent) (payments st)
  = Some payment ->
  WebhookController.already_processed payment = false ->
  offrampWallet w = Some custody ->
  JS.truthy (Deliveries.recipient paymentIntent payment) = true ->
  Blockchain.transfer_attempt w custody 1
                              (Deliveries.recipient paymentIntent payment)
                              (Payment.amount_usdt payment) = inr tx ->
  provider_waitForTransaction w (hash tx) = inl e ->
  let first := WebhookController.handlePaymentIntentSucceeded w paymentIntent st in
  (exists thrown, fst first = inl thrown)
  /\ transfers_sent (snd first) = (transfers_sent st + 1)%nat
  /\ (exists row,
         PaymentService.getPaymentByPaymentIntentId (intent_id paymentIntent)
                                             (payments (snd first)) = Some row
         /\ Payment.status row = Payment.failed
         /\ Payment.tx_hash row = Payment.tx_hash payment
         /\ WebhookController.already_processed row = false)
  /\ (offrampWallet w' = Some custody' ->
      Blockchain.transfer_attempt w' custody' 1
                                  (Deliveries.recipient paymentIntent payment)
                                  (Payment.amount_usdt payment) = inr tx' ->
      transfers_sent
        (snd (WebhookController.handlePaymentIntentSucceeded
                w' paymentIntent (snd first)))
      = (transfers_sent st + 2)%nat).
Proof.
  intros Hfound Hp Hw Ht Hsent Hwait. cbv zeta.
  pose proof (UnconfirmedFacts.settle_after_broadcast
                w paymentIntent st payment custody tx Hfound Hp Hw Ht Hsent)
    as Hsettle.
  cbv zeta in Hsettle. rewrite Hwait in Hsettle.
  set (st1 := WebhookController.update_payment
                w (Payment.id payment)
                (WebhookController.only_status Payment.processing) st) in *.
  set (st2 := emit (WaitForTransaction (hash tx)) (emit _ (emit _ st1))) in *.
  assert (Hfound2 : PaymentService.getPaymentByPaymentIntentId
                      (intent_id paymentIntent) (payments st2)
                    = Some (PaymentService.apply_updates
                              (now w)
                              (WebhookController.only_status Payment.processing)
                              payment)).
  { subst st2 st1. cbn [emit payments].
    unfold WebhookController.update_payment. cbn [with_payments payments].
    rewrite TransferFacts.getPayment_after_update by reflexivity.
    rewrite Hfound. cbn [option_map].
    rewrite Nat.eqb_refl. reflexivity. }
  destruct (WebhookController.handlePaymentIntentSucceeded w paymentIntent st)
    as [outcome st3] eqn:Hfirst.
  unfold WebhookController.handlePaymentIntentSucceeded in Hfirst.
  rewrite Hsettle, Hfound2 in Hfirst.
  cbn [PaymentService.apply_updates Payment.id] in Hfirst.
  injection Hfirst as <- <-. cbn [fst snd].
  set (st3 := WebhookController.update_payment w (Payment.id payment) _ st2).
  assert (Hsent3 : transfers_sent st3 = (transfers_sent st + 1)%nat).
  { subst st3. unfold transfers_sent at 1.
    unfold WebhookController.update_payment at 1. cbn [with_payments log].
    fold (transfers_sent st2). subst st2 st1.
    apply UnconfirmedFacts.sent_once; reflexivity. }
  assert (Hfound3 : exists row,
             PaymentService.getPaymentByPaymentIntentId (intent_id paymentIntent)
                                                 (payments st3) = Some row
             /\ Payment.status row = Payment.failed
             /\ Payment.tx_hash row = Payment.tx_hash payment
             /\ Payment.wallet_address row = Payment.wallet_address payment
             /\ Payment.amount_usdt row = Payment.amount_usdt payment
             /\ WebhookController.already_processed row = false).
  { subst st3. unfold WebhookController.update_payment at 1.
    cbn [with_payments payments].
    rewrite TransferFacts.getPayment_after_update
      by exact (proj1 (proj2 (HashFacts.names_a_status
                                Payment.failed _ EmptyString 0 0))).
    rewrite Hfound2. cbn [option_map].
    cbn [PaymentService.apply_updates Payment.id]. rewrite Nat.eqb_refl.
    eexists. split; [reflexivity|]. repeat split.
    unfold WebhookController.already_processed in Hp |- *.
    cbn [PaymentService.apply_updates Payment.status Payment.tx_hash
         Payment.override PaymentService.set_tx_hash PaymentService.set_status
         PaymentService.or_old WebhookController.status_and_error
         WebhookController.only_status Payment.Status_eqb].
    apply orb_false_elim in Hp. destruct Hp as [_ Hp]. exact Hp. }
  split; [eexists; reflexivity|]. split; [exact Hsent3|].
  destruct Hfound3 as (row & Hrow & Hstatus & Hhash & Hwallet & Hamount & Hopen).
  split; [exists row; repeat split; assumption|].
  intros Hw' Hsent'.
  assert (Hrec : Deliveries.recipient paymentIntent row
                 = Deliveries.recipient paymentIntent payment)
    by (unfold Deliveries.recipient; rewrite Hwallet; reflexivity).
  rewrite <- Hrec, <- Hamount in Hsent'. rewrite <- Hrec in Ht.
  pose proof (UnconfirmedFacts.settle_after_broadcast
                w' paymentIntent st3 row custody' tx' Hrow Hopen Hw' Ht Hsent')
    as Hagain.
  cbv zeta in Hagain.
  unfold WebhookController.handlePaymentIntentSucceeded. rewrite Hagain.
  set (s1 := WebhookController.update_payment w' (Payment.id row) _ st3).
  set (s2 := emit _ (emit _ (emit _ s1))).
  assert (Hs2 : transfers_sent s2 = (transfers_sent st + 2)%nat).
  { subst s2 s1. rewrite UnconfirmedFacts.sent_once by reflexivity. lia. }
  assert (Hcatch : forall (err : JS.error),
             transfers_sent
               (match PaymentService.getPaymentByPaymentIntentId
                        (intent_id paymentIntent) (payments s2) with
                | Some payment0 =>
                  WebhookController.update_payment
                    w' (Payment.id payment0)
                    (WebhookController.status_and_error
                       Payment.failed
                       (JS.message_or err "Failed to transfer USDT")) s2
                | None => s2
                end)
             = (transfers_sent st + 2)%nat).
  { intros err.
    destruct (PaymentService.getPaymentByPaymentIntentId (intent_id paymentIntent)
                                                  (payments s2)); exact Hs2. }
  destruct (provider_waitForTransaction w' (hash tx')) as [e'|[r|]];
    cbn [snd]; try apply Hcatch.
  destruct (receipt_status r) as [[|[|n]]|]; cbn [snd]; try apply Hcatch.
  exact Hs2.
Qed.

(** The transfer to alice is sent, its confirmation times out, and the
    next delivery of the event sends it again. *)
Lemma the_transfer_to_alice_is_sent_twice :
  transfers_sent
    (snd (WebhookController.handlePaymentIntentSucceeded
            world charge_confirmed
            (snd (WebhookController.handlePaymentIntentSucceeded
                    Cases.unconfirmed charge_confirmed awaiting_charge))))
  = (transfers_sent awaiting_charge + 2)%nat.
Proof.
  destruct (an_unconfirmed_transfer_is_sent_again
              Cases.unconfirmed world charge_confirmed awaiting_charge
              pending_payment custody custody (mkTx settlement) (mkTx settlement)
              Cases.node_timeout eq_refl eq_refl eq_refl eq_refl eq_refl
              eq_refl)
    as (_ & _ & _ & H).
  apply H; reflexivity.
Defined.

Module PayoutEventFacts.

Import WebhookController.

(** The cashout table after [updateCashout]: a row is kept or updated. *)
Lemma updateCashout_columns (now : Z) (cashoutId : nat) (u : Cashout.Updates)
      (rows : list Cashout.Cashout) :
  Cashout.set_amount_usdt u = None ->
  Cashout.set_fiat_currency u = None ->
  Cashout.set_fiat_amount u = None ->
  Cashout.set_exchange_rate u = None ->
  Cashout.set_payout_id_stripe u = None ->
  Cashout.set_stripe_bank_account_id u = None ->
  map Requests.deposit_columns (Cashout.updateCashout now cashoutId u rows)
  = map Requests.deposit_columns rows
  /\ (Forall Requests.stamped rows ->
      Forall Requests.stamped (Cashout.updateCashout now cashoutId u rows)).
Proof.
  intros H1 H2 H3 H4 H5 H6. unfold Cashout.updateCashout.
  destruct (Cashout.no_fields u); [split; [reflexivity|intros H; exact H]|].
  split.
  - rewrite map_map. apply map_ext. intros c.
    destruct (Nat.eqb (Cashout.id c) cashoutId); [|reflexivity].
    unfold Requests.deposit_columns, Cashout.apply_updates.
    cbn [Cashout.id Cashout.employee_address Cashout.amount_usdt
         Cashout.fiat_currency Cashout.fiat_amount Cashout.exchange_rate
         Cashout.tx_hash_onchain Cashout.payout_id_stripe
         Cashout.stripe_bank_account_id Cashout.created_at].
    rewrite H1, H2, H3, H4, H5, H6. reflexivity.
  - intros H. apply Forall_map. revert H. apply Forall_impl. intros c Hc.
    destruct (Nat.eqb (Cashout.id c) cashoutId); [|exact Hc].
    unfold Requests.stamped, Cashout.apply_updates.
    cbn [Cashout.status Cashout.completed_at].
    destruct (Cashout.set_completed_at u) as [t|]; cbn [Cashout.is_some orb];
      [intros _; discriminate|].
    destruct (Cashout.set_status u) as [[]|]; cbn [Cashout.is_paid];
      try discriminate; try exact Hc.
Qed.

End PayoutEventFacts.

(** X21.  Webhook events never alter what a cashout is about.  Whatever
    the event, after [dispatch] the cashout table has the same rows in the
    same order with the same id, address, amounts, currency, rate,
    transaction hash, payout id, bank account and creation time; only the
    status, the error message and the dates can differ; and when every
    cashout marked paid had a completion time, every one still has. *)
Theorem events_never_alter_what_a_cashout_is_about
        (w : World) (event : Event) (st : State) :
  let st' := snd (WebhookController.dispatch w event st) in
  map Requests.deposit_columns (cashouts st')
  = map Requests.deposit_columns (cashouts st)
  /\ (Forall Requests.stamped (cashouts st) ->
      Forall Requests.stamped (cashouts st')).
Proof.
  cbv zeta.
  destruct event as [p|p|p|intent|intent|intent|t];
    cbn [WebhookController.dispatch].
  - unfold WebhookController.handlePayoutPaid.
    destruct (Cashout.getCashoutByPayoutId _ _);
      [|split; [reflexivity|intros H; exact H]].
    cbn [snd with_cashouts cashouts].
    apply PayoutEventFacts.updateCashout_columns; reflexivity.
  - unfold WebhookController.handlePayoutFailed.
    destruct (Cashout.getCashoutByPayoutId _ _);
      [|split; [reflexivity|intros H; exact H]].
    cbn [snd with_cashouts cashouts].
    apply PayoutEventFacts.updateCashout_columns; reflexivity.
  - unfold WebhookController.handlePayoutCanceled.
    destruct (Cashout.getCashoutByPayoutId _ _);
      [|split; [reflexivity|intros H; exact H]].
    cbn [snd with_cashouts cashouts].
    apply PayoutEventFacts.updateCashout_columns; reflexivity.
  - destruct (SettlementFacts.succeeded_frame w intent st) as (-> & _).
    split; [reflexivity|intros H; exact H].
  - unfold WebhookController.handlePaymentIntentFailed.
    destruct (PaymentService.getPaymentByPaymentIntentId _ _);
      split; try reflexivity; intros H; exact H.
  - unfold WebhookController.handlePaymentIntentCanceled.
    destruct (PaymentService.getPaymentByPaymentIntentId _ _);
      split; try reflexivity; intros H; exact H.
  - split; [reflexivity|intros H; exact H].
Qed.

(* ================================================================== *)
(** * The cashout controller: further properties *)
(* ================================================================== *)

Module PayoutFacts.

Import CashoutController.

Lemma fiat_unchanged_by_checks (w : World) (req : Request) (st : State) :
  fiat_movements (snd (checks w req st)) = fiat_movements st.
Proof. apply CashoutFacts.checks_tables. Qed.

(** What passing the checks means. *)
Lemma checks_pass (w : World) (req : Request) (st : State) :
  fst (checks w req st) = None ->
  validate w req = None
  /\ Signature.verifySignature (verifyMessage w) (message req) (signature req)
                               (claimed_address req) = true
  /\ Signature.validateCashoutMessage (regExpEngine w) (message req)
                                      (claimed_address req) (amount req)
     = inr true
  /\ exists custody transfer,
      offrampWallet w = Some custody
      /\ Blockchain.verifyTransferTransaction w (txHash req) = inr transfer
      /\ JS.toLowerCase (from transfer) = JS.toLowerCase (claimed_address req)
      /\ JS.toLowerCase (to transfer) = JS.toLowerCase custody
      /\ JS.exceeds_tolerance (JS.parseFloat (Sys.amount transfer))
                              (JS.parseFloat (amount req)) = false.
Proof.
  unfold checks.
  destruct (validate w req) as [r|] eqn:Hv; [discriminate|].
  unfold authenticate.
  destruct (Signature.verifySignature _ _ _ _) eqn:Hs; cbn [negb]; [|discriminate].
  destruct (Signature.validateCashoutMessage _ _ _ _) as [e|[]] eqn:Hm;
    try discriminate.
  unfold verify_on_chain, Blockchain.getOfframpAddress.
  destruct (offrampWallet w) as [custody|] eqn:Hw; [|discriminate].
  destruct (Blockchain.verifyTransferTransaction w (txHash req)) as [e|t] eqn:Ht.
  - destruct (JS.message e); [|discriminate].
    destruct (JS.includes _ _ || JS.includes _ _)%bool; discriminate.
  - destruct (String.eqb (JS.toLowerCase (from t))
                         (JS.toLowerCase (claimed_address req))) eqn:Hfrom;
      cbn [negb]; [|discriminate].
    destruct (String.eqb (JS.toLowerCase (to t)) (JS.toLowerCase custody)) eqn:Hto;
      cbn [negb]; [|discriminate].
    destruct (JS.exceeds_tolerance _ _) eqn:Htol; [discriminate|].
    intros _. repeat split.
    exists custody, t. apply String.eqb_eq in Hfrom. apply String.eqb_eq in Hto.
    repeat split; assumption.
Qed.

Lemma find_append {A : Type} (p : A -> bool) (l more : list A) :
  find p (l ++ more)
  = match find p l with
    | Some a => Some a
    | None => find p more
    end.
Proof.
  induction l as [|a l IH]; [reflexivity|]. cbn [app find].
  destruct (p a); [reflexivity|exact IH].
Qed.

End PayoutFacts.

(** X22.  Fiat moves only for a verified deposit.  When [requestCashout]
    makes a payout or a platform transfer, the fields of the request were
    valid, the signature recovers to the claimed address,
    [validateCashoutMessage] returned true for the message, that address
    and that amount, the transaction was verified on chain as a transfer
    from the claimed address to the custody wallet of the requested amount
    within the tolerance, and no cashout existed for that transaction. *)
Theorem fiat_moves_only_for_a_verified_deposit
        (w : World) (req : CashoutController.Request) (st : State) :
  fiat_movements (snd (CashoutController.requestCashout w req st))
  <> fiat_movements st ->
  CashoutController.validate w req = None
  /\ Signature.verifySignature
       (verifyMessage w) (CashoutController.message req)
       (CashoutController.signature req) (CashoutController.claimed_address req)
     = true
  /\ Signature.validateCashoutMessage
       (regExpEngine w) (CashoutController.message req)
       (CashoutController.claimed_address req) (CashoutController.amount req)
     = inr true
  /\ (exists custody transfer,
         offrampWallet w = Some custody
         /\ Blockchain.verifyTransferTransaction w (CashoutController.txHash req)
            = inr transfer
         /\ JS.toLowerCase (from transfer)
            = JS.toLowerCase (CashoutController.claimed_address req)
         /\ JS.toLowerCase (to transfer) = JS.toLowerCase custody
         /\ JS.exceeds_tolerance (JS.parseFloat (amount transfer))
                                 (JS.parseFloat (CashoutController.amount req))
            = false)
  /\ Cashout.getCashoutByTxHash (CashoutController.txHash req) (cashouts st) = None.
Proof.
  intros Hmoved.
  pose proof (PayoutFacts.fiat_unchanged_by_checks w req st) as Hsame.
  pose proof (CashoutFacts.checks_tables w req st) as [Hrows _].
  unfold CashoutController.requestCashout in Hmoved.
  destruct (CashoutController.checks w req st) as [[r|] st1] eqn:Hc;
    cbn [snd] in *; [congruence|].
  destruct (Cashout.getCashoutByTxHash (CashoutController.txHash req) (cashouts st1))
    as [c|] eqn:He; [cbn [snd] in Hmoved; congruence|].
  assert (Hpass : fst (CashoutController.checks w req st) = None)
    by (rewrite Hc; reflexivity).
  destruct (PayoutFacts.checks_pass w req st Hpass) as (H1 & H2 & H3 & H4).
  repeat split; try assumption. rewrite <- Hrows. exact He.
Qed.

(** The deposit of alice is paid out. *)
Lemma the_payout_of_alice_follows_her_deposit :
  exists custody transfer,
    offrampWallet world = Some custody
    /\ Blockchain.verifyTransferTransaction
         world (CashoutController.txHash cashout_request) = inr transfer
    /\ JS.toLowerCase (from transfer)
       = JS.toLowerCase (CashoutController.claimed_address cashout_request)
    /\ JS.toLowerCase (to transfer) = JS.toLowerCase custody
    /\ JS.exceeds_tolerance
         (JS.parseFloat (amount transfer))
         (JS.parseFloat (CashoutController.amount cashout_request))
       = false.
Proof.
  destruct (fiat_moves_only_for_a_verified_deposit world cashout_request empty)
    as (_ & _ & _ & H & _); [|exact H].
  vm_compute. discriminate.
Defined.

(** X23.  The signed message binds the address, the amount and nothing
    else: a request that passes the checks passes them as well with any
    other bank account, connected account and supported currency, the
    message, the signature and the transaction hash being the same. *)
Theorem the_signed_message_does_not_bind_the_destination
        (w : World) (req : CashoutController.Request) (st : State)
        (bankAccountId connectedAccountId currency : string) :
  fst (CashoutController.checks w req st) = None ->
  JS.truthy bankAccountId = true ->
  JS.truthy currency = true ->
  CashoutController.supported_currency currency = true ->
  fst (CashoutController.checks
         w (Requests.redirected bankAccountId connectedAccountId currency req) st)
  = None.
Proof.
  intros Hpass Hb Hc Hs.
  assert (Hv : CashoutController.validate
                 w (Requests.redirected bankAccountId connectedAccountId currency req)
               = None).
  { destruct (PayoutFacts.checks_pass w req st Hpass) as (Hv & _).
    revert Hv. unfold CashoutController.validate, CashoutController.claimed_address.
    cbn [Requests.redirected CashoutController.employeeAddress
         CashoutController.address CashoutController.amount
         CashoutController.currency CashoutController.bankAccountId
         CashoutController.signature CashoutController.message
         CashoutController.txHash].
    rewrite Hb, Hc, Hs. cbn [negb orb].
    repeat match goal with
           | |- context [if ?b then _ else _] =>
             destruct b eqn:?; try discriminate
           end.
    reflexivity. }
  revert Hpass. unfold CashoutController.checks. rewrite Hv.
  destruct (CashoutController.validate w req); [discriminate|].
  unfold CashoutController.authenticate, CashoutController.verify_on_chain,
    CashoutController.claimed_address.
  cbn [Requests.redirected CashoutController.employeeAddress
       CashoutController.address CashoutController.amount
       CashoutController.signature CashoutController.message
       CashoutController.txHash].
  intros H; exact H.
Qed.

(** The request signed by alice, sent on to another bank account. *)
Lemma the_request_of_alice_redirected_passes :
  fst (CashoutController.checks
         world (Requests.redirected "ba_666" "acct_666" "eur" cashout_request)
         empty)
  = None.
Proof.
  apply (the_signed_message_does_not_bind_the_destination
           world cashout_request empty "ba_666" "acct_666" "eur");
    reflexivity.
Defined.

(** X24.  A payout that the processor refuses leaves the deposit spent.
    When a request passes the checks, no cashout exists for its
    transaction and the processor refuses every payout and platform
    transfer, [requestCashout] answers 500 and keeps the cashout row, marked
    [failed] with the message of the error and no payout id; from then on a
    request for the same transaction that passes the checks is answered
    with that failed row, and no payout is attempted for it. *)
Theorem a_refused_payout_leaves_the_deposit_spent
        (w w2 : World) (req req2 : CashoutController.Request) (st : State)
        (e : JS.error) :
  fst (CashoutController.checks w req st) = None ->
  Cashout.getCashoutByTxHash (CashoutController.txHash req) (cashouts st) = None ->
  (forall amount currency destination account,
      createPayout w amount currency destination account = inl e) ->
  (forall amount currency destination,
      transferToConnectedAccount w amount currency destination = inl e) ->
  let run := CashoutController.requestCashout w req st in
  CashoutController.status (fst run) = 500
  /\ (exists c,
         Cashout.getCashoutByTxHash (CashoutController.txHash req)
                                    (cashouts (snd run)) = Some c
         /\ Cashout.status c = Cashout.failed
         /\ Cashout.payout_id_stripe c = None
         /\ Cashout.error_message c
            = Some (JS.message_or e "Failed to create Stripe payout")
         /\ (CashoutController.txHash req2 = CashoutController.txHash req ->
             fst (CashoutController.checks w2 req2 (snd run)) = None ->
             let again := CashoutController.requestCashout w2 req2 (snd run) in
             fst again
             = CashoutController.mkResponse
                 200 (CashoutController.existing
                        (Cashout.id c) Cashout.failed None (Cashout.fiat_amount c)
                        (Cashout.fiat_currency c) (CashoutController.txHash req2))
             /\ fiat_movements (snd again) = fiat_movements (snd run))).
Proof.
  intros Hpass Hnew Hpayout Htransfer. cbv zeta.
  pose proof (CashoutFacts.checks_tables w req st) as [Hrows _].
  destruct (CashoutController.requestCashout w req st) as [response stF] eqn:Hrun.
  unfold CashoutController.requestCashout in Hrun.
  destruct (CashoutController.checks w req st) as [[r|] st1] eqn:Hc;
    [discriminate|]. cbn [snd] in Hrows.
  rewrite Hrows, Hnew in Hrun.
  unfold CashoutController.settle in Hrun. cbn [insert_cashout] in Hrun.
  set (row := Cashout.createCashout _ _ _ _ _ _ _ _ _ _ _ _) in Hrun.
  set (st2 := mkState _ _ _ _ _) in Hrun.
  assert (Hfail : exists st3,
             CashoutController.create_payout
               w req
               (PrimFloat.mul
                  (JS.parseFloat (CashoutController.amount req))
                  match getExchangeRate
                          w "usdt" (JS.toLowerCase (CashoutController.currency req))
                  with
                  | inl _ => 1%float
                  | inr rate => rate
                  end) st2 = (inl e, st3)
             /\ cashouts st3 = cashouts st2).
  { unfold CashoutController.create_payout.
    destruct (JS.truthy (CashoutController.connectedAccountId req)).
    - rewrite Htransfer. eexists. split; reflexivity.
    - rewrite Hpayout. eexists. split; reflexivity. }
  destruct Hfail as (st3 & Hpay & Hst3). rewrite Hpay in Hrun.
  injection Hrun as <- <-.
  cbn [fst snd CashoutController.status with_cashouts cashouts].
  split; [reflexivity|].
  assert (Hfound : Cashout.getCashoutByTxHash
                     (CashoutController.txHash req)
                     (Cashout.updateCashout
                        (now w) (Cashout.id row)
                        (Cashout.status_and_error
                           Cashout.failed
                           (JS.message_or e "Failed to create Stripe payout"))
                        (cashouts st3))
                   = Some (Cashout.apply_updates
                             (now w)
                             (Cashout.status_and_error
                                Cashout.failed
                                (JS.message_or e "Failed to create Stripe payout"))
                             row)).
  { rewrite Hst3. subst st2. cbn [cashouts].
    unfold Cashout.updateCashout, Cashout.getCashoutByTxHash.
    replace (Cashout.no_fields
               (Cashout.status_and_error
                  Cashout.failed (JS.message_or e "Failed to create Stripe payout")))
      with false by reflexivity.
    rewrite (TransferFacts.find_map_same_key
               Cashout.tx_hash_onchain String.eqb (CashoutController.txHash req))
      by (intros a; destruct (Nat.eqb (Cashout.id a) (Cashout.id row)); reflexivity).
    rewrite Hrows, PayoutFacts.find_append.
    unfold Cashout.getCashoutByTxHash in Hnew. rewrite Hnew.
    cbn [find]. subst row.
    cbn [Cashout.createCashout Cashout.tx_hash_onchain Cashout.id].
    rewrite String.eqb_refl. cbn [option_map]. rewrite Nat.eqb_refl. reflexivity. }
  eexists. split; [exact Hfound|].
  split; [reflexivity|]. split; [reflexivity|]. split; [reflexivity|].
  intros Hsame Hpass2.
  set (st4 := with_cashouts _ st3) in *.
  pose proof (CashoutFacts.checks_tables w2 req2 st4) as [Hrows2 Hfiat2].
  unfold CashoutController.requestCashout.
  destruct (CashoutController.checks w2 req2 st4) as [[r|] st5] eqn:Hc2;
    [discriminate Hpass2|]. cbn [snd] in Hrows2, Hfiat2.
  rewrite Hrows2, Hsame. subst st4. cbn [with_cashouts cashouts].
  change (Cashout.id row) with (next_id st1) in Hfound. rewrite Hfound.
  cbn [fst snd]. split; [|exact Hfiat2].
  subst row. reflexivity.
Qed.

(** The processor refuses the payout of alice. *)
Lemma the_refused_payout_of_alice_is_answered_500 :
  CashoutController.status
    (fst (CashoutController.requestCashout Cases.refusing cashout_request empty))
  = 500.
Proof.
  destruct (a_refused_payout_leaves_the_deposit_spent
              Cases.refusing world cashout_request cashout_request empty
              Cases.payout_refused eq_refl eq_refl) as [H _].
  - intros; reflexivity.
  - intros; reflexivity.
  - exact H.
Defined.

(* ================================================================== *)
(** * The cashout message: what else is accepted *)
(* ================================================================== *)

(** X25.  The older layouts of the message are accepted: with a single
    line break, or a single space, between the timestamp and the address
    line instead of the blank line [createCashoutMessage] writes, the
    message is accepted by [validateCashoutMessage] for that address (in
    any letter case) and amount; the address of letters and digits, the
    amount of digits and dots, the timestamp of ASCII characters, not empty
    and without line terminator. *)
Theorem the_older_layouts_are_accepted
        (engine : Signature.Engine) (address claimed amount timestamp : string) :
  JS.all_chars JS.is_alnum address = true ->
  JS.toLowerCase claimed = JS.toLowerCase address ->
  Messages.decimal amount = true ->
  Messages.one_line timestamp = true ->
  Signature.validateCashoutMessage
    engine (Messages.layout Signature.nl address amount timestamp) claimed amount
  = inr true
  /\ Signature.validateCashoutMessage
       engine (Messages.layout " " address amount timestamp) claimed amount
     = inr true.
Proof.
  intros Haddr Hcase Hdec Htime.
  split.
  - pose proof (MessageFacts.accepted
                  engine EmptyString EmptyString Signature.nl address claimed
                  amount amount timestamp eq_refl eq_refl
                  Haddr Hcase Hdec (MessageFacts.reads_as_itself amount Hdec)
                  Htime (or_intror (or_introl eq_refl))) as H.
    rewrite MessageFacts.append_empty in H. exact H.
  - pose proof (MessageFacts.accepted
                  engine EmptyString EmptyString " " address claimed amount
                  amount timestamp eq_refl eq_refl
                  Haddr Hcase Hdec (MessageFacts.reads_as_itself amount Hdec)
                  Htime (or_intror (or_intror eq_refl))) as H.
    rewrite MessageFacts.append_empty in H. exact H.
Qed.

(** The request of alice with a single line break, and with a space. *)
Lemma the_request_of_alice_in_the_older_layouts :
  Signature.validateCashoutMessage
    (regExpEngine world)
    (Messages.layout Signature.nl alice "5.0" "2024-05-01T10:00:00.000Z")
    (JS.toUpperCase alice) "5.0"
  = inr true
  /\ Signature.validateCashoutMessage
       (regExpEngine world)
       (Messages.layout " " alice "5.0" "2024-05-01T10:00:00.000Z")
       (JS.toUpperCase alice) "5.0"
     = inr true.
Proof.
  apply the_older_layouts_are_accepted; reflexivity.
Defined.

(** X26.  The patterns are not anchored: an ASCII text that contains the
    cashout message is accepted as the message is, whatever precedes it
    and whatever follows it; in particular the address of the message may
    go on after the address of the request. *)
Theorem text_around_the_message_is_ignored
        (engine : Signature.Engine)
        (before after address claimed amount timestamp : string) :
  JS.ascii_only before = true ->
  JS.ascii_only after = true ->
  JS.all_chars JS.is_alnum address = true ->
  JS.toLowerCase claimed = JS.toLowerCase address ->
  Messages.decimal amount = true ->
  Messages.one_line timestamp = true ->
  Signature.validateCashoutMessage
    engine
    (before ++ Signature.createCashoutMessage address amount timestamp ++ after)
    claimed amount
  = inr true.
Proof.
  intros Hbefore Hafter Haddr Hcase Hdec Htime.
  exact (MessageFacts.accepted
           engine before after (Signature.nl ++ Signature.nl) address claimed
           amount amount timestamp Hbefore Hafter Haddr Hcase Hdec
           (MessageFacts.reads_as_itself amount Hdec) Htime (or_introl eq_refl)).
Qed.

(** A message about the address of alice followed by two more characters,
    accepted for alice. *)
Lemma a_longer_address_passes_for_alice :
  Signature.validateCashoutMessage
    (regExpEngine world)
    ("Note: "
       ++ Signature.createCashoutMessage alice "5.0" "2024-05-01T10:00:00.000Z"
       ++ "ff")
    alice "5.0"
  = inr true.
Proof.
  apply (text_around_the_message_is_ignored
           (regExpEngine world)
           "Note: " "ff" alice alice "5.0" "2024-05-01T10:00:00.000Z");
    reflexivity.
Defined.

(** X27.  The amount of the request is spliced into the pattern as it is,
    so its dot matches any character: a message whose amount has any ASCII
    character (other than a line terminator) where the requested amount
    has a dot, and the same digits elsewhere, is accepted for the
    requested amount. *)
Theorem the_dot_of_the_amount_matches_any_character
        (engine : Signature.Engine)
        (address claimed amount written timestamp : string) :
  JS.all_chars JS.is_alnum address = true ->
  JS.toLowerCase claimed = JS.toLowerCase address ->
  Messages.decimal amount = true ->
  Messages.reads_as amount written ->
  Messages.one_line timestamp = true ->
  Signature.validateCashoutMessage
    engine (Signature.createCashoutMessage address written timestamp)
    claimed amount
  = inr true.
Proof.
  intros Haddr Hcase Hdec Hreads Htime.
  pose proof (MessageFacts.accepted
                engine EmptyString EmptyString (Signature.nl ++ Signature.nl)
                address claimed amount written timestamp eq_refl eq_refl
                Haddr Hcase Hdec Hreads Htime (or_introl eq_refl)) as H.
  rewrite MessageFacts.append_empty in H. exact H.
Qed.

(** A message signed for 1050 USDT, accepted for a request of 1.50. *)
Lemma a_message_for_1050_passes_for_1_50 :
  Signature.validateCashoutMessage
    (regExpEngine world)
    (Signature.createCashoutMessage alice "1050" "2024-05-01T10:00:00.000Z")
    alice "1.50"
  = inr true.
Proof.
  apply (the_dot_of_the_amount_matches_any_character
           (regExpEngine world)
           alice alice "1.50" "1050" "2024-05-01T10:00:00.000Z");
    try reflexivity.
  unfold Messages.reads_as. cbn.
  repeat (constructor; [try split; reflexivity|]). constructor.
Defined.

(* ================================================================== *)
(** * Chain verification: what a verified transaction is *)
(* ================================================================== *)

Module ChainFacts.

Lemma payroll_transfers_sent_by (w : World) (employer : string)
      (entries : list Log) :
  Forall (Decoded.sent_by w employer entries)
         (Blockchain.payroll_transfers w employer entries).
Proof.
  induction entries as [|log rest IH]; [constructor|].
  assert (Hrest : Forall (Decoded.sent_by w employer (log :: rest))
                         (Blockchain.payroll_transfers w employer rest)).
  { apply (Forall_impl _ (P := Decoded.sent_by w employer rest)); [|exact IH].
    intros t (l & ev & d & Hin & Hrest). exists l, ev, d.
    split; [right; exact Hin | exact Hrest]. }
  cbn [Blockchain.payroll_transfers].
  destruct (parseLog log) as [e|[ev|]] eqn:Hlog; try exact Hrest.
  destruct (String.eqb (name ev) "Transfer") eqn:Hname; [|exact Hrest].
  destruct (String.eqb (JS.toLowerCase (arg_from ev)) (JS.toLowerCase employer))
    eqn:Hfrom; [|exact Hrest].
  cbn [andb]. destruct (decimals w) as [e|d] eqn:Hd; [exact Hrest|].
  constructor; [|exact Hrest].
  exists log, ev, d. apply String.eqb_eq in Hname, Hfrom.
  repeat split; try assumption. left. reflexivity.
Qed.

End ChainFacts.

(** X28.  What a verified payroll transaction is: when
    [verifyPayrollTransaction] returns, the receipt of the transaction
    exists with status 1, the transaction was sent by the expected
    employer (addresses compared in lower case), the block number returned
    is that of the receipt, and the transfers returned are not empty, each
    of them decoded from a [Transfer] event of the receipt sent by the
    employer. *)
Theorem a_verified_payroll_transaction_is_from_the_employer
        (w : World) (txHash expectedEmployer : string)
        (transfers : list Transfer) (block : Z) :
  Blockchain.verifyPayrollTransaction w txHash expectedEmployer
  = inr (transfers, block) ->
  exists receipt tx,
    getTransactionReceipt w txHash = inr (Some receipt)
    /\ receipt_status receipt = Some 1
    /\ getTransaction w txHash = inr (Some tx)
    /\ JS.toLowerCase (tx_from tx) = JS.toLowerCase expectedEmployer
    /\ block = blockNumber receipt
    /\ transfers <> []
    /\ Forall (Decoded.sent_by w expectedEmployer (logs receipt)) transfers.
Proof.
  unfold Blockchain.verifyPayrollTransaction, Blockchain.decode_payroll.
  destruct (getTransactionReceipt w txHash) as [e|[receipt|]] eqn:Hreceipt;
    try discriminate.
  destruct (Blockchain.reverted receipt) eqn:Hstatus; [discriminate|].
  destruct (getTransaction w txHash) as [e|[tx|]] eqn:Htx; try discriminate.
  destruct (String.eqb (JS.toLowerCase (tx_from tx))
                       (JS.toLowerCase expectedEmployer)) eqn:Hfrom;
    [|discriminate].
  cbn [negb].
  pose proof (ChainFacts.payroll_transfers_sent_by
                w expectedEmployer (logs receipt)) as Hsent.
  destruct (Blockchain.payroll_transfers w expectedEmployer (logs receipt))
    as [|t rest]; [discriminate|].
  intros H. injection H as <- <-.
  exists receipt, tx. apply String.eqb_eq in Hfrom.
  unfold Blockchain.reverted in Hstatus.
  repeat split; try assumption; try discriminate.
  destruct (receipt_status receipt) as [[|[|n]]|]; try discriminate Hstatus.
  reflexivity.
Qed.

(** The transaction of the employer that pays alice three tokens. *)
Lemma the_payment_of_alice_is_from_the_employer :
  exists receipt tx,
    getTransactionReceipt (pays_alice (tokens 3)) settlement = inr (Some receipt)
    /\ receipt_status receipt = Some 1
    /\ getTransaction (pays_alice (tokens 3)) settlement = inr (Some tx)
    /\ JS.toLowerCase (tx_from tx) = JS.toLowerCase employer
    /\ 42%Z = blockNumber receipt
    /\ [mkTransfer employer alice "3.0"] <> []
    /\ Forall (Decoded.sent_by (pays_alice (tokens 3)) employer (logs receipt))
              [mkTransfer employer alice "3.0"].
Proof.
  apply (a_verified_payroll_transaction_is_from_the_employer
           (pays_alice (tokens 3)) settlement employer
           [mkTransfer employer alice "3.0"] 42%Z).
  vm_compute. reflexivity.
Defined.

(** X29.  What a verified transfer is: when [verifyTransferTransaction]
    returns, the receipt exists with status 1 and the transfer returned is
    decoded from the first log of the receipt, which is a [Transfer]
    event; the other logs are not read, nor is the sender of the
    transaction. *)
Theorem a_verified_transfer_is_the_first_log
        (w : World) (txHash : string) (t : Transfer) :
  Blockchain.verifyTransferTransaction w txHash = inr t ->
  exists receipt log others ev d,
    getTransactionReceipt w txHash = inr (Some receipt)
    /\ receipt_status receipt = Some 1
    /\ logs receipt = log :: others
    /\ Decoded.is_transfer log ev
    /\ decimals w = inr d
    /\ t = Decoded.transfer_of w d ev.
Proof.
  unfold Blockchain.verifyTransferTransaction.
  destruct (Blockchain.decode_transfer w txHash) as [e|t'] eqn:Hdecode.
  - destruct (_ || _); [discriminate|]. destruct (JS.includes _ _); discriminate.
  - intros H. injection H as <-. revert Hdecode.
    unfold Blockchain.decode_transfer.
    destruct (getTransactionReceipt w txHash) as [e|[receipt|]] eqn:Hreceipt;
      try discriminate.
    destruct (Blockchain.reverted receipt) eqn:Hstatus; [discriminate|].
    destruct (getTransaction w txHash) as [e|[tx|]]; try discriminate.
    destruct (logs receipt) as [|log others] eqn:Hlogs; [discriminate|].
    destruct (parseLog log) as [e|[ev|]] eqn:Hlog; try discriminate.
    destruct (String.eqb (name ev) "Transfer") eqn:Hname; [|discriminate].
    destruct (decimals w) as [e|d] eqn:Hd; [discriminate|].
    intros H. injection H as <-.
    exists receipt, log, others, ev, d. apply String.eqb_eq in Hname.
    unfold Blockchain.reverted in Hstatus.
    repeat split; try assumption; try reflexivity.
    destruct (receipt_status receipt) as [[|[|n]]|]; try discriminate Hstatus.
    reflexivity.
Qed.

(** The deposit read from the transaction of the employer to alice. *)
Lemma the_transfer_to_alice_is_the_first_log :
  exists receipt log others ev d,
    getTransactionReceipt (pays_alice (tokens 3)) settlement = inr (Some receipt)
    /\ receipt_status receipt = Some 1
    /\ logs receipt = log :: others
    /\ Decoded.is_transfer log ev
    /\ decimals (pays_alice (tokens 3)) = inr d
    /\ mkTransfer employer alice "3.0"
       = Decoded.transfer_of (pays_alice (tokens 3)) d ev.
Proof.
  apply (a_verified_transfer_is_the_first_log
           (pays_alice (tokens 3)) settlement (mkTransfer employer alice "3.0")).
  vm_compute. reflexivity.
Defined.
